(** * 3T-FIT V4 pipeline: feature engineering, classification and decoding

    A shallow embedding of the numeric core of the [ai_server] package:

    - [two_branch_model_v4.py]: class [IntensityCoefficientsCalculator];
    - [data_cleaning_v4.py]: class [V4DataCleaner] (workout parser,
      intensity coefficients, SePA mapping, readiness factor);
    - [evaluate_v4_model.py]: [WORKOUT_GOAL_MAPPING_V4],
      [SuitabilityClassifier], [V4ModelEvaluator.decode_intensity_to_workout];
    - [app/services/recommendation_v4.py]: [_map_sepa_to_numeric],
      [recommend_v4], [_prepare_input_vector];
    - further functions of the same files: the exercise encoders of
      [V4Dataset], [_standardize_columns] and [_basic_cleaning] of the
      trainer, [standardize_sepa_features] and
      [_calculate_enhanced_suitability] of the cleaner,
      [calculate_score_distribution] and [_evaluate_workout_quality] of
      the evaluator;
    - [Data/merge_exercise_dataset.py]: [normalize].

    Number model.  Finite Python [float] and [int] values are embedded
    as exact rationals ([Q]) and integers ([Z]), and equalities between
    computed numbers are stated with [==] ([Qeq]); binary64 rounding is
    outside the model.  Where the code can be handed nan or an infinity
    (the fields of a workout string, a SePA cell, the experience cell)
    the numbers are {!PyFloat.t} values, and the functions on finite
    floats are related to them by the lemmas [process_finite] and
    [calculate_finite].  Text is embedded as byte strings; the character
    classes of [str.strip] and [str.lower] are the ASCII ones. *)

From Stdlib Require Import ZArith QArith Qround Qminmax Qabs Lia Lqa Bool List.
From Stdlib Require Import Sorted Ascii String.
Import ListNotations.

#[local] Open Scope Z_scope.
#[local] Open Scope Q_scope.

(** ** Python numerics *)

Module Py.

(** Boolean comparisons on floats. *)
Definition ltb (x y : Q) : bool := negb (Qle_bool y x).
Definition leb (x y : Q) : bool := Qle_bool x y.
Definition gtb (x y : Q) : bool := ltb y x.
Definition geb (x y : Q) : bool := leb y x.

(** Builtin [max(a, b)] and [min(a, b)]: the first argument wins ties. *)
Definition max (a b : Q) : Q := if gtb b a then b else a.
Definition min (a b : Q) : Q := if ltb b a then b else a.

(** [np.clip(x, lo, hi)] is [minimum(maximum(x, lo), hi)]. *)
Definition clip (x lo hi : Q) : Q :=
  let y := if ltb x lo then lo else x in
  if gtb y hi then hi else y.

(** [int(x)] on a float truncates toward zero. *)
Definition int (x : Q) : Z := Z.quot (Qnum x) (Z.pos (Qden x)).

(** [round(x, ndigits)] on the exact value: nearest multiple of
    [10^-ndigits], ties to the even neighbour. *)
Definition round_half_even (x : Q) : Z :=
  let f := Qfloor x in
  let r := x - inject_Z f in
  if ltb r (1 # 2) then f
  else if gtb r (1 # 2) then (f + 1)%Z
  else if Z.even f then f else (f + 1)%Z.

Definition round (x : Q) (ndigits : nat) : Q :=
  let scale := inject_Z (10 ^ Z.of_nat ndigits) in
  inject_Z (round_half_even (x * scale)) / scale.

(** Exceptions that the modelled code can meet. *)
Inductive exn : Type :=
| ValueError
| IndexError
| ModelNotLoaded.

Inductive result (A : Type) : Type :=
| Ok (a : A)
| Raise (e : exn).
Arguments Ok {A} a.
Arguments Raise {A} e.

Definition bind {A B} (m : result A) (k : A -> result B) : result B :=
  match m with
  | Ok a => k a
  | Raise e => Raise e
  end.

End Py.

Notation "x <- m ;; k" := (Py.bind m (fun x => k))
  (at level 61, m at next level, right associativity).

(** ** Python text *)

Module Str.

#[local] Open Scope string_scope.
#[local] Open Scope char_scope.

(** [s.split(sep)] for a one-character separator. *)
Fixpoint split (sep : ascii) (s : string) : list string :=
  match s with
  | EmptyString => [EmptyString]
  | String c rest =>
      if Ascii.eqb c sep then EmptyString :: split sep rest
      else match split sep rest with
           | [] => [String c EmptyString]
           | hd :: tl => String c hd :: tl
           end
  end.

(** ASCII white space as recognised by [str.isspace]. *)
Definition isspace (c : ascii) : bool :=
  let n := nat_of_ascii c in
  ((9 <=? n) && (n <=? 13) || (28 <=? n) && (n <=? 32))%nat.

Fixpoint lstrip (s : string) : string :=
  match s with
  | String c rest => if isspace c then lstrip rest else s
  | EmptyString => EmptyString
  end.

Fixpoint rstrip (s : string) : string :=
  match s with
  | EmptyString => EmptyString
  | String c rest =>
      match rstrip rest with
      | EmptyString => if isspace c then EmptyString else String c EmptyString
      | r => String c r
      end
  end.

Definition strip (s : string) : string := rstrip (lstrip s).

Definition lower_char (c : ascii) : ascii :=
  let n := nat_of_ascii c in
  if ((65 <=? n) && (n <=? 90))%nat then ascii_of_nat (n + 32) else c.

Fixpoint lower (s : string) : string :=
  match s with
  | EmptyString => EmptyString
  | String c rest => String (lower_char c) (lower rest)
  end.

(** *** The decimal fragment of the builtin [float(str)]

    [[ws] [+|-] digits [. digits] [ws]] with at least one digit.  Exponents,
    underscores and the [inf]/[nan] spellings are not modelled: the
    general results below take the conversion as a parameter and use this
    function only on literals of the fragment. *)

Definition digit (c : ascii) : option Z :=
  let n := nat_of_ascii c in
  if ((48 <=? n) && (n <=? 57))%nat then Some (Z.of_nat (n - 48)) else None.

(** Reads [digits [. digits]] left to right; [num] is the integer read so
    far, [den] the power of ten of the fraction, [seen] whether a digit
    was met and [frac] whether the point was passed. *)
Fixpoint decimal (s : string) (num : Z) (den : positive) (seen frac : bool)
  : option Q :=
  match s with
  | EmptyString => if seen then Some (num # den) else None
  | String c rest =>
      match digit c with
      | Some d =>
          decimal rest (10 * num + d)%Z (if frac then (10 * den)%positive else den)
                  true frac
      | None =>
          if Ascii.eqb c "." && negb frac then decimal rest num den seen true
          else None
      end
  end.

Definition float (s : string) : option Q :=
  match strip s with
  | String "-" rest => option_map Qopp (decimal rest 0 1 false false)
  | String "+" rest => decimal rest 0 1 false false
  | t => decimal t 0 1 false false
  end.

End Str.

(** ** Further Python behaviour *)

Module PyX.

(** Exceptions met by the functions below; [ModelNotLoaded] is the
    [Exception] that [recommend_v4] raises itself. *)
Inductive error : Type :=
| KeyError
| ZeroDivisionError
| ValueError
| TypeError
| OverflowError
| NameError
| IndexError
| ModelNotLoaded.

Inductive outcome (A : Type) : Type :=
| Done (a : A)
| Fail (e : error).
Arguments Done {A} a.
Arguments Fail {A} e.

Definition and_then {A B} (m : outcome A) (k : A -> outcome B) : outcome B :=
  match m with
  | Done a => k a
  | Fail e => Fail e
  end.

(** [x / y] on floats. *)
Definition div (x y : Q) : outcome Q :=
  if Qeq_bool y 0 then Fail ZeroDivisionError else Done (x / y).

(** [needle in hay] on strings. *)
Fixpoint contains (needle hay : string) : bool :=
  String.prefix needle hay
  || match hay with
     | EmptyString => false
     | String _ rest => contains needle rest
     end.

(** [any(word in name for word in words)] *)
Definition any_in (words : list string) (name : string) : bool :=
  existsb (fun word => contains word name) words.

(** [1.0 if b else 0.0] *)
Definition indicator (b : bool) : Q := if b then 1 else 0.

End PyX.

(** ** Python floats with their special values

    A float is a finite value, kept exact, an infinity or nan.  The
    operations follow IEEE 754 on the special values; signed zeros and
    the rounding of finite results are outside the model. *)

Module PyFloat.

Inductive t : Type :=
| finite (q : Q)
| inf
| neg_inf
| nan.

Definition opp (x : t) : t :=
  match x with
  | finite a => finite (- a)
  | inf => neg_inf
  | neg_inf => inf
  | nan => nan
  end.

Definition add (x y : t) : t :=
  match x, y with
  | nan, _ | _, nan => nan
  | finite a, finite b => finite (a + b)
  | inf, neg_inf | neg_inf, inf => nan
  | inf, _ | _, inf => inf
  | neg_inf, _ | _, neg_inf => neg_inf
  end.

Definition sub (x y : t) : t := add x (opp y).

(** An infinity times a finite value. *)
Definition scale (x : t) (b : Q) : t :=
  match b ?= 0 with
  | Eq => nan
  | Gt => x
  | Lt => opp x
  end.

Definition mul (x y : t) : t :=
  match x, y with
  | nan, _ | _, nan => nan
  | finite a, finite b => finite (a * b)
  | finite a, y => scale y a
  | x, finite b => scale x b
  | inf, inf | neg_inf, neg_inf => inf
  | inf, neg_inf | neg_inf, inf => neg_inf
  end.

(** [x / y] on Python floats: a zero divisor raises, whatever [x]. *)
Definition div (x y : t) : PyX.outcome t :=
  match y with
  | finite b =>
      if Qeq_bool b 0 then PyX.Fail PyX.ZeroDivisionError
      else match x with
           | finite a => PyX.Done (finite (a / b))
           | nan => PyX.Done nan
           | x => PyX.Done (scale x b)
           end
  | nan => PyX.Done nan
  | inf | neg_inf =>
      match x with
      | finite _ => PyX.Done (finite 0)
      | _ => PyX.Done nan
      end
  end.

(** Comparisons: every comparison with nan is false. *)
Definition ltb (x y : t) : bool :=
  match x, y with
  | nan, _ | _, nan => false
  | finite a, finite b => Py.ltb a b
  | neg_inf, neg_inf => false
  | neg_inf, _ => true
  | _, neg_inf => false
  | inf, _ => false
  | finite _, inf => true
  end.

Definition leb (x y : t) : bool :=
  match x, y with
  | nan, _ | _, nan => false
  | finite a, finite b => Py.leb a b
  | neg_inf, _ => true
  | _, neg_inf => false
  | _, inf => true
  | inf, finite _ => false
  end.

Definition gtb (x y : t) : bool := ltb y x.
Definition geb (x y : t) : bool := leb y x.

(** Builtin [max(a, b)] and [min(a, b)]: the first argument is kept
    unless the second compares beyond it. *)
Definition max (a b : t) : t := if gtb b a then b else a.
Definition min (a b : t) : t := if ltb b a then b else a.

(** [np.clip(x, lo, hi)] with finite bounds: nan stays nan. *)
Definition clip (x : t) (lo hi : Q) : t :=
  match x with
  | nan => nan
  | _ =>
      let y := if ltb x (finite lo) then finite lo else x in
      if gtb y (finite hi) then finite hi else y
  end.

(** [int(x)]: truncation of a finite value; [OverflowError] on an
    infinity and [ValueError] on nan. *)
Definition int (x : t) : PyX.outcome Z :=
  match x with
  | finite q => PyX.Done (Py.int q)
  | inf | neg_inf => PyX.Fail PyX.OverflowError
  | nan => PyX.Fail PyX.ValueError
  end.

(** [float(str)] on the fragment of {!Str.float} and on the spellings
    [inf], [infinity] and [nan] of the special values, in any case, with
    an optional sign and white space around. *)
Definition special (s : string) : option t :=
  let s := Str.lower (Str.strip s) in
  let unsigned (body : string) : option bool :=
    if String.eqb body "inf" || String.eqb body "infinity" then Some true
    else if String.eqb body "nan" then Some false
    else None in
  match s with
  | String "-"%char body =>
      match unsigned body with
      | Some true => Some neg_inf
      | Some false => Some nan
      | None => None
      end
  | String "+"%char body =>
      match unsigned body with
      | Some true => Some inf
      | Some false => Some nan
      | None => None
      end
  | _ =>
      match unsigned s with
      | Some true => Some inf
      | Some false => Some nan
      | None => None
      end
  end.

Definition float (s : string) : option t :=
  match special s with
  | Some x => Some x
  | None => option_map finite (Str.float s)
  end.

End PyFloat.

(** ** Workout strings: ["reps x weight x sets | reps x weight x sets"] *)

(** One parsed exercise, the tuple [(reps, weight, sets)]. *)
Definition ExerciseSet : Type := (Q * Q * Q)%type.

Section WorkoutSegments.

(** The builtin [float(str)]: [None] stands for [ValueError]. *)
Variable float : string -> option Q.

Definition to_float (s : string) : Py.result Q :=
  match float s with
  | Some q => Py.Ok q
  | None => Py.Raise Py.ValueError
  end.

(** The statements shared by the two parsing loops:
[[
    parts = exercise_set.strip().split('x')
    if len(parts) >= 2:
        reps = float(parts[0])
        weight = float(parts[1])
        sets = float(parts[2]) if len(parts) > 2 else 1
]]
    [Ok None] when the guard [len(parts) >= 2] fails. *)
Definition read_segment (exercise_set : string)
  : Py.result (option ExerciseSet) :=
  match Str.split "x" (Str.strip exercise_set) with
  | p0 :: p1 :: rest =>
      reps <- to_float p0 ;;
      weight <- to_float p1 ;;
      sets <- match rest with
              | p2 :: _ => to_float p2
              | [] => Py.Ok 1
              end ;;
      Py.Ok (Some (reps, weight, sets))
  | _ => Py.Ok None
  end.

(** [reps > 0 and weight > 0 and sets > 0] *)
Definition positive_fields (e : ExerciseSet) : bool :=
  let '(reps, weight, sets) := e in
  Py.gtb reps 0 && Py.gtb weight 0 && Py.gtb sets 0.

End WorkoutSegments.

(** ** [two_branch_model_v4.py]: [IntensityCoefficientsCalculator]

    The calculator on finite floats: [float] converts a field to a
    rational or fails.  {!Ieee.IntensityCoefficientsCalculator} is the
    same code on floats with nan and the infinities. *)

Module IntensityCoefficientsCalculator.

Record Coefficients : Type := {
  resistance_intensity : Q;
  cardio_intensity : Q;
  volume_load : Q;
  rest_density : Q;
  tempo_factor : Q
}.

Definition calculate_resistance_intensity (weight reps user_1rm : Q) : Q :=
  if Py.leb user_1rm 0 || Py.leb weight 0 || Py.leb reps 0 then 0
  else (weight * reps) / (user_1rm * 10).

Definition calculate_cardio_intensity (distance time user_max_pace : Q) : Q :=
  if Py.leb user_max_pace 0 || Py.leb time 0 || Py.leb distance 0 then 0
  else distance / (time * user_max_pace).

Definition calculate_volume_load (weight reps sets max_volume : Q) : Q :=
  let max_volume := if Py.leb max_volume 0 then 10000 else max_volume in
  (weight * reps * sets) / max_volume.

Definition calculate_rest_density (rest_time total_time : Q) : Q :=
  if Py.leb total_time 0 then 0
  else Py.clip (rest_time / total_time) 0 1.

Definition calculate_tempo_factor (eccentric concentric isometric : Q) : Q :=
  let total_time := eccentric + concentric + isometric in
  if Py.leb total_time 0 then 1
  else let tempo_score := 4 / total_time in
       Py.clip tempo_score 0.5 1.5.

(** The running totals of [process_exercise_data]. *)
Record Totals : Type := {
  total_volume : Q;
  total_resistance : Q;
  total_cardio : Q;
  total_work_time : Q;
  total_rest_time : Q
}.

Definition no_totals : Totals :=
  {| total_volume := 0; total_resistance := 0; total_cardio := 0;
     total_work_time := 0; total_rest_time := 0 |}.

Definition default_coefficients : Coefficients :=
  {| resistance_intensity := 0;
     cardio_intensity := 0;
     volume_load := 0;
     rest_density := 0.3;
     tempo_factor := 1 |}.

Section Process.

Variable float : string -> option Q.
Variables user_1rm user_max_pace : Q.

(** The accumulation of one valid exercise. *)
Definition accumulate (t : Totals) (e : ExerciseSet) : Totals :=
  let '(reps, weight, sets) := e in
  let resistance_int := calculate_resistance_intensity weight reps user_1rm in
  let cardio_int := calculate_cardio_intensity weight (reps * 4) user_max_pace in
  let volume_load := calculate_volume_load weight reps sets 10000 in
  let work_time := reps * sets * 4 in
  let rest_time := sets * 120 in
  {| total_volume := total_volume t + volume_load;
     total_resistance := total_resistance t + resistance_int * sets;
     total_cardio := total_cardio t + cardio_int * sets;
     total_work_time := total_work_time t + work_time;
     total_rest_time := total_rest_time t + rest_time |}.

(** The [for] loop inside the [try] block; a failing [float()] leaves it. *)
Fixpoint loop (exercises : list string) (t : Totals) : Py.result Totals :=
  match exercises with
  | [] => Py.Ok t
  | exercise :: more =>
      parsed <- read_segment float exercise ;;
      match parsed with
      | None => loop more t
      | Some (reps, weight, sets) =>
          if Py.leb reps 0 || Py.leb weight 0 || Py.leb sets 0
          then loop more t
          else loop more (accumulate t (reps, weight, sets))
      end
  end.

(** [workout_data_str] is [None] for a missing value ([pd.isna]). *)
Definition process_exercise_data (workout_data_str : option string)
  : Coefficients :=
  let coefficients := default_coefficients in
  match workout_data_str with
  | None => coefficients
  | Some s =>
      if String.eqb s "" then coefficients
      else
        let exercises := Str.split "|" s in
        match loop exercises no_totals with
        | Py.Raise _ => coefficients
        | Py.Ok t =>
            if negb (Nat.eqb (List.length exercises) 0)
               && Py.gtb (total_work_time t) 0
            then
              let n := inject_Z (Z.of_nat (List.length exercises)) in
              {| resistance_intensity := Py.clip (total_resistance t / n) 0 2;
                 cardio_intensity := Py.clip (total_cardio t / n) 0 1.5;
                 volume_load := Py.clip (total_volume t / 10000) 0 1;
                 rest_density :=
                   Py.clip (total_rest_time t
                            / (total_work_time t + total_rest_time t)) 0 1;
                 tempo_factor := calculate_tempo_factor 2 1 0 |}
            else coefficients
        end
  end.

End Process.

End IntensityCoefficientsCalculator.

(** ** [data_cleaning_v4.py]: [V4DataCleaner]

    The parser and the coefficient columns on finite floats;
    {!Ieee.V4DataCleaner} is the same code on floats with nan and the
    infinities.  The SePA mapper works on cells that can hold them. *)

Module V4DataCleaner.

Section Parse.

Variable float : string -> option Q.

(** The loop of [_parse_workout_data].  The whole loop sits in one
    [try]: a failing [float()] prints a warning and the function returns
    the exercises appended so far. *)
Fixpoint parse_loop (exercise_sets : list string) (exercises : list ExerciseSet)
  : list ExerciseSet :=
  match exercise_sets with
  | [] => exercises
  | exercise_set :: more =>
      match read_segment float exercise_set with
      | Py.Raise _ => exercises
      | Py.Ok None => parse_loop more exercises
      | Py.Ok (Some e) =>
          if positive_fields e then parse_loop more (exercises ++ [e])
          else parse_loop more exercises
      end
  end.

Definition _parse_workout_data (workout_str : string) : list ExerciseSet :=
  parse_loop (Str.split "|" workout_str) [].

End Parse.

(** *** Intensity coefficients of a data frame

    A row of the frame: the two inputs that
    [calculate_intensity_coefficients] reads and the six coefficient
    cells it writes.  [workout_data = None] is a missing value,
    [estimated_1rm = None] an absent column.  A coefficient column that
    the frame lacks is created with [0.0] in every row ([fresh]). *)
Record Row : Type := {
  workout_data : option string;
  estimated_1rm : option Q;
  resistance_intensity : Q;
  cardio_intensity : Q;
  volume_load : Q;
  rest_density : Q;
  tempo_factor : Q;
  metabolic_stress : Q
}.

Definition fresh (workout : option string) (one_rm : option Q) : Row :=
  {| workout_data := workout; estimated_1rm := one_rm;
     resistance_intensity := 0; cardio_intensity := 0; volume_load := 0;
     rest_density := 0; tempo_factor := 0; metabolic_stress := 0 |}.

Inductive Column : Type :=
| c_resistance_intensity
| c_cardio_intensity
| c_volume_load
| c_rest_density
| c_tempo_factor.

Definition INTENSITY_RANGES : list (Column * (Q * Q)) :=
  [ (c_resistance_intensity, (0.1, 2.0));
    (c_cardio_intensity, (0.0, 1.5));
    (c_volume_load, (0.0, 1.0));
    (c_rest_density, (0.0, 1.0));
    (c_tempo_factor, (0.5, 1.5)) ].

Definition cell (col : Column) (r : Row) : Q :=
  match col with
  | c_resistance_intensity => resistance_intensity r
  | c_cardio_intensity => cardio_intensity r
  | c_volume_load => volume_load r
  | c_rest_density => rest_density r
  | c_tempo_factor => tempo_factor r
  end.

Definition set_cell (col : Column) (v : Q) (r : Row) : Row :=
  match col with
  | c_resistance_intensity =>
      {| workout_data := workout_data r; estimated_1rm := estimated_1rm r;
         resistance_intensity := v; cardio_intensity := cardio_intensity r;
         volume_load := volume_load r; rest_density := rest_density r;
         tempo_factor := tempo_factor r; metabolic_stress := metabolic_stress r |}
  | c_cardio_intensity =>
      {| workout_data := workout_data r; estimated_1rm := estimated_1rm r;
         resistance_intensity := resistance_intensity r; cardio_intensity := v;
         volume_load := volume_load r; rest_density := rest_density r;
         tempo_factor := tempo_factor r; metabolic_stress := metabolic_stress r |}
  | c_volume_load =>
      {| workout_data := workout_data r; estimated_1rm := estimated_1rm r;
         resistance_intensity := resistance_intensity r;
         cardio_intensity := cardio_intensity r;
         volume_load := v; rest_density := rest_density r;
         tempo_factor := tempo_factor r; metabolic_stress := metabolic_stress r |}
  | c_rest_density =>
      {| workout_data := workout_data r; estimated_1rm := estimated_1rm r;
         resistance_intensity := resistance_intensity r;
         cardio_intensity := cardio_intensity r;
         volume_load := volume_load r; rest_density := v;
         tempo_factor := tempo_factor r; metabolic_stress := metabolic_stress r |}
  | c_tempo_factor =>
      {| workout_data := workout_data r; estimated_1rm := estimated_1rm r;
         resistance_intensity := resistance_intensity r;
         cardio_intensity := cardio_intensity r;
         volume_load := volume_load r; rest_density := rest_density r;
         tempo_factor := v; metabolic_stress := metabolic_stress r |}
  end.

(** The five running totals of one row. *)
Record Totals : Type := {
  total_volume : Q;
  total_resistance_intensity : Q;
  total_cardio_intensity : Q;
  total_rest_time : Q;
  total_exercise_time : Q
}.

Definition no_totals : Totals :=
  {| total_volume := 0; total_resistance_intensity := 0;
     total_cardio_intensity := 0; total_rest_time := 0;
     total_exercise_time := 0 |}.

(** The body of [for exercise in parsed_exercises]. *)
Definition accumulate (one_rm : option Q) (t : Totals) (exercise : ExerciseSet)
  : Totals :=
  let '(reps, weight, sets) := exercise in
  if Py.leb reps 0 || Py.leb weight 0 || Py.leb sets 0 then t
  else
    let user_1rm := match one_rm with
                    | Some v => v
                    | None => weight * 1.5
                    end in
    let user_1rm := if Py.leb user_1rm 0 then weight * 1.5 else user_1rm in
    let resistance_int := (weight * reps) / (user_1rm * 10) in
    let volume := weight * reps * sets in
    let cardio_int := (reps / 30) * (1 / Py.max 1 sets) in
    let exercise_time := reps * sets * 4 in
    let rest_time := sets * 120 in
    {| total_volume := total_volume t + volume;
       total_resistance_intensity :=
         total_resistance_intensity t + resistance_int * sets;
       total_cardio_intensity := total_cardio_intensity t + cardio_int * sets;
       total_rest_time := total_rest_time t + rest_time;
       total_exercise_time := total_exercise_time t + exercise_time |}.

Section Frame.

Variable float : string -> option Q.

(** One iteration of [for idx, row in data.iterrows()].  [draw] is the
    sample of [np.random.normal(1.0, 0.1)] taken by this iteration; the
    result is [None] when the iteration leaves through [continue], in
    which case no sample is taken and the row is left as it is. *)
Definition update_row (draw : Q) (row : Row) : option Row :=
  match workout_data row with
  | None => None
  | Some w =>
      if String.eqb w "" then None
      else
        let parsed_exercises := _parse_workout_data float w in
        match parsed_exercises with
        | [] => None
        | _ :: _ =>
            let t := fold_left (accumulate (estimated_1rm row))
                               parsed_exercises no_totals in
            let n := Py.max 1 (inject_Z (Z.of_nat (List.length parsed_exercises))) in
            let row :=
              if Py.gtb (total_volume t) 0 then
                set_cell c_cardio_intensity
                  (Py.min 1.5 (total_cardio_intensity t / n))
                  (set_cell c_resistance_intensity
                     (Py.min 2.0 (total_resistance_intensity t / n))
                     (set_cell c_volume_load
                        (Py.min 1.0 (total_volume t / 10000)) row))
              else row in
            let row :=
              if Py.gtb (total_exercise_time t) 0 then
                set_cell c_rest_density
                  (total_rest_time t
                   / (total_exercise_time t + total_rest_time t)) row
              else row in
            let row := set_cell c_tempo_factor (Py.clip draw 0.5 1.5) row in
            Some
              {| workout_data := workout_data row;
                 estimated_1rm := estimated_1rm row;
                 resistance_intensity := resistance_intensity row;
                 cardio_intensity := cardio_intensity row;
                 volume_load := volume_load row;
                 rest_density := rest_density row;
                 tempo_factor := tempo_factor row;
                 metabolic_stress :=
                   resistance_intensity row * 0.6 + cardio_intensity row * 0.4 |}
        end
  end.

(** The row loop, threading the state of the random generator: [draws]
    is the sequence of normal samples and [k] the number taken so far. *)
Fixpoint update_rows (draws : nat -> Q) (k : nat) (data : list Row)
  : list Row :=
  match data with
  | [] => []
  | row :: more =>
      match update_row (draws k) row with
      | Some row' => row' :: update_rows draws (S k) more
      | None => row :: update_rows draws k more
      end
  end.

(** [_validate_intensity_coefficients]: one column of [INTENSITY_RANGES].
    The log collects the lines [Clamped n outliers in col]. *)
Definition validate_column (st : list Row * list (Column * nat))
  (entry : Column * (Q * Q)) : list Row * list (Column * nat) :=
  let '(data, log) := st in
  let '(col, (min_val, max_val)) := entry in
  let outliers_before :=
    List.length
      (filter (fun r => Py.ltb (cell col r) min_val
                        || Py.gtb (cell col r) max_val) data) in
  let data := map (fun r => set_cell col (Py.clip (cell col r) min_val max_val) r)
                  data in
  if (0 <? outliers_before)%nat then (data, log ++ [(col, outliers_before)])
  else (data, log).

Definition _validate_intensity_coefficients (data : list Row)
  : list Row * list (Column * nat) :=
  fold_left validate_column INTENSITY_RANGES (data, []).

Definition calculate_intensity_coefficients (draws : nat -> Q) (data : list Row)
  : list Row * list (Column * nat) :=
  _validate_intensity_coefficients (update_rows draws 0 data).

End Frame.

(** *** SePA scales *)

(** A cell that holds a mood, fatigue or effort: missing ([None]), a
    number, or text.  [pd.isna] holds of a missing cell and of nan. *)
Inductive Value : Type :=
| Missing
| Num (x : PyFloat.t)
| Text (s : string).

Definition isna (value : Value) : bool :=
  match value with
  | Missing | Num PyFloat.nan => true
  | _ => false
  end.

(** Mapping tables are dictionaries in insertion order. *)
Definition Mapping : Type := list (string * Z).

Definition SEPA_MAPPINGS_mood : Mapping :=
  [ ("Very Bad", 1); ("Bad", 2); ("Neutral", 3); ("Good", 4);
    ("Very Good", 5); ("Excellent", 5) ]%string%Z.

Definition SEPA_MAPPINGS_fatigue : Mapping :=
  [ ("Very Low", 1); ("Low", 2); ("Medium", 3); ("High", 4);
    ("Very High", 5) ]%string%Z.

Definition SEPA_MAPPINGS_effort : Mapping :=
  [ ("Very Low", 1); ("Low", 2); ("Medium", 3); ("High", 4);
    ("Very High", 5) ]%string%Z.

(** [mapping[key]] when [key in mapping]. *)
Fixpoint lookup (mapping : Mapping) (key : string) : option Z :=
  match mapping with
  | [] => None
  | (k, v) :: more => if String.eqb k key then Some v else lookup more key
  end.

(** [for key, val in mapping.items(): if key.lower() == value_str.lower()] *)
Fixpoint lookup_lower (mapping : Mapping) (value_str : string) : option Z :=
  match mapping with
  | [] => None
  | (key, val) :: more =>
      if String.eqb (Str.lower key) (Str.lower value_str) then Some val
      else lookup_lower more value_str
  end.

Section Sepa.

(** The builtin [float] on text, special values included; [None] is a
    [ValueError]. *)
Variable float : string -> option PyFloat.t.

(** [int(float(value))] *)
Definition int_float (value : Value) : PyX.outcome Z :=
  match value with
  | Missing => PyX.Fail PyX.TypeError
  | Num x => PyFloat.int x
  | Text s =>
      match float s with
      | Some x => PyFloat.int x
      | None => PyX.Fail PyX.ValueError
      end
  end.

(** The lookups that follow the [try] statement. *)
Definition by_text (value : Value) (mapping : Mapping) (default : Z) : Z :=
  match value with
  | Text s =>
      let value_str := Str.strip s in
      match lookup mapping value_str with
      | Some v => v
      | None =>
          match lookup_lower mapping value_str with
          | Some val => val
          | None => default
          end
      end
  | _ => default
  end.

(** [except (ValueError, TypeError)] lets every other exception
    through, [OverflowError] among them. *)
Definition _map_sepa_to_numeric (value : Value) (mapping : Mapping)
  (default : Z) : PyX.outcome Z :=
  if isna value then PyX.Done default
  else
    match int_float value with
    | PyX.Done num_val =>
        if (1 <=? num_val)%Z && (num_val <=? 5)%Z then PyX.Done num_val
        else PyX.Done (by_text value mapping default)
    | PyX.Fail PyX.ValueError | PyX.Fail PyX.TypeError =>
        PyX.Done (by_text value mapping default)
    | PyX.Fail e => PyX.Fail e
    end.

End Sepa.

(** *** Readiness factor *)

Definition _calculate_readiness_factor_v4 (mood fatigue effort : Q) : Q :=
  let base_score := 1 in
  let mood_adj :=
    if Py.geb mood 5 then 0.1
    else if Py.leb mood 2 then - 0.1
    else (mood - 3) * 0.05 in
  let fatigue_adj :=
    if Py.geb fatigue 4 then - 0.12
    else if Py.leb fatigue 2 then 0.08
    else (3 - fatigue) * 0.04 in
  let effort_adj :=
    if Py.geb effort 5 then - 0.03
    else if Py.leb effort 2 then 0.05
    else 0 in
  let readiness := base_score + mood_adj + fatigue_adj + effort_adj in
  Py.clip readiness 0.6 1.3.

End V4DataCleaner.

(** ** The workout calculators on floats with their special values

    [float()] also accepts the spellings of nan and of the infinities,
    which the comparisons of the two parsing loops treat differently.
    The definitions of this module follow the same source lines as
    {!IntensityCoefficientsCalculator} and
    [V4DataCleaner._parse_workout_data], with {!PyFloat.t} for the
    numbers and every division able to raise. *)

Module Ieee.

Definition ExerciseSet : Type := (PyFloat.t * PyFloat.t * PyFloat.t)%type.

Section WorkoutSegments.

(** The builtin [float(str)]: [None] stands for [ValueError]. *)
Variable float : string -> option PyFloat.t.

Definition to_float (s : string) : PyX.outcome PyFloat.t :=
  match float s with
  | Some x => PyX.Done x
  | None => PyX.Fail PyX.ValueError
  end.

(** The statements shared by the two parsing loops:
[[
    parts = exercise_set.strip().split('x')
    if len(parts) >= 2:
        reps = float(parts[0])
        weight = float(parts[1])
        sets = float(parts[2]) if len(parts) > 2 else 1
]]
    [Done None] when the guard [len(parts) >= 2] fails. *)
Definition read_segment (exercise_set : string)
  : PyX.outcome (option ExerciseSet) :=
  match Str.split "x" (Str.strip exercise_set) with
  | p0 :: p1 :: rest =>
      PyX.and_then (to_float p0) (fun reps =>
      PyX.and_then (to_float p1) (fun weight =>
      PyX.and_then (match rest with
                    | p2 :: _ => to_float p2
                    | [] => PyX.Done (PyFloat.finite 1)
                    end) (fun sets =>
      PyX.Done (Some (reps, weight, sets)))))
  | _ => PyX.Done None
  end.

End WorkoutSegments.

(** [x <= 0] and [x > 0]: both are false of nan. *)
Definition le0 (x : PyFloat.t) : bool := PyFloat.leb x (PyFloat.finite 0).
Definition gt0 (x : PyFloat.t) : bool := PyFloat.gtb x (PyFloat.finite 0).

Module IntensityCoefficientsCalculator.

Record Coefficients : Type := {
  resistance_intensity : PyFloat.t;
  cardio_intensity : PyFloat.t;
  volume_load : PyFloat.t;
  rest_density : PyFloat.t;
  tempo_factor : PyFloat.t
}.

Definition calculate_resistance_intensity (weight reps user_1rm : PyFloat.t)
  : PyX.outcome PyFloat.t :=
  if le0 user_1rm || le0 weight || le0 reps then PyX.Done (PyFloat.finite 0)
  else PyFloat.div (PyFloat.mul weight reps)
                   (PyFloat.mul user_1rm (PyFloat.finite 10)).

Definition calculate_cardio_intensity (distance time user_max_pace : PyFloat.t)
  : PyX.outcome PyFloat.t :=
  if le0 user_max_pace || le0 time || le0 distance
  then PyX.Done (PyFloat.finite 0)
  else PyFloat.div distance (PyFloat.mul time user_max_pace).

Definition calculate_volume_load (weight reps sets max_volume : PyFloat.t)
  : PyX.outcome PyFloat.t :=
  let max_volume :=
    if le0 max_volume then PyFloat.finite 10000 else max_volume in
  PyFloat.div (PyFloat.mul (PyFloat.mul weight reps) sets) max_volume.

Definition calculate_rest_density (rest_time total_time : PyFloat.t)
  : PyX.outcome PyFloat.t :=
  if le0 total_time then PyX.Done (PyFloat.finite 0)
  else PyX.and_then (PyFloat.div rest_time total_time) (fun share =>
       PyX.Done (PyFloat.clip share 0 1)).

Definition calculate_tempo_factor (eccentric concentric isometric : PyFloat.t)
  : PyX.outcome PyFloat.t :=
  let total_time := PyFloat.add (PyFloat.add eccentric concentric) isometric in
  if le0 total_time then PyX.Done (PyFloat.finite 1)
  else PyX.and_then (PyFloat.div (PyFloat.finite 4) total_time)
         (fun tempo_score => PyX.Done (PyFloat.clip tempo_score 0.5 1.5)).

(** The running totals of [process_exercise_data]. *)
Record Totals : Type := {
  total_volume : PyFloat.t;
  total_resistance : PyFloat.t;
  total_cardio : PyFloat.t;
  total_work_time : PyFloat.t;
  total_rest_time : PyFloat.t
}.

Definition no_totals : Totals :=
  {| total_volume := PyFloat.finite 0;
     total_resistance := PyFloat.finite 0;
     total_cardio := PyFloat.finite 0;
     total_work_time := PyFloat.finite 0;
     total_rest_time := PyFloat.finite 0 |}.

Definition default_coefficients : Coefficients :=
  {| resistance_intensity := PyFloat.finite 0;
     cardio_intensity := PyFloat.finite 0;
     volume_load := PyFloat.finite 0;
     rest_density := PyFloat.finite 0.3;
     tempo_factor := PyFloat.finite 1 |}.

Section Process.

Variable float : string -> option PyFloat.t.
Variables user_1rm user_max_pace : PyFloat.t.

(** The accumulation of one exercise that passed the guard. *)
Definition accumulate (t : Totals) (e : ExerciseSet) : PyX.outcome Totals :=
  let '(reps, weight, sets) := e in
  PyX.and_then (calculate_resistance_intensity weight reps user_1rm)
    (fun resistance_int =>
  PyX.and_then
    (calculate_cardio_intensity
       weight (PyFloat.mul reps (PyFloat.finite 4)) user_max_pace)
    (fun cardio_int =>
  PyX.and_then (calculate_volume_load weight reps sets (PyFloat.finite 10000))
    (fun volume_load =>
  let work_time := PyFloat.mul (PyFloat.mul reps sets) (PyFloat.finite 4) in
  let rest_time := PyFloat.mul sets (PyFloat.finite 120) in
  PyX.Done
    {| total_volume := PyFloat.add (total_volume t) volume_load;
       total_resistance :=
         PyFloat.add (total_resistance t) (PyFloat.mul resistance_int sets);
       total_cardio := PyFloat.add (total_cardio t) (PyFloat.mul cardio_int sets);
       total_work_time := PyFloat.add (total_work_time t) work_time;
       total_rest_time := PyFloat.add (total_rest_time t) rest_time |}))).

(** The [for] loop inside the [try] block.  The guard
    [reps <= 0 or weight <= 0 or sets <= 0] skips an exercise; it is
    false of a nan field. *)
Fixpoint loop (exercises : list string) (t : Totals) : PyX.outcome Totals :=
  match exercises with
  | [] => PyX.Done t
  | exercise :: more =>
      PyX.and_then (read_segment float exercise) (fun parsed =>
      match parsed with
      | None => loop more t
      | Some (reps, weight, sets) =>
          if le0 reps || le0 weight || le0 sets then loop more t
          else PyX.and_then (accumulate t (reps, weight, sets)) (loop more)
      end)
  end.

(** The assignments after the loop, in their order; an exception in one
    of them leaves the entries assigned before it. *)
Definition assign (exercises : list string) (t : Totals)
  (coefficients : Coefficients) : Coefficients :=
  let n := PyFloat.finite (inject_Z (Z.of_nat (List.length exercises))) in
  match PyFloat.div (total_resistance t) n with
  | PyX.Fail _ => coefficients
  | PyX.Done resistance =>
  let coefficients :=
    {| resistance_intensity := PyFloat.clip resistance 0 2;
       cardio_intensity := cardio_intensity coefficients;
       volume_load := volume_load coefficients;
       rest_density := rest_density coefficients;
       tempo_factor := tempo_factor coefficients |} in
  match PyFloat.div (total_cardio t) n with
  | PyX.Fail _ => coefficients
  | PyX.Done cardio =>
  let coefficients :=
    {| resistance_intensity := resistance_intensity coefficients;
       cardio_intensity := PyFloat.clip cardio 0 1.5;
       volume_load := volume_load coefficients;
       rest_density := rest_density coefficients;
       tempo_factor := tempo_factor coefficients |} in
  match PyFloat.div (total_volume t) (PyFloat.finite 10000) with
  | PyX.Fail _ => coefficients
  | PyX.Done volume =>
  let coefficients :=
    {| resistance_intensity := resistance_intensity coefficients;
       cardio_intensity := cardio_intensity coefficients;
       volume_load := PyFloat.clip volume 0 1;
       rest_density := rest_density coefficients;
       tempo_factor := tempo_factor coefficients |} in
  match PyFloat.div (total_rest_time t)
          (PyFloat.add (total_work_time t) (total_rest_time t)) with
  | PyX.Fail _ => coefficients
  | PyX.Done rest =>
  let coefficients :=
    {| resistance_intensity := resistance_intensity coefficients;
       cardio_intensity := cardio_intensity coefficients;
       volume_load := volume_load coefficients;
       rest_density := PyFloat.clip rest 0 1;
       tempo_factor := tempo_factor coefficients |} in
  match calculate_tempo_factor
          (PyFloat.finite 2) (PyFloat.finite 1) (PyFloat.finite 0) with
  | PyX.Fail _ => coefficients
  | PyX.Done tempo =>
    {| resistance_intensity := resistance_intensity coefficients;
       cardio_intensity := cardio_intensity coefficients;
       volume_load := volume_load coefficients;
       rest_density := rest_density coefficients;
       tempo_factor := tempo |}
  end end end end end.

(** [workout_data_str] is [None] for a missing value ([pd.isna]).  The
    [except Exception] clause returns the dictionary as it is. *)
Definition process_exercise_data (workout_data_str : option string)
  : Coefficients :=
  let coefficients := default_coefficients in
  match workout_data_str with
  | None => coefficients
  | Some s =>
      if String.eqb s "" then coefficients
      else
        let exercises := Str.split "|" s in
        match loop exercises no_totals with
        | PyX.Fail _ => coefficients
        | PyX.Done t =>
            if negb (Nat.eqb (List.length exercises) 0)
               && gt0 (total_work_time t)
            then assign exercises t coefficients
            else coefficients
        end
  end.

End Process.

End IntensityCoefficientsCalculator.

(** The columns and ranges are those of {!V4DataCleaner}. *)
Abbreviation Column := V4DataCleaner.Column.
Abbreviation c_resistance_intensity := V4DataCleaner.c_resistance_intensity.
Abbreviation c_cardio_intensity := V4DataCleaner.c_cardio_intensity.
Abbreviation c_volume_load := V4DataCleaner.c_volume_load.
Abbreviation c_rest_density := V4DataCleaner.c_rest_density.
Abbreviation c_tempo_factor := V4DataCleaner.c_tempo_factor.
Abbreviation INTENSITY_RANGES := V4DataCleaner.INTENSITY_RANGES.

Module V4DataCleaner.

Section Parse.

Variable float : string -> option PyFloat.t.

(** [reps > 0 and weight > 0 and sets > 0]: false when a field is nan. *)
Definition positive_fields (e : ExerciseSet) : bool :=
  let '(reps, weight, sets) := e in gt0 reps && gt0 weight && gt0 sets.

(** The loop of [_parse_workout_data]; a failing [float()] ends it with
    the exercises appended so far. *)
Fixpoint parse_loop (exercise_sets : list string) (exercises : list ExerciseSet)
  : list ExerciseSet :=
  match exercise_sets with
  | [] => exercises
  | exercise_set :: more =>
      match read_segment float exercise_set with
      | PyX.Fail _ => exercises
      | PyX.Done None => parse_loop more exercises
      | PyX.Done (Some e) =>
          if positive_fields e then parse_loop more (exercises ++ [e])
          else parse_loop more exercises
      end
  end.

Definition _parse_workout_data (workout_str : string) : list ExerciseSet :=
  parse_loop (Str.split "|" workout_str) [].

End Parse.

(** A row of the frame, as {!V4DataCleaner.Row} with cells that can hold
    nan and the infinities. *)
Record Row : Type := {
  workout_data : option string;
  estimated_1rm : option PyFloat.t;
  resistance_intensity : PyFloat.t;
  cardio_intensity : PyFloat.t;
  volume_load : PyFloat.t;
  rest_density : PyFloat.t;
  tempo_factor : PyFloat.t;
  metabolic_stress : PyFloat.t
}.

Definition fresh (workout : option string) (one_rm : option PyFloat.t) : Row :=
  {| workout_data := workout; estimated_1rm := one_rm;
     resistance_intensity := PyFloat.finite 0;
     cardio_intensity := PyFloat.finite 0;
     volume_load := PyFloat.finite 0;
     rest_density := PyFloat.finite 0;
     tempo_factor := PyFloat.finite 0;
     metabolic_stress := PyFloat.finite 0 |}.

Definition cell (col : Column) (r : Row) : PyFloat.t :=
  match col with
  | c_resistance_intensity => resistance_intensity r
  | c_cardio_intensity => cardio_intensity r
  | c_volume_load => volume_load r
  | c_rest_density => rest_density r
  | c_tempo_factor => tempo_factor r
  end.

Definition set_cell (col : Column) (v : PyFloat.t) (r : Row) : Row :=
  match col with
  | c_resistance_intensity =>
      {| workout_data := workout_data r; estimated_1rm := estimated_1rm r;
         resistance_intensity := v; cardio_intensity := cardio_intensity r;
         volume_load := volume_load r; rest_density := rest_density r;
         tempo_factor := tempo_factor r; metabolic_stress := metabolic_stress r |}
  | c_cardio_intensity =>
      {| workout_data := workout_data r; estimated_1rm := estimated_1rm r;
         resistance_intensity := resistance_intensity r; cardio_intensity := v;
         volume_load := volume_load r; rest_density := rest_density r;
         tempo_factor := tempo_factor r; metabolic_stress := metabolic_stress r |}
  | c_volume_load =>
      {| workout_data := workout_data r; estimated_1rm := estimated_1rm r;
         resistance_intensity := resistance_intensity r;
         cardio_intensity := cardio_intensity r;
         volume_load := v; rest_density := rest_density r;
         tempo_factor := tempo_factor r; metabolic_stress := metabolic_stress r |}
  | c_rest_density =>
      {| workout_data := workout_data r; estimated_1rm := estimated_1rm r;
         resistance_intensity := resistance_intensity r;
         cardio_intensity := cardio_intensity r;
         volume_load := volume_load r; rest_density := v;
         tempo_factor := tempo_factor r; metabolic_stress := metabolic_stress r |}
  | c_tempo_factor =>
      {| workout_data := workout_data r; estimated_1rm := estimated_1rm r;
         resistance_intensity := resistance_intensity r;
         cardio_intensity := cardio_intensity r;
         volume_load := volume_load r; rest_density := rest_density r;
         tempo_factor := v; metabolic_stress := metabolic_stress r |}
  end.

(** The five running totals of one row. *)
Record Totals : Type := {
  total_volume : PyFloat.t;
  total_resistance_intensity : PyFloat.t;
  total_cardio_intensity : PyFloat.t;
  total_rest_time : PyFloat.t;
  total_exercise_time : PyFloat.t
}.

Definition no_totals : Totals :=
  {| total_volume := PyFloat.finite 0;
     total_resistance_intensity := PyFloat.finite 0;
     total_cardio_intensity := PyFloat.finite 0;
     total_rest_time := PyFloat.finite 0;
     total_exercise_time := PyFloat.finite 0 |}.

(** The body of [for exercise in parsed_exercises]. *)
Definition accumulate (one_rm : option PyFloat.t) (t : Totals)
  (exercise : ExerciseSet) : PyX.outcome Totals :=
  let '(reps, weight, sets) := exercise in
  if le0 reps || le0 weight || le0 sets then PyX.Done t
  else
    let user_1rm := match one_rm with
                    | Some v => v
                    | None => PyFloat.mul weight (PyFloat.finite 1.5)
                    end in
    let user_1rm :=
      if le0 user_1rm then PyFloat.mul weight (PyFloat.finite 1.5)
      else user_1rm in
    PyX.and_then
      (PyFloat.div (PyFloat.mul weight reps)
                   (PyFloat.mul user_1rm (PyFloat.finite 10)))
      (fun resistance_int =>
    let volume := PyFloat.mul (PyFloat.mul weight reps) sets in
    PyX.and_then (PyFloat.div reps (PyFloat.finite 30)) (fun per_rep =>
    PyX.and_then
      (PyFloat.div (PyFloat.finite 1) (PyFloat.max (PyFloat.finite 1) sets))
      (fun per_set =>
    let cardio_int := PyFloat.mul per_rep per_set in
    let exercise_time :=
      PyFloat.mul (PyFloat.mul reps sets) (PyFloat.finite 4) in
    let rest_time := PyFloat.mul sets (PyFloat.finite 120) in
    PyX.Done
      {| total_volume := PyFloat.add (total_volume t) volume;
         total_resistance_intensity :=
           PyFloat.add (total_resistance_intensity t)
                       (PyFloat.mul resistance_int sets);
         total_cardio_intensity :=
           PyFloat.add (total_cardio_intensity t) (PyFloat.mul cardio_int sets);
         total_rest_time := PyFloat.add (total_rest_time t) rest_time;
         total_exercise_time :=
           PyFloat.add (total_exercise_time t) exercise_time |}))).

Fixpoint accumulate_all (one_rm : option PyFloat.t)
  (parsed_exercises : list ExerciseSet) (t : Totals) : PyX.outcome Totals :=
  match parsed_exercises with
  | [] => PyX.Done t
  | exercise :: more =>
      PyX.and_then (accumulate one_rm t exercise) (accumulate_all one_rm more)
  end.

Section Frame.

Variable float : string -> option PyFloat.t.

(** One iteration of [for idx, row in data.iterrows()], see
    {!V4DataCleaner.update_row}; the loop has no [try], an exception
    leaves [calculate_intensity_coefficients]. *)
Definition update_row (draw : Q) (row : Row) : PyX.outcome (option Row) :=
  match workout_data row with
  | None => PyX.Done None
  | Some w =>
      if String.eqb w "" then PyX.Done None
      else
        let parsed_exercises := _parse_workout_data float w in
        match parsed_exercises with
        | [] => PyX.Done None
        | _ :: _ =>
            PyX.and_then
              (accumulate_all (estimated_1rm row) parsed_exercises no_totals)
              (fun t =>
            let n :=
              PyFloat.finite
                (Py.max 1 (inject_Z (Z.of_nat (List.length parsed_exercises)))) in
            PyX.and_then
              (if gt0 (total_volume t) then
                 PyX.and_then
                   (PyFloat.div (total_volume t) (PyFloat.finite 10000))
                   (fun volume =>
                 PyX.and_then (PyFloat.div (total_resistance_intensity t) n)
                   (fun resistance =>
                 PyX.and_then (PyFloat.div (total_cardio_intensity t) n)
                   (fun cardio =>
                 PyX.Done
                   (set_cell c_cardio_intensity
                      (PyFloat.min (PyFloat.finite 1.5) cardio)
                      (set_cell c_resistance_intensity
                         (PyFloat.min (PyFloat.finite 2.0) resistance)
                         (set_cell c_volume_load
                            (PyFloat.min (PyFloat.finite 1.0) volume) row))))))
               else PyX.Done row)
              (fun row =>
            PyX.and_then
              (if gt0 (total_exercise_time t) then
                 PyX.and_then
                   (PyFloat.div (total_rest_time t)
                      (PyFloat.add (total_exercise_time t) (total_rest_time t)))
                   (fun rest => PyX.Done (set_cell c_rest_density rest row))
               else PyX.Done row)
              (fun row =>
            let row :=
              set_cell c_tempo_factor
                (PyFloat.clip (PyFloat.finite draw) 0.5 1.5) row in
            PyX.Done
              (Some
                 {| workout_data := workout_data row;
                    estimated_1rm := estimated_1rm row;
                    resistance_intensity := resistance_intensity row;
                    cardio_intensity := cardio_intensity row;
                    volume_load := volume_load row;
                    rest_density := rest_density row;
                    tempo_factor := tempo_factor row;
                    metabolic_stress :=
                      PyFloat.add
                        (PyFloat.mul (resistance_intensity row)
                                     (PyFloat.finite 0.6))
                        (PyFloat.mul (cardio_intensity row)
                                     (PyFloat.finite 0.4)) |}))))
        end
  end.

Fixpoint update_rows (draws : nat -> Q) (k : nat) (data : list Row)
  : PyX.outcome (list Row) :=
  match data with
  | [] => PyX.Done []
  | row :: more =>
      PyX.and_then (update_row (draws k) row) (fun updated =>
      match updated with
      | Some row' =>
          PyX.and_then (update_rows draws (S k) more) (fun rows =>
          PyX.Done (row' :: rows))
      | None =>
          PyX.and_then (update_rows draws k more) (fun rows =>
          PyX.Done (row :: rows))
      end)
  end.

(** [_validate_intensity_coefficients]: one column of
    [INTENSITY_RANGES].  A nan cell is neither below [min_val] nor above
    [max_val], and [np.clip] leaves it. *)
Definition validate_column (st : list Row * list (Column * nat))
  (entry : Column * (Q * Q)) : list Row * list (Column * nat) :=
  let '(data, log) := st in
  let '(col, (min_val, max_val)) := entry in
  let outliers_before :=
    List.length
      (filter (fun r => PyFloat.ltb (cell col r) (PyFloat.finite min_val)
                        || PyFloat.gtb (cell col r) (PyFloat.finite max_val))
              data) in
  let data :=
    map (fun r => set_cell col (PyFloat.clip (cell col r) min_val max_val) r)
        data in
  if (0 <? outliers_before)%nat then (data, log ++ [(col, outliers_before)])
  else (data, log).

Definition _validate_intensity_coefficients (data : list Row)
  : list Row * list (Column * nat) :=
  fold_left validate_column INTENSITY_RANGES (data, []).

Definition calculate_intensity_coefficients (draws : nat -> Q) (data : list Row)
  : PyX.outcome (list Row * list (Column * nat)) :=
  PyX.and_then (update_rows draws 0 data) (fun data =>
  PyX.Done (_validate_intensity_coefficients data)).

End Frame.

End V4DataCleaner.

(** Two floats with the same value. *)
Definition same (x y : PyFloat.t) : Prop :=
  match x, y with
  | PyFloat.finite a, PyFloat.finite b => a == b
  | PyFloat.inf, PyFloat.inf
  | PyFloat.neg_inf, PyFloat.neg_inf
  | PyFloat.nan, PyFloat.nan => True
  | _, _ => False
  end.

(** [lo <= x <= hi] *)
Definition within (lo hi : Q) (x : PyFloat.t) : bool :=
  PyFloat.leb (PyFloat.finite lo) x && PyFloat.leb x (PyFloat.finite hi).

End Ieee.

(** ** [evaluate_v4_model.py]: goal rules, classifier and decoder *)

(** One row of the goal table. *)
Module Goal.

Record Rules : Type := {
  intensity_percent : Q * Q;
  rep_range : Z * Z;
  sets_range : Z * Z;
  rest_minutes : Q * Q;
  description : string;
  target_suitability_range : Q * Q
}.

End Goal.

Definition general_fitness_rules : Goal.Rules :=
  {| Goal.intensity_percent := (0.60, 0.75);
     Goal.rep_range := (10, 30)%Z;
     Goal.sets_range := (1, 5)%Z;
     Goal.rest_minutes := (1, 2);
     Goal.description := "General Fitness - Balanced approach";
     Goal.target_suitability_range := (0.6, 0.95) |}.

Definition WORKOUT_GOAL_MAPPING_V4 : list (string * Goal.Rules) :=
  [ ("strength"%string,
     {| Goal.intensity_percent := (0.85, 0.95);
        Goal.rep_range := (5, 15)%Z;
        Goal.sets_range := (1, 5)%Z;
        Goal.rest_minutes := (3, 5);
        Goal.description := "Strength Training - Heavy loads, low reps";
        Goal.target_suitability_range := (0.75, 1.0) |});
    ("hypertrophy"%string,
     {| Goal.intensity_percent := (0.70, 0.80);
        Goal.rep_range := (8, 20)%Z;
        Goal.sets_range := (1, 5)%Z;
        Goal.rest_minutes := (1, 2);
        Goal.description := "Hypertrophy - Moderate loads, medium reps";
        Goal.target_suitability_range := (0.75, 1.0) |});
    ("endurance"%string,
     {| Goal.intensity_percent := (0.50, 0.60);
        Goal.rep_range := (10, 30)%Z;
        Goal.sets_range := (1, 5)%Z;
        Goal.rest_minutes := (0.5, 1);
        Goal.description := "Endurance - Light loads, high reps";
        Goal.target_suitability_range := (0.6, 1.0) |});
    ("general_fitness"%string, general_fitness_rules) ].

(** [mapping.get(key)] on a dictionary kept in insertion order. *)
Fixpoint dict_get {V : Type} (mapping : list (string * V)) (key : string)
  : option V :=
  match mapping with
  | [] => None
  | (k, v) :: more => if String.eqb k key then Some v else dict_get more key
  end.

Module SuitabilityClassifier.

#[local] Open Scope string_scope.

Definition get_score_range (score : Q) : string * string * Q :=
  if Py.geb score 0.95 then
    ("Perfect Fit", "Tối ưu cá nhân hóa", 0.975)
  else if Py.geb score 0.85 then
    ("Very Good", "Rất hiệu quả", 0.9)
  else if Py.geb score 0.75 then
    ("Good", "Hiệu quả tốt", 0.8)
  else if Py.geb score 0.6 then
    ("Moderate", "Đúng nhóm cơ nhưng sai cường độ", 0.675)
  else if Py.geb score 0.4 then
    ("Low", "Tác động sai hoặc phụ trợ yếu", 0.5)
  else
    ("Ineffective", "Không hiệu quả / Không đạt mục tiêu", 0.2).

Definition get_action_recommendation (score : Q) : string :=
  if Py.geb score 0.95 then
    "🟣 LOCK-IN: Bài tập này làm bài tập chính cho kế hoạch tương lai"
  else if Py.geb score 0.85 then
    "🔵 RECOMMEND: Bài tập 'signature' - đề xuất thường xuyên"
  else if Py.geb score 0.75 then
    "🟢 KEEP: Giữ trong chương trình - ưu tiên cao"
  else if Py.geb score 0.6 then
    "🟡 ADJUST: Cần điều chỉnh reps/sets/weight để tối ưu"
  else if Py.geb score 0.4 then
    "⚠️ SUPPORT: Có thể dùng làm bài tập hỗ trợ/khởi động"
  else
    "❌ REMOVE: Loại bỏ hoặc thay bằng bài tương tự".

(** The pair that [evaluate_workout_generation] stores for a prediction:
    [get_score_range(s)[0]] and [get_action_recommendation(s)]. *)
Definition classify (score : Q) : string * string :=
  (fst (fst (get_score_range score)), get_action_recommendation score).

End SuitabilityClassifier.

Module V4ModelEvaluator.

(** A [{'min': .., 'max': .., 'recommended': ..}] entry of the result. *)
Record Choice (A : Type) : Type := {
  min : A;
  max : A;
  recommended : A
}.
Arguments min {A} c.
Arguments max {A} c.
Arguments recommended {A} c.

Record Workout : Type := {
  predicted_1rm : Q;
  adjusted_1rm : Q;
  readiness_factor : Q;
  goal : string;
  training_weight_kg : Choice Q;
  reps : Choice Z;
  sets : Choice Z;
  rest_minutes : Choice Q;
  description : string;
  target_suitability_range : Q * Q
}.

Section Decoder.

(** The builtin [round(x, ndigits)].  The value that the code rounds is
    a binary float, which at a decimal tie can lie on either side of it;
    the decoder is therefore written over any [round], and
    {!Spec.rounding} states what is asked of it. *)
Variable round : Q -> nat -> Q.

Definition decode_intensity_to_workout_with (predicted_1rm : Q) (goal : string)
  (readiness_factor : Q) : Workout :=
  let goal :=
    match dict_get WORKOUT_GOAL_MAPPING_V4 goal with
    | Some _ => goal
    | None => "general_fitness"%string
    end in
  (* [rules = WORKOUT_GOAL_MAPPING_V4[goal]]: the key is present here *)
  let rules :=
    match dict_get WORKOUT_GOAL_MAPPING_V4 goal with
    | Some rules => rules
    | None => general_fitness_rules
    end in
  let adjusted_1rm := predicted_1rm * readiness_factor in
  let '(intensity_min, intensity_max) := Goal.intensity_percent rules in
  let training_weight_min := adjusted_1rm * intensity_min in
  let training_weight_max := adjusted_1rm * intensity_max in
  let '(rep_min, rep_max) := Goal.rep_range rules in
  let '(sets_min, sets_max) := Goal.sets_range rules in
  let '(rest_min, rest_max) := Goal.rest_minutes rules in
  let '(recommended_reps, recommended_sets, recommended_rest) :=
    if Py.gtb readiness_factor 1.1 then
      (Py.int (inject_Z (rep_min + rep_max) / 2 * 0.8), sets_max, rest_min)
    else if Py.ltb readiness_factor 0.9 then
      (Py.int (inject_Z (rep_min + rep_max) / 2 * 1.2), sets_min, rest_max)
    else
      (((rep_min + rep_max) / 2)%Z, ((sets_min + sets_max) / 2)%Z,
       (rest_min + rest_max) / 2) in
  {| predicted_1rm := round predicted_1rm 2;
     adjusted_1rm := round adjusted_1rm 2;
     readiness_factor := round readiness_factor 3;
     goal := goal;
     training_weight_kg :=
       {| min := round training_weight_min 2;
          max := round training_weight_max 2;
          recommended :=
            round ((training_weight_min + training_weight_max) / 2) 2 |};
     reps := {| min := rep_min; max := rep_max;
                recommended := recommended_reps |};
     sets := {| min := sets_min; max := sets_max;
                recommended := recommended_sets |};
     rest_minutes := {| min := rest_min; max := rest_max;
                        recommended := recommended_rest |};
     description := Goal.description rules;
     target_suitability_range := Goal.target_suitability_range rules |}.

End Decoder.

(** The decoder with [round] on the exact value, ties to the even
    neighbour. *)
Definition decode_intensity_to_workout : Q -> string -> Q -> Workout :=
  decode_intensity_to_workout_with Py.round.

End V4ModelEvaluator.

(** ** [app/services/recommendation_v4.py] *)

Module RecommendationV4.

#[local] Open Scope string_scope.

Definition sepa_mapping : list (string * Z) :=
  [ ("very bad", 1); ("bad", 2); ("neutral", 3); ("good", 4);
    ("very good", 5); ("excellent", 5);
    ("very low", 1); ("low", 2); ("medium", 3); ("high", 4); ("very high", 5);
    ("beginner", 1); ("intermediate", 2); ("advanced", 3); ("pro", 4);
    ("expert", 4);
    ("male", 1); ("female", 0); ("other", 0) ]%string%Z.

(** [mapping.get(str(value).lower(), 3)]; the argument is text. *)
Definition _map_sepa_to_numeric (value : string) : Z :=
  match dict_get sepa_mapping (Str.lower value) with
  | Some v => v
  | None => 3%Z
  end.

(** *** The request of [schemas_v4.py]

    The fields that the service reads.  An [Optional] field is [None]
    when the request leaves it out or sends [null]. *)
Record HealthMetrics : Type := {
  age : Z;
  height_cm : Q;
  weight_kg : Q;
  bmi : option Q;
  body_fat_percentage : option Q;
  resting_heart_rate : option Z
}.

Record UserContext : Type := {
  gender : string;
  experience_level : string;
  workout_frequency : Z
}.

Record CurrentState : Type := {
  mood : string;
  fatigue : string
}.

(** [met_value: Optional[float] = 5.0]: the key is always present once
    the candidate is a dictionary, and holds [None] for [null]. *)
Record ExerciseCandidate : Type := {
  id : string;
  name : string;
  met_value : option Q
}.

(** [duration_preference_min] is the field of [goal_context]. *)
Record RecommendRequestV4 : Type := {
  health_metrics : HealthMetrics;
  user_context : UserContext;
  current_state : CurrentState;
  duration_preference_min : option Z;
  available_exercises : option (list ExerciseCandidate);
  top_k : Z
}.

Record RecommendationItem : Type := {
  exercise_id : string;
  exercise_name : string;
  predicted_rpe : Q;
  suitability_score : Q;
  reason_percent : Z;
  suggested_duration : option Z
}.

Definition mock_candidates : list ExerciseCandidate :=
  [ {| id := "ex1"; name := "Barbell Squat"; met_value := Some 6 |};
    {| id := "ex2"; name := "Running"; met_value := Some 8 |};
    {| id := "ex3"; name := "Yoga"; met_value := Some 3 |};
    {| id := "ex4"; name := "HIIT"; met_value := Some 10 |};
    {| id := "ex5"; name := "Bench Press"; met_value := Some 5 |} ].

(** *** The feature vector of a candidate *)

Definition FEATURE_COLUMNS : list string :=
  [ "duration_min"; "avg_hr"; "max_hr"; "calories"; "fatigue"; "effort"; "mood";
    "age"; "height_m"; "weight_kg"; "bmi"; "fat_percentage"; "resting_heartrate";
    "experience_level"; "workout_frequency"; "gender"; "session_duration";
    "estimated_1rm"; "pace"; "duration_capacity"; "rest_period"; "intensity_score";
    "resistance_intensity"; "cardio_intensity"; "volume_load"; "rest_density";
    "hr_reserve"; "calorie_efficiency" ].

(** [x if x else d]: [None] and zero are false. *)
Definition or_else (x : option Q) (d : Q) : Q :=
  match x with
  | Some v => if Qeq_bool v 0 then d else v
  | None => d
  end.

Definition or_else_int (x : option Z) (d : Z) : Z :=
  match x with
  | Some v => if Z.eqb v 0 then d else v
  | None => d
  end.

(** The dictionary [features], in insertion order.  The statements run
    in the order of the source: the BMI division, then [met * 3.5],
    which raises [TypeError] on [None], then the rest-density division. *)
Definition features (req : RecommendRequestV4) (exercise : ExerciseCandidate)
  : PyX.outcome (list (string * Q)) :=
  let metrics := health_metrics req in
  let user_ctx := user_context req in
  let state := current_state req in
  let age := inject_Z (age metrics) in
  let height := height_cm metrics / 100 in
  let weight := weight_kg metrics in
  PyX.and_then
    (match bmi metrics with
     | Some v => if Qeq_bool v 0 then PyX.div weight (height * height)
                 else PyX.Done v
     | None => PyX.div weight (height * height)
     end) (fun bmi =>
  let fat := or_else (body_fat_percentage metrics) 20 in
  let rhr := inject_Z (or_else_int (resting_heart_rate metrics) 70) in
  let gender := inject_Z (_map_sepa_to_numeric (gender user_ctx)) in
  let exp_level :=
    inject_Z (_map_sepa_to_numeric (experience_level user_ctx)) in
  let freq := inject_Z (workout_frequency user_ctx) in
  let mood := inject_Z (_map_sepa_to_numeric (mood state)) in
  let fatigue := inject_Z (_map_sepa_to_numeric (fatigue state)) in
  let effort := 3 in
  let duration := inject_Z (or_else_int (duration_preference_min req) 45) in
  let max_hr_age := 208 - 0.7 * age in
  let avg_hr := rhr + (max_hr_age - rhr) * 0.6 in
  let max_hr := max_hr_age in
  PyX.and_then
    (match met_value exercise with
     | Some met => PyX.Done met
     | None => PyX.Fail PyX.TypeError
     end) (fun met =>
  let calories := (met * 3.5 * weight / 200) * duration in
  let session_duration := duration / 60 in
  let estimated_1rm := weight * 0.8 in
  let pace := 0 in
  let duration_capacity := duration * 60 in
  let rest_period := 60 in
  let intensity_score := met in
  let resistance_intensity :=
    if Py.gtb estimated_1rm 0 then intensity_score / estimated_1rm else 0 in
  let cardio_intensity := if Py.gtb max_hr 0 then avg_hr / max_hr else 0 in
  let volume_load := intensity_score * duration in
  PyX.and_then (PyX.div rest_period (rest_period + duration)) (fun rest_density =>
  let hr_reserve :=
    if Py.gtb (max_hr - rhr) 0 then (avg_hr - rhr) / (max_hr - rhr) else 0 in
  let calorie_efficiency := if Py.gtb duration 0 then calories / duration else 0 in
  PyX.Done
    [ ("duration_min", duration); ("avg_hr", avg_hr); ("max_hr", max_hr);
      ("calories", calories); ("fatigue", fatigue); ("effort", effort);
      ("mood", mood); ("age", age); ("height_m", height); ("weight_kg", weight);
      ("bmi", bmi); ("fat_percentage", fat); ("resting_heartrate", rhr);
      ("experience_level", exp_level); ("workout_frequency", freq);
      ("gender", gender); ("session_duration", session_duration);
      ("estimated_1rm", estimated_1rm); ("pace", pace);
      ("duration_capacity", duration_capacity); ("rest_period", rest_period);
      ("intensity_score", intensity_score);
      ("resistance_intensity", resistance_intensity);
      ("cardio_intensity", cardio_intensity); ("volume_load", volume_load);
      ("rest_density", rest_density); ("hr_reserve", hr_reserve);
      ("calorie_efficiency", calorie_efficiency) ]))).

(** [[features.get(col, 0.0) for col in FEATURE_COLUMNS]] *)
Definition _prepare_input_vector (req : RecommendRequestV4)
  (exercise : ExerciseCandidate) : PyX.outcome (list Q) :=
  PyX.and_then (features req exercise) (fun features =>
  PyX.Done
    (map (fun col => match dict_get features col with
                     | Some v => v
                     | None => 0
                     end) FEATURE_COLUMNS)).

(** *** The service *)

(** [list.sort(key=lambda x: x.suitability_score, reverse=True)]: a
    stable sort into non-increasing key order. *)
Fixpoint insert_desc (x : RecommendationItem) (l : list RecommendationItem)
  : list RecommendationItem :=
  match l with
  | [] => [x]
  | y :: more =>
      if Py.gtb (suitability_score y) (suitability_score x)
      then y :: insert_desc x more
      else x :: l
  end.

Definition sort_desc (l : list RecommendationItem) : list RecommendationItem :=
  fold_right insert_desc [] l.

(** The slice [l[:k]]; a negative [k] counts from the end. *)
Definition slice_to {A : Type} (l : list A) (k : Z) : list A :=
  if (0 <=? k)%Z then firstn (Z.to_nat k) l
  else firstn (Z.to_nat (Z.of_nat (List.length l) + k)) l.

(** The loaded artifacts seen as one function of the feature matrix:
    [SCALER_V4.transform], the forward pass of [MODEL_V4] and the
    flattening, giving [(intensity_vals, suitability_vals)]. *)
Definition Model : Type := list (list Q) -> list Q * list Q.

(** The loop of step 2: one vector per candidate; the first exception
    ends the call. *)
Fixpoint input_vectors (req : RecommendRequestV4)
  (candidates : list ExerciseCandidate) : PyX.outcome (list (list Q)) :=
  match candidates with
  | [] => PyX.Done []
  | ex :: more =>
      PyX.and_then (_prepare_input_vector req ex) (fun vec =>
      PyX.and_then (input_vectors req more) (fun vectors =>
      PyX.Done (vec :: vectors)))
  end.

(** The loop of step 5 over [enumerate(candidates)]. *)
Fixpoint collect (req : RecommendRequestV4) (intensity_vals suitability_vals : list Q)
  (i : nat) (candidates : list ExerciseCandidate)
  (recommendations : list RecommendationItem)
  : PyX.outcome (list RecommendationItem) :=
  match candidates with
  | [] => PyX.Done recommendations
  | ex :: more =>
      PyX.and_then
        (match nth_error suitability_vals i with
         | Some v => PyX.Done v
         | None => PyX.Fail PyX.IndexError
         end) (fun score =>
      PyX.and_then
        (match nth_error intensity_vals i with
         | Some v => PyX.Done v
         | None => PyX.Fail PyX.IndexError
         end) (fun rpe =>
      if Py.gtb score 0.4 then
        let rec :=
          {| exercise_id := id ex;
             exercise_name := name ex;
             predicted_rpe := Py.round rpe 1;
             suitability_score := Py.round score 3;
             reason_percent := Py.int (score * 100);
             suggested_duration := duration_preference_min req |} in
        collect req intensity_vals suitability_vals (S i) more
                (recommendations ++ [rec])
      else
        collect req intensity_vals suitability_vals (S i) more recommendations))
  end.

(** Step 1: [candidates = req.available_exercises or []], replaced by
    the mock list when empty. *)
Definition candidates_of (req : RecommendRequestV4) : list ExerciseCandidate :=
  match available_exercises req with
  | Some (c :: cs) => c :: cs
  | _ => mock_candidates
  end.

(** Steps 1 to 6 of the body: the sorted list that the [return]
    statement is about to slice. *)
Definition sorted_recommendations (model : Model) (req : RecommendRequestV4)
  : PyX.outcome (list RecommendationItem) :=
  let candidates := candidates_of req in
  PyX.and_then (input_vectors req candidates) (fun X =>
  let '(intensity_vals, suitability_vals) := model X in
  PyX.and_then
    (collect req intensity_vals suitability_vals 0 candidates [])
    (fun recommendations => PyX.Done (sort_desc recommendations))).

(** The names bound in the module when line 174 runs: the imports of
    lines 1 to 10, the globals and the three functions defined before. *)
Definition module_names : list string :=
  [ "torch"; "pd"; "np"; "pickle"; "json"; "os"; "logging";
    "List"; "Dict"; "Any"; "TwoBranchRecommendationModel";
    "RecommendRequestV4"; "RecommendationItem";
    "logger"; "MODEL_V4"; "SCALER_V4"; "METADATA_V4"; "DEVICE";
    "FEATURE_COLUMNS"; "load_model_v4_artifacts"; "_map_sepa_to_numeric";
    "_prepare_input_vector" ].

(** Looking a global name up; none of the names looked up below is a
    builtin. *)
Definition global_name (n : string) : PyX.outcome unit :=
  if existsb (String.eqb n) module_names then PyX.Done tt
  else PyX.Fail PyX.NameError.

(** [recommend_v4].  The [def] statement evaluates its two annotations
    when the module is loaded, and the [return] statement looks the
    response class up before its arguments; the outcome of a call is
    the outcome of loading the module and calling.  [MODEL_V4] is [None]
    until the artifacts are loaded. *)
Definition recommend_v4 (MODEL_V4 : option Model) (req : RecommendRequestV4)
  : PyX.outcome (list RecommendationItem) :=
  PyX.and_then (global_name "RecommendRequestV4") (fun _ =>
  PyX.and_then (global_name "RecommendResponseV4") (fun _ =>
  match MODEL_V4 with
  | None => PyX.Fail PyX.ModelNotLoaded
  | Some model =>
      PyX.and_then (sorted_recommendations model req) (fun recommendations =>
      PyX.and_then (global_name "RecommendResponseV4") (fun _ =>
      PyX.Done (slice_to recommendations (top_k req))))
  end)).

End RecommendationV4.

(** ** [two_branch_model_v4.py]: the exercise encoders of [V4Dataset] *)

Module V4Dataset.

#[local] Open Scope string_scope.

Definition _encode_fitness_goal (fitness_goal : string) : list Q :=
  let goals := ["strength"; "hypertrophy"; "endurance"; "general"] in
  map (fun goal => PyX.indicator (String.eqb fitness_goal goal)) goals.

Definition _encode_muscle_group (exercise_name : string) : list Q :=
  [ PyX.indicator (PyX.any_in ["bench"; "press"; "push"] exercise_name);
    PyX.indicator (PyX.any_in ["row"; "pull"; "deadlift"] exercise_name);
    PyX.indicator (PyX.any_in ["squat"; "lunge"; "leg"] exercise_name);
    PyX.indicator (PyX.any_in ["shoulder"; "press"] exercise_name) ].

Definition _encode_movement_type (exercise_name : string) : list Q :=
  if PyX.any_in ["run"; "cycle"; "swim"; "row"] exercise_name
  then [0; 1]
  else [1; 0].

Definition _encode_difficulty (exercise_name : string) : Q :=
  let complex_exercises := ["deadlift"; "olympic"; "muscle"; "planche"] in
  if PyX.any_in complex_exercises exercise_name then 0.8
  else
    let intermediate_exercises := ["squat"; "bench"; "pull"; "handstand"] in
    if PyX.any_in intermediate_exercises exercise_name then 0.6
    else 0.3.

Definition _encode_equipment (exercise_name : string) : Q :=
  if PyX.any_in ["push"; "pull"; "plank"] exercise_name then 0
  else if PyX.any_in ["barbell"; "dumbbell"] exercise_name then 0.7
  else 0.4.

(** The cell [experience_level] of a row: a number, or an object that
    cannot be multiplied by a float (text, [None]). *)
Inductive Experience : Type :=
| Number (x : PyFloat.t)
| NotNumber.

(** [user_experience * 0.1] raises [TypeError] on text and on [None]. *)
Definition _estimate_skill_level (exercise_name : string)
  (user_experience : Experience) : PyX.outcome PyFloat.t :=
  let base_difficulty := _encode_difficulty exercise_name in
  match user_experience with
  | NotNumber => PyX.Fail PyX.TypeError
  | Number x =>
      PyX.Done
        (PyFloat.clip
           (PyFloat.sub (PyFloat.finite base_difficulty)
                        (PyFloat.mul x (PyFloat.finite 0.1)))
           0.1 1.0)
  end.

(** [_extract_exercise_info]: [exercise_name] and [experience_level] are
    the cells of the row, [None] for an absent key. *)
Definition _extract_exercise_info (exercise_name : option string)
  (experience_level : option Experience) : PyX.outcome (list PyFloat.t) :=
  let exercise_name :=
    Str.lower (match exercise_name with Some s => s | None => "unknown" end) in
  let muscle_group_encoding := _encode_muscle_group exercise_name in
  let movement_type_encoding := _encode_movement_type exercise_name in
  let difficulty_encoding := _encode_difficulty exercise_name in
  let is_compound :=
    PyX.indicator (PyX.any_in ["squat"; "deadlift"; "bench"; "press"] exercise_name) in
  let is_cardio :=
    PyX.indicator (PyX.any_in ["run"; "cycle"; "swim"; "row"] exercise_name) in
  let is_bodyweight :=
    PyX.indicator (PyX.any_in ["push"; "pull"; "plank"; "burpee"] exercise_name) in
  let equipment_encoding := _encode_equipment exercise_name in
  PyX.and_then
    (_estimate_skill_level exercise_name
       (match experience_level with
        | Some e => e
        | None => Number (PyFloat.finite 1)
        end))
    (fun skill_level =>
  PyX.Done
    (map PyFloat.finite
         (muscle_group_encoding ++ movement_type_encoding
          ++ [difficulty_encoding; is_compound; is_cardio; is_bodyweight;
              equipment_encoding])
     ++ [skill_level])%list).

End V4Dataset.

(** ** [evaluate_v4_model.py]: score distribution and workout quality *)

Module Evaluation.

#[local] Open Scope string_scope.

(** [distribution[category] += 1] on a dictionary in insertion order. *)
Fixpoint increment (distribution : list (string * Q)) (category : string)
  : list (string * Q) :=
  match distribution with
  | [] => []
  | (cat, n) :: more =>
      if String.eqb cat category then (cat, n + 1) :: more
      else (cat, n) :: increment more category
  end.

Definition categories : list string :=
  ["Perfect Fit"; "Very Good"; "Good"; "Moderate"; "Low"; "Ineffective"].

(** The counting loop of [calculate_score_distribution]. *)
Definition count_categories (scores : list Q) : list (string * Q) :=
  fold_left
    (fun distribution score =>
       increment distribution
                 (fst (fst (SuitabilityClassifier.get_score_range score))))
    scores
    (map (fun cat => (cat, 0)) categories).

(** The conversion to percentages; [total] is [len(scores)]. *)
Fixpoint to_percent (distribution : list (string * Q)) (total : Z)
  : PyX.outcome (list (string * Q)) :=
  match distribution with
  | [] => PyX.Done []
  | (cat, n) :: more =>
      PyX.and_then (PyX.div n (inject_Z total)) (fun share =>
      PyX.and_then (to_percent more total) (fun rest =>
      PyX.Done ((cat, share * 100) :: rest)))
  end.

Definition calculate_score_distribution (scores : list Q)
  : PyX.outcome (list (string * Q)) :=
  to_percent (count_categories scores) (Z.of_nat (List.length scores)).

Record Quality : Type := {
  suitability_alignment_score : Q;
  readiness_appropriateness_score : Q;
  goal_consistency_score : Q;
  parameter_reasonableness_score : bool;
  overall_score : Q;
  is_appropriate : bool
}.

Definition expected_intensity : list (string * Q) :=
  [ ("strength", 0.9); ("hypertrophy", 0.75); ("endurance", 0.55);
    ("general_fitness", 0.68) ].

(** [d[key]] *)
Definition item {V : Type} (d : list (string * V)) (key : string)
  : PyX.outcome V :=
  match dict_get d key with
  | Some v => PyX.Done v
  | None => PyX.Fail PyX.KeyError
  end.

Definition _evaluate_workout_quality (workout_params : V4ModelEvaluator.Workout)
  (goal : string) (suitability_score readiness_factor : Q)
  : PyX.outcome Quality :=
  let target_range := V4ModelEvaluator.target_suitability_range workout_params in
  let suitability_aligned :=
    Py.leb (fst target_range) suitability_score
    && Py.leb suitability_score (snd target_range) in
  let alignment := PyX.indicator suitability_aligned in
  let recommended_weight :=
    V4ModelEvaluator.recommended
      (V4ModelEvaluator.training_weight_kg workout_params) in
  PyX.and_then
    (if Py.gtb readiness_factor 1.1 then
       PyX.and_then
         (PyX.div recommended_weight (V4ModelEvaluator.predicted_1rm workout_params))
         (fun intensity_ratio => PyX.Done (Py.geb intensity_ratio 0.8))
     else if Py.ltb readiness_factor 0.9 then
       PyX.and_then
         (PyX.div recommended_weight (V4ModelEvaluator.predicted_1rm workout_params))
         (fun intensity_ratio => PyX.Done (Py.leb intensity_ratio 0.7))
     else PyX.Done true)
    (fun readiness_appropriate =>
  let readiness_score := PyX.indicator readiness_appropriate in
  PyX.and_then
    (PyX.div recommended_weight (V4ModelEvaluator.adjusted_1rm workout_params))
    (fun actual_intensity =>
  PyX.and_then (item expected_intensity goal) (fun expected =>
  let goal_consistency := 1 - Qabs (actual_intensity - expected) in
  let goal_score := Py.max 0 goal_consistency in
  let reps := V4ModelEvaluator.recommended (V4ModelEvaluator.reps workout_params) in
  let sets := V4ModelEvaluator.recommended (V4ModelEvaluator.sets workout_params) in
  let rest :=
    V4ModelEvaluator.recommended (V4ModelEvaluator.rest_minutes workout_params) in
  let reps_reasonable := (3 <=? reps)%Z && (reps <=? 30)%Z in
  let sets_reasonable := (1 <=? sets)%Z && (sets <=? 6)%Z in
  let rest_reasonable := Py.leb 0.5 rest && Py.leb rest 5 in
  let reasonable := reps_reasonable && sets_reasonable && rest_reasonable in
  let overall :=
    0 + alignment * 0.3 + readiness_score * 0.25 + goal_score * 0.25
    + PyX.indicator reasonable * 0.2 in
  PyX.Done
    {| suitability_alignment_score := alignment;
       readiness_appropriateness_score := readiness_score;
       goal_consistency_score := goal_score;
       parameter_reasonableness_score := reasonable;
       overall_score := overall;
       is_appropriate := Py.geb overall 0.7 |}))).

End Evaluation.

(** ** [two_branch_model_v4.py]: column standardisation and basic cleaning *)

Module V4ModelTrainer.

#[local] Open Scope string_scope.

Definition expected_columns : list string :=
  [ "exercise_name"; "duration_min"; "avg_hr"; "max_hr"; "calories";
    "fatigue"; "effort"; "mood"; "suitability_x"; "age"; "height_m";
    "weight_kg"; "bmi"; "fat_percentage"; "resting_heartrate";
    "experience_level"; "workout_frequency"; "health_status";
    "workout_type"; "location"; "injury_or_pain_notes"; "gender";
    "session_duration"; "estimated_1rm"; "pace"; "duration_capacity";
    "rest_period"; "intensity_score" ].

Definition numeric_columns : list string :=
  [ "age"; "height_m"; "weight_kg"; "bmi"; "experience_level";
    "workout_frequency"; "resting_heartrate"; "estimated_1rm";
    "duration_min"; "avg_hr"; "max_hr"; "calories"; "gender";
    "session_duration"; "pace"; "duration_capacity"; "rest_period";
    "intensity_score" ].

Definition categorical_columns : list string :=
  [ "exercise_name"; "health_status"; "workout_type"; "location";
    "injury_or_pain_notes" ].

Definition sepa_columns : list string := [ "fatigue"; "effort"; "mood" ].

(** [x in xs] on a list of names. *)
Definition mem (x : string) (xs : list string) : bool :=
  existsb (String.eqb x) xs.

Section Columns.

(** A frame is the list of its columns, in order; [Column] is the type
    of a column's content and the three constants are the columns filled
    with [0.0], ['Unknown'] and [3]. *)
Variable Column : Type.
Variables zeros unknowns neutrals : Column.

Definition Frame : Type := list (string * Column).

Definition columns (data : Frame) : list string := map fst data.

(** One iteration of the loop that adds missing columns. *)
Definition add_missing (data : Frame) (col : string) : Frame :=
  if negb (mem col (columns data)) then
    if mem col numeric_columns then (data ++ [(col, zeros)])%list
    else if mem col categorical_columns then (data ++ [(col, unknowns)])%list
    else if mem col sepa_columns then (data ++ [(col, neutrals)])%list
    else data
  else data.

(** The second loop over [data.columns]. *)
Definition add_remaining (final_columns : list string) (col : string)
  : list string :=
  if negb (mem col final_columns) then (final_columns ++ [col])%list
  else final_columns.

(** [data[final_columns]] for a frame with distinct column names. *)
Fixpoint select (data : Frame) (final_columns : list string) : Frame :=
  match final_columns with
  | [] => []
  | col :: more =>
      match dict_get data col with
      | Some content => (col, content) :: select data more
      | None => select data more
      end
  end.

Definition _standardize_columns (data : Frame) : Frame :=
  let data := fold_left add_missing expected_columns data in
  let final_columns :=
    filter (fun col => mem col (columns data)) expected_columns in
  let final_columns := fold_left add_remaining (columns data) final_columns in
  select data final_columns.

End Columns.

Section Cleaning.

(** A row of the frame with the four cells that the cleaning reads. *)
Variable Row : Type.
Variables age weight_kg height_m estimated_1rm : Row -> Q.

Definition _basic_cleaning (data : list Row) : PyX.outcome (list Row) :=
  let cleaned := data in
  let initial_count := List.length cleaned in
  let cleaned :=
    filter (fun r => Py.geb (age r) 16 && Py.leb (age r) 80) cleaned in
  let cleaned :=
    filter (fun r => Py.geb (weight_kg r) 35 && Py.leb (weight_kg r) 200)
           cleaned in
  let cleaned :=
    filter (fun r => Py.geb (height_m r) 1.2 && Py.leb (height_m r) 2.4)
           cleaned in
  let cleaned := filter (fun r => Py.gtb (estimated_1rm r) 0) cleaned in
  (* the report line computes [len(cleaned)/initial_count] *)
  PyX.and_then
    (PyX.div (inject_Z (Z.of_nat (List.length cleaned)))
             (inject_Z (Z.of_nat initial_count)))
    (fun _ => PyX.Done cleaned).

End Cleaning.

End V4ModelTrainer.

(** ** [data_cleaning_v4.py]: SePA standardisation and suitability targets *)

Module SepaFeatures.

(** The numeric cell written for a raw SePA cell: the mapped value, or 3
    when it falls outside 1..5. *)
Definition numeric_cell (float : string -> option PyFloat.t)
  (mapping : V4DataCleaner.Mapping) (cell : V4DataCleaner.Value)
  : PyX.outcome Z :=
  PyX.and_then (V4DataCleaner._map_sepa_to_numeric float cell mapping 3)
    (fun v => PyX.Done (if (v <? 1)%Z || (5 <? v)%Z then 3%Z else v)).

Record Standardized : Type := {
  mood_numeric : Q;
  fatigue_numeric : Q;
  effort_numeric : Q;
  readiness_factor_v4 : Q;
  sepa_composite : Q
}.

(** The numeric column after the first loop: rewritten from the raw
    column when the frame has one, otherwise as it was ([None] when the
    frame has neither). *)
Definition numeric_column (float : string -> option PyFloat.t)
  (mapping : V4DataCleaner.Mapping) (raw : option V4DataCleaner.Value)
  (old : option Q) : PyX.outcome (option Q) :=
  match raw with
  | Some cell =>
      PyX.and_then (numeric_cell float mapping cell)
        (fun v => PyX.Done (Some (inject_Z v)))
  | None => PyX.Done old
  end.

Definition column (c : option Q) : PyX.outcome Q :=
  match c with
  | Some v => PyX.Done v
  | None => PyX.Fail PyX.KeyError
  end.

(** [standardize_sepa_features] on a frame of one row.  [mood],
    [fatigue] and [effort] are the raw cells and the [old_] arguments
    the cells, numbers, of numeric columns the frame already had; [None]
    is an absent column.  The columns are mapped in the order of
    [SEPA_MAPPINGS]. *)
Definition standardize_sepa_features (float : string -> option PyFloat.t)
  (mood fatigue effort : option V4DataCleaner.Value)
  (old_mood old_fatigue old_effort : option Q) : PyX.outcome Standardized :=
  PyX.and_then
    (numeric_column float V4DataCleaner.SEPA_MAPPINGS_mood mood old_mood)
    (fun mood_numeric =>
  PyX.and_then
    (numeric_column float V4DataCleaner.SEPA_MAPPINGS_fatigue fatigue old_fatigue)
    (fun fatigue_numeric =>
  PyX.and_then
    (numeric_column float V4DataCleaner.SEPA_MAPPINGS_effort effort old_effort)
    (fun effort_numeric =>
  let get (c : option Q) := match c with Some v => v | None => 3 end in
  let readiness :=
    V4DataCleaner._calculate_readiness_factor_v4
      (get mood_numeric) (get fatigue_numeric) (get effort_numeric) in
  PyX.and_then (column mood_numeric) (fun m =>
  PyX.and_then (column fatigue_numeric) (fun f =>
  PyX.and_then (column effort_numeric) (fun e =>
  PyX.Done
    {| mood_numeric := m;
       fatigue_numeric := f;
       effort_numeric := e;
       readiness_factor_v4 := readiness;
       sepa_composite := (m * 0.4 + (6 - f) * 0.3 + e * 0.3) / 3 |})))))).

(** The cells of a row read by [_calculate_enhanced_suitability]. *)
Record Features : Type := {
  resistance_intensity : Q;
  cardio_intensity : Q;
  readiness : Q;
  experience_level : Q;
  mood : Q;
  fatigue : Q;
  effort : Q
}.

(** The body of the row loop of [_calculate_enhanced_suitability]. *)
Definition _calculate_enhanced_suitability (row : Features) : Q :=
  let score := 0.5 in
  let score :=
    if Py.gtb (resistance_intensity row) 0.1 && Py.ltb (resistance_intensity row) 1.5
    then score + 0.15 else score in
  let score :=
    if Py.gtb (cardio_intensity row) 0.1 && Py.ltb (cardio_intensity row) 1.0
    then score + 0.15 else score in
  let score :=
    if Py.gtb (readiness row) 1.0 then score + 0.25
    else if Py.gtb (readiness row) 0.9 then score + 0.15
    else if Py.ltb (readiness row) 0.8 then score - 0.15
    else score in
  let score :=
    if Py.geb (experience_level row) 2 then
      if Py.gtb (resistance_intensity row) 0.7 then score + 0.2 else score
    else
      if Py.ltb (resistance_intensity row) 0.9 then score + 0.2 else score in
  let sepa_avg := (mood row + (6 - fatigue row) + effort row) / 3 in
  let score := score + (sepa_avg - 3) * 0.1 in
  Py.clip score 0.0 1.0.

End SepaFeatures.

(** ** [Data/merge_exercise_dataset.py] *)

Module MergeExerciseDataset.

(** [[a-z\s]]: the characters that the first substitution keeps. *)
Definition kept (c : ascii) : bool :=
  let n := nat_of_ascii c in
  ((97 <=? n) && (n <=? 122))%nat || Str.isspace c.

Fixpoint keep_letters (s : string) : string :=
  match s with
  | EmptyString => EmptyString
  | String c rest =>
      if kept c then String c (keep_letters rest) else keep_letters rest
  end.

(** [re.sub(r'\s+', ' ', text)]; [in_run] tells that the previous
    character was white space. *)
Fixpoint collapse (s : string) (in_run : bool) : string :=
  match s with
  | EmptyString => EmptyString
  | String c rest =>
      if Str.isspace c then
        if in_run then collapse rest true
        else String " "%char (collapse rest true)
      else String c (collapse rest false)
  end.

(** [normalize]; [None] is a missing value. *)
Definition normalize (text : option string) : string :=
  match text with
  | None => EmptyString
  | Some text =>
      let text := Str.lower text in
      let text := keep_letters text in
      let text := collapse text false in
      Str.strip text
  end.

End MergeExerciseDataset.

(** * Specification-side definitions

    The tables and formulas of the specification, written from its
    words, to be compared with the embedded code. *)

Module Spec.

(** Sum of [f] over a record sequence. *)
Definition sumQ {A : Type} (f : A -> Q) (l : list A) : Q :=
  fold_right (fun a acc => f a + acc) 0 l.

Definition count {A : Type} (l : list A) : Q :=
  inject_Z (Z.of_nat (List.length l)).

(** Clamping to a closed interval. *)
Definition clamp (lo hi x : Q) : Q := Qmax lo (Qmin hi x).

(** The parser: every ['|'] segment is kept or dropped on its own. *)
Definition record_of (float : string -> option Q) (segment : string)
  : option ExerciseSet :=
  match read_segment float segment with
  | Py.Ok (Some e) => if positive_fields e then Some e else None
  | _ => None
  end.

Fixpoint records_of (float : string -> option Q) (segments : list string)
  : list ExerciseSet :=
  match segments with
  | [] => []
  | segment :: more =>
      match record_of float segment with
      | Some e => e :: records_of float more
      | None => records_of float more
      end
  end.

Definition parse (float : string -> option Q) (s : string) : list ExerciseSet :=
  records_of float (Str.split "|" s).

(** The segments in front of the first one with a field that is not a
    number. *)
Fixpoint readable_prefix (float : string -> option Q) (segments : list string)
  : list string :=
  match segments with
  | [] => []
  | segment :: more =>
      match read_segment float segment with
      | Py.Raise _ => []
      | Py.Ok _ => segment :: readable_prefix float more
      end
  end.

(** [resistance_intensity_i = (weight*reps)/(estimated_1rm*10)] *)
Definition resistance_i (estimated_1rm : Q) (e : ExerciseSet) : Q :=
  let '(reps, weight, sets) := e in (weight * reps) / (estimated_1rm * 10).

(** [cardio_intensity_i = (reps/30) * (1/max(1,sets))] *)
Definition cardio_i (e : ExerciseSet) : Q :=
  let '(reps, weight, sets) := e in (reps / 30) * (1 / Qmax 1 sets).

Definition sets_of (e : ExerciseSet) : Q := snd e.

(** [Σ coefficient_i * sets_i], divided by the record count, clamped. *)
Definition averaged (coefficient : ExerciseSet -> Q) (lo hi : Q)
  (records : list ExerciseSet) : Q :=
  clamp lo hi (sumQ (fun e => coefficient e * sets_of e) records / count records).

Definition resistance_intensity (estimated_1rm : Q) (records : list ExerciseSet)
  : Q :=
  averaged (resistance_i estimated_1rm) 0 2 records.

Definition cardio_intensity (records : list ExerciseSet) : Q :=
  averaged cardio_i 0 1.5 records.

(** The per-record cardio value of [process_exercise_data]:
    [distance / (time * max_pace)] with the weight as distance and four
    seconds per repetition. *)
Definition pace_cardio_i (max_pace : Q) (e : ExerciseSet) : Q :=
  let '(reps, weight, sets) := e in weight / (reps * 4 * max_pace).

(** A workout string that writes down exactly the given records. *)
Definition encodes (float : string -> option Q) (s : string)
  (records : list ExerciseSet) : Prop :=
  Forall2 (fun segment e =>
             read_segment float segment = Py.Ok (Some e)
             /\ positive_fields e = true)
          (Str.split "|" s) records.

(** The documented intervals of the five coefficients. *)
Definition in_interval (lo hi x : Q) : Prop := lo <= x /\ x <= hi.

(** The subjective-scale mapper of the specification. *)
Fixpoint table_entry (mapping : list (string * Z)) (text : string) : option Z :=
  match mapping with
  | [] => None
  | (key, v) :: more =>
      if String.eqb (Str.lower key) (Str.lower text) then Some v
      else table_entry more text
  end.

Definition scale_map (mapping : list (string * Z)) (default : Q)
  (value : V4DataCleaner.Value) : Q :=
  match value with
  | V4DataCleaner.Missing => default
  | V4DataCleaner.Num (PyFloat.finite q) =>
      if Qle_bool 1 q && Qle_bool q 5 then q else default
  | V4DataCleaner.Num _ => default
  | V4DataCleaner.Text s =>
      match table_entry mapping s with
      | Some v => inject_Z v
      | None => default
      end
  end.

(** A segment whose numeric fields all convert. *)
Definition readable (float : string -> option Q) (segment : string) : bool :=
  match read_segment float segment with
  | Py.Ok _ => true
  | Py.Raise _ => false
  end.

(** The record sequence of an optional workout string. *)
Definition surviving (float : string -> option Q) (workout : option string)
  : list ExerciseSet :=
  match workout with
  | None => []
  | Some s => V4DataCleaner._parse_workout_data float s
  end.

(** The documented intervals, for the calculator's dictionary and for a
    row of the cleaned frame. *)
Definition documented (c : IntensityCoefficientsCalculator.Coefficients) : Prop :=
  in_interval 0 2 (IntensityCoefficientsCalculator.resistance_intensity c)
  /\ in_interval 0 1.5 (IntensityCoefficientsCalculator.cardio_intensity c)
  /\ in_interval 0 1 (IntensityCoefficientsCalculator.volume_load c)
  /\ in_interval 0 1 (IntensityCoefficientsCalculator.rest_density c)
  /\ in_interval 0.5 1.5 (IntensityCoefficientsCalculator.tempo_factor c).

Definition documented_row (r : V4DataCleaner.Row) : Prop :=
  in_interval 0 2 (V4DataCleaner.resistance_intensity r)
  /\ in_interval 0 1.5 (V4DataCleaner.cardio_intensity r)
  /\ in_interval 0 1 (V4DataCleaner.volume_load r)
  /\ in_interval 0 1 (V4DataCleaner.rest_density r)
  /\ in_interval 0.5 1.5 (V4DataCleaner.tempo_factor r).

(** Number of cells of a column outside [[lo, hi]], and the line that
    the validation step reports for the column. *)
Definition outliers (col : V4DataCleaner.Column) (lo hi : Q)
  (data : list V4DataCleaner.Row) : nat :=
  List.length
    (filter (fun r => negb (Qle_bool lo (V4DataCleaner.cell col r))
                      || negb (Qle_bool (V4DataCleaner.cell col r) hi)) data).

Definition report (data : list V4DataCleaner.Row)
  (entry : V4DataCleaner.Column * (Q * Q)) : list (V4DataCleaner.Column * nat) :=
  let '(col, (lo, hi)) := entry in
  match outliers col lo hi data with
  | O => []
  | S n => [(col, S n)]
  end.

(** Clamping one column of the frame, and the five clamps of
    [INTENSITY_RANGES] applied to one row. *)
Definition clip_column (data : list V4DataCleaner.Row)
  (entry : V4DataCleaner.Column * (Q * Q)) : list V4DataCleaner.Row :=
  let '(col, (lo, hi)) := entry in
  map (fun r => V4DataCleaner.set_cell col
                  (Py.clip (V4DataCleaner.cell col r) lo hi) r) data.

Definition clip_row (r : V4DataCleaner.Row) : V4DataCleaner.Row :=
  {| V4DataCleaner.workout_data := V4DataCleaner.workout_data r;
     V4DataCleaner.estimated_1rm := V4DataCleaner.estimated_1rm r;
     V4DataCleaner.resistance_intensity :=
       Py.clip (V4DataCleaner.resistance_intensity r) 0.1 2.0;
     V4DataCleaner.cardio_intensity :=
       Py.clip (V4DataCleaner.cardio_intensity r) 0.0 1.5;
     V4DataCleaner.volume_load := Py.clip (V4DataCleaner.volume_load r) 0.0 1.0;
     V4DataCleaner.rest_density := Py.clip (V4DataCleaner.rest_density r) 0.0 1.0;
     V4DataCleaner.tempo_factor := Py.clip (V4DataCleaner.tempo_factor r) 0.5 1.5;
     V4DataCleaner.metabolic_stress := V4DataCleaner.metabolic_stress r |}.

(** The scale test of the mapper on an integer part. *)
Definition in_scale (n : Z) : bool := (1 <=? n)%Z && (n <=? 5)%Z.

(** Non-increasing suitability score of adjacent recommendations. *)
Definition score_ge (a b : RecommendationV4.RecommendationItem) : Prop :=
  RecommendationV4.suitability_score b <= RecommendationV4.suitability_score a.

(** What an item says about the candidate it was built from: the
    candidate sits at some index of the candidate list, and the model's
    suitability value at that index is above 0.4. *)
Definition built_from (req : RecommendationV4.RecommendRequestV4)
  (intensity_vals suitability_vals : list Q)
  (item : RecommendationV4.RecommendationItem) : Prop :=
  exists i ex score rpe,
    nth_error (RecommendationV4.candidates_of req) i = Some ex
    /\ nth_error suitability_vals i = Some score
    /\ nth_error intensity_vals i = Some rpe
    /\ 0.4 < score
    /\ item
       = {| RecommendationV4.exercise_id := RecommendationV4.id ex;
            RecommendationV4.exercise_name := RecommendationV4.name ex;
            RecommendationV4.predicted_rpe := Py.round rpe 1;
            RecommendationV4.suitability_score := Py.round score 3;
            RecommendationV4.reason_percent := Py.int (score * 100);
            RecommendationV4.suggested_duration :=
              RecommendationV4.duration_preference_min req |}.

(** The six suitability bands and their actions. *)
Inductive band : Q -> string -> string -> Prop :=
| band_perfect_fit s :
    0.95 <= s -> s <= 1 ->
    band s "Perfect Fit"
         "🟣 LOCK-IN: Bài tập này làm bài tập chính cho kế hoạch tương lai"
| band_very_good s :
    0.85 <= s -> s < 0.95 ->
    band s "Very Good"
         "🔵 RECOMMEND: Bài tập 'signature' - đề xuất thường xuyên"
| band_good s :
    0.75 <= s -> s < 0.85 ->
    band s "Good" "🟢 KEEP: Giữ trong chương trình - ưu tiên cao"
| band_moderate s :
    0.6 <= s -> s < 0.75 ->
    band s "Moderate" "🟡 ADJUST: Cần điều chỉnh reps/sets/weight để tối ưu"
| band_low s :
    0.4 <= s -> s < 0.6 ->
    band s "Low" "⚠️ SUPPORT: Có thể dùng làm bài tập hỗ trợ/khởi động"
| band_ineffective s :
    0 <= s -> s < 0.4 ->
    band s "Ineffective" "❌ REMOVE: Loại bỏ hoặc thay bằng bài tương tự".

(** The rule table of the readiness estimator on the scale 1..5. *)
Definition mood_rule (mood : Z) : Q :=
  if (5 <=? mood)%Z then 0.1
  else if (mood <=? 2)%Z then - 0.1
  else inject_Z (mood - 3) * 0.05.

Definition fatigue_rule (fatigue : Z) : Q :=
  if (4 <=? fatigue)%Z then - 0.12
  else if (fatigue <=? 2)%Z then 0.08
  else inject_Z (3 - fatigue) * 0.04.

Definition effort_rule (effort : Z) : Q :=
  if (5 <=? effort)%Z then - 0.03
  else if (effort <=? 2)%Z then 0.05
  else 0.

Definition estimate (mood fatigue effort : Z) : Q :=
  clamp 0.6 1.3 (1 + mood_rule mood + fatigue_rule fatigue + effort_rule effort).

(** The goal row used by the decoder; unknown goals use general fitness. *)
Definition rules_of (goal : string) : Goal.Rules :=
  match dict_get WORKOUT_GOAL_MAPPING_V4 goal with
  | Some rules => rules
  | None => general_fitness_rules
  end.

Definition midpoint (range : Z * Z) : Q :=
  inject_Z (fst range + snd range) / 2.



End Spec.

(** Sample requests: two candidates and artifacts with fixed outputs. *)
Module Sample.

Definition squat : RecommendationV4.ExerciseCandidate :=
  {| RecommendationV4.id := "ex1"; RecommendationV4.name := "Barbell Squat";
     RecommendationV4.met_value := Some 6 |}.

Definition yoga : RecommendationV4.ExerciseCandidate :=
  {| RecommendationV4.id := "ex3"; RecommendationV4.name := "Yoga";
     RecommendationV4.met_value := Some 3 |}.

Definition request (k : Z) : RecommendationV4.RecommendRequestV4 :=
  {| RecommendationV4.health_metrics :=
       {| RecommendationV4.age := 30;
          RecommendationV4.height_cm := 180;
          RecommendationV4.weight_kg := 80;
          RecommendationV4.bmi := None;
          RecommendationV4.body_fat_percentage := None;
          RecommendationV4.resting_heart_rate := None |};
     RecommendationV4.user_context :=
       {| RecommendationV4.gender := "Male";
          RecommendationV4.experience_level := "Pro";
          RecommendationV4.workout_frequency := 3 |};
     RecommendationV4.current_state :=
       {| RecommendationV4.mood := "Good";
          RecommendationV4.fatigue := "Low" |};
     RecommendationV4.duration_preference_min := Some 60%Z;
     RecommendationV4.available_exercises := Some [yoga; squat];
     RecommendationV4.top_k := k |}.

Definition fixed_model (suitability : list Q) : RecommendationV4.Model :=
  fun X => (map (fun _ => 5) X, suitability).

End Sample.

(** ** Formulas used by the further properties *)

Module Formula.

(** [Σ weight_i * reps_i * sets_i] *)
Definition volume (records : list ExerciseSet) : Q :=
  Spec.sumQ (fun e => let '(reps, weight, sets) := e in weight * reps * sets)
            records.

(** [Σ reps_i * sets_i * 4], the seconds of work *)
Definition work_time (records : list ExerciseSet) : Q :=
  Spec.sumQ (fun e => let '(reps, weight, sets) := e in reps * sets * 4) records.

(** [Σ sets_i * 120], the seconds of rest *)
Definition rest_time (records : list ExerciseSet) : Q :=
  Spec.sumQ (fun e => let '(reps, weight, sets) := e in sets * 120) records.


(** The records that [process_exercise_data] accumulates. *)
Definition accumulated (float : string -> option Q) (s : string)
  : list ExerciseSet :=
  Spec.records_of float (Str.split "|" s).

Definition segments (s : string) : Q :=
  inject_Z (Z.of_nat (List.length (Str.split "|" s))).

(** The category of a score, and the percentage of the scores that
    fall into a category. *)
Definition category (score : Q) : string :=
  fst (fst (SuitabilityClassifier.get_score_range score)).

Definition share (cat : string) (scores : list Q) : Q :=
  Spec.count (filter (fun score => String.eqb cat (category score)) scores)
  / Spec.count scores * 100.

(** The counter of one category along the counting loop. *)
Definition tally (k : string) (scores : list Q) (init : Q) : Q :=
  fold_left
    (fun n score => if String.eqb k (category score) then n + 1 else n)
    scores init.

(** A share or an indicator: a number between 0 and 1. *)
Definition unit_interval (x : Q) : Prop := 0 <= x /\ x <= 1.

(** The column that [_standardize_columns] creates for a missing name:
    none for a name outside its three lists. *)
Definition default_column {Column : Type} (zeros unknowns neutrals : Column)
  (col : string) : option Column :=
  if V4ModelTrainer.mem col V4ModelTrainer.numeric_columns then Some zeros
  else if V4ModelTrainer.mem col V4ModelTrainer.categorical_columns
       then Some unknowns
  else if V4ModelTrainer.mem col V4ModelTrainer.sepa_columns then Some neutrals
  else None.

(** The default columns of a list of names. *)
Definition created {Column : Type} (zeros unknowns neutrals : Column)
  (names : list string) : list (string * Column) :=
  flat_map (fun col => match default_column zeros unknowns neutrals col with
                       | Some content => [(col, content)]
                       | None => []
                       end) names.

Definition defaultable (col : string) : bool :=
  V4ModelTrainer.mem col V4ModelTrainer.numeric_columns
  || V4ModelTrainer.mem col V4ModelTrainer.categorical_columns
  || V4ModelTrainer.mem col V4ModelTrainer.sepa_columns.

(** Normal form of an exercise title: lower-case letters in words
    separated by single spaces, with no space at either end.
    [after_space] tells that the previous character was a space, or that
    the text starts here. *)
Definition letter (c : ascii) : bool :=
  let n := nat_of_ascii c in ((97 <=? n) && (n <=? 122))%nat.

Fixpoint spaced_from (s : string) (after_space : bool) : bool :=
  match s with
  | EmptyString => true
  | String c rest =>
      if Ascii.eqb c " "%char then negb after_space && spaced_from rest true
      else letter c && spaced_from rest false
  end.

Fixpoint normal_from (s : string) (after_space : bool) : bool :=
  match s with
  | EmptyString => negb after_space
  | String c rest =>
      if Ascii.eqb c " "%char then negb after_space && normal_from rest true
      else letter c && normal_from rest false
  end.

Definition normal (s : string) : bool :=
  match s with
  | EmptyString => true
  | String _ _ => normal_from s true
  end.

(** The value that [int(float(...))] overflows on: an infinite number,
    or text that converts to one. *)
Definition overflows (float : string -> option PyFloat.t)
  (value : V4DataCleaner.Value) : Prop :=
  match value with
  | V4DataCleaner.Missing => False
  | V4DataCleaner.Num x => x = PyFloat.inf \/ x = PyFloat.neg_inf
  | V4DataCleaner.Text s => float s = Some PyFloat.inf \/ float s = Some PyFloat.neg_inf
  end.

(** The finite part of [float()]: the conversions that give a finite
    number. *)
Definition finite_part (float : string -> option PyFloat.t) (s : string)
  : option Q :=
  match float s with
  | Some (PyFloat.finite q) => Some q
  | _ => None
  end.

(** The fields of a workout string. *)
Definition fields (workout : string) : list string :=
  flat_map (fun exercise => Str.split "x" (Str.strip exercise))
           (Str.split "|" workout).

Definition finite_field (float : string -> option PyFloat.t) (field : string)
  : bool :=
  match float field with
  | Some (PyFloat.finite _) | None => true
  | Some _ => false
  end.

(** No field of the workout string converts to nan or to an infinity. *)
Definition finite_fields (float : string -> option PyFloat.t)
  (workout : option string) : bool :=
  match workout with
  | Some s => forallb (finite_field float) (fields s)
  | None => true
  end.

Definition of_record (e : ExerciseSet) : Ieee.ExerciseSet :=
  let '(reps, weight, sets) := e in
  (PyFloat.finite reps, PyFloat.finite weight, PyFloat.finite sets).

Definition of_totals (t : IntensityCoefficientsCalculator.Totals)
  : Ieee.IntensityCoefficientsCalculator.Totals :=
  {| Ieee.IntensityCoefficientsCalculator.total_volume :=
       PyFloat.finite (IntensityCoefficientsCalculator.total_volume t);
     Ieee.IntensityCoefficientsCalculator.total_resistance :=
       PyFloat.finite (IntensityCoefficientsCalculator.total_resistance t);
     Ieee.IntensityCoefficientsCalculator.total_cardio :=
       PyFloat.finite (IntensityCoefficientsCalculator.total_cardio t);
     Ieee.IntensityCoefficientsCalculator.total_work_time :=
       PyFloat.finite (IntensityCoefficientsCalculator.total_work_time t);
     Ieee.IntensityCoefficientsCalculator.total_rest_time :=
       PyFloat.finite (IntensityCoefficientsCalculator.total_rest_time t) |}.

Definition of_coefficients (c : IntensityCoefficientsCalculator.Coefficients)
  : Ieee.IntensityCoefficientsCalculator.Coefficients :=
  {| Ieee.IntensityCoefficientsCalculator.resistance_intensity :=
       PyFloat.finite (IntensityCoefficientsCalculator.resistance_intensity c);
     Ieee.IntensityCoefficientsCalculator.cardio_intensity :=
       PyFloat.finite (IntensityCoefficientsCalculator.cardio_intensity c);
     Ieee.IntensityCoefficientsCalculator.volume_load :=
       PyFloat.finite (IntensityCoefficientsCalculator.volume_load c);
     Ieee.IntensityCoefficientsCalculator.rest_density :=
       PyFloat.finite (IntensityCoefficientsCalculator.rest_density c);
     Ieee.IntensityCoefficientsCalculator.tempo_factor :=
       PyFloat.finite (IntensityCoefficientsCalculator.tempo_factor c) |}.




(** The records that the cleaner's parser keeps, on floats with special
    values. *)
Definition surviving (float : string -> option PyFloat.t)
  (workout : option string) : list Ieee.ExerciseSet :=
  match workout with
  | None => []
  | Some s => Ieee.V4DataCleaner._parse_workout_data float s
  end.

(** Every coefficient is a number of its documented interval. *)
Definition documented (c : Ieee.IntensityCoefficientsCalculator.Coefficients)
  : bool :=
  Ieee.within 0 2 (Ieee.IntensityCoefficientsCalculator.resistance_intensity c)
  && Ieee.within 0 1.5 (Ieee.IntensityCoefficientsCalculator.cardio_intensity c)
  && Ieee.within 0 1 (Ieee.IntensityCoefficientsCalculator.volume_load c)
  && Ieee.within 0 1 (Ieee.IntensityCoefficientsCalculator.rest_density c)
  && Ieee.within 0.5 1.5 (Ieee.IntensityCoefficientsCalculator.tempo_factor c).


End Formula.

(** * Verification *)

(** ** Comparisons and clipping *)

Lemma leb_spec (x y : Q) : BoolSpec (x <= y) (y < x) (Py.leb x y).
Proof.
  unfold Py.leb. destruct (Qle_bool x y) eqn:E; constructor.
  - now apply Qle_bool_iff.
  - apply Qnot_le_lt. intros H. apply Qle_bool_iff in H. congruence.
Qed.

Lemma ltb_spec (x y : Q) : BoolSpec (x < y) (y <= x) (Py.ltb x y).
Proof.
  unfold Py.ltb. fold (Py.leb y x).
  destruct (leb_spec y x); constructor; assumption.
Qed.

(** Case analysis on every comparison of the goal. *)
Ltac py_cases :=
  unfold Py.gtb, Py.geb in *;
  repeat match goal with
         | |- context [Py.leb ?x ?y] => destruct (leb_spec x y)
         | |- context [Py.ltb ?x ?y] => destruct (ltb_spec x y)
         end.

Lemma clip_cases (x lo hi : Q) :
  (x < lo /\ hi < lo /\ Py.clip x lo hi = hi)
  \/ (x < lo /\ lo <= hi /\ Py.clip x lo hi = lo)
  \/ (lo <= x /\ hi < x /\ Py.clip x lo hi = hi)
  \/ (lo <= x /\ x <= hi /\ Py.clip x lo hi = x).
Proof.
  unfold Py.clip, Py.gtb.
  destruct (ltb_spec x lo); cbv zeta.
  - destruct (ltb_spec hi lo); auto.
  - destruct (ltb_spec hi x); auto 6.
Qed.

Lemma clip_bounds (x lo hi : Q) : lo <= hi -> lo <= Py.clip x lo hi <= hi.
Proof.
  intros H.
  destruct (clip_cases x lo hi) as [(?&?&->)|[(?&?&->)|[(?&?&->)|(?&?&->)]]]; lra.
Qed.


Lemma clip_clamp (x lo hi : Q) : lo <= hi -> Py.clip x lo hi == Spec.clamp lo hi x.
Proof.
  intros H. unfold Spec.clamp.
  destruct (Q.max_spec lo (Qmin hi x)) as [[? E]|[? E]]; rewrite E; clear E;
    destruct (Q.min_spec hi x) as [[? E]|[? E]]; rewrite E in *; clear E;
    destruct (clip_cases x lo hi) as [(?&?&->)|[(?&?&->)|[(?&?&->)|(?&?&->)]]];
    lra.
Qed.

Lemma max_Qmax (a b : Q) : Py.max a b == Qmax a b.
Proof.
  unfold Py.max. destruct (Q.max_spec a b) as [[? E]|[? E]]; rewrite E;
    py_cases; lra.
Qed.

(** ** Suitability bands *)

Section Classifier.

Import SuitabilityClassifier.

Lemma classify_in_band (score : Q) (category action : string) :
  0 <= score -> score <= 1 ->
  classify score = (category, action) -> Spec.band score category action.
Proof.
  intros H0 H1. unfold classify, get_score_range, get_action_recommendation.
  py_cases; cbn [fst]; intros [= <- <-]; constructor; lra.
Qed.

Lemma band_classify (score : Q) (category action : string) :
  Spec.band score category action -> classify score = (category, action).
Proof.
  intros H. unfold classify, get_score_range, get_action_recommendation.
  inversion H; subst; py_cases; cbn [fst]; try reflexivity; lra.
Qed.

Lemma category_action_paired (s1 s2 : Q) :
  fst (classify s1) = fst (classify s2) <-> snd (classify s1) = snd (classify s2).
Proof.
  unfold classify, get_score_range, get_action_recommendation.
  py_cases; cbn [fst snd]; split; intros E; try reflexivity; discriminate E.
Qed.

(** C4. [SuitabilityClassifier] is total on [[0,1]]: the category and the
    action computed for a score are exactly those of the band that
    contains the score ([0.95,1] Perfect Fit, [0.85,0.95) Very Good,
    [0.75,0.85) Good, [0.6,0.75) Moderate, [0.4,0.6) Low, [0,0.4)
    Ineffective); two scores get the same category exactly when they get
    the same action; 0.76 is Good with the KEEP action and 0.4 is Low with
    the SUPPORT action. *)
Theorem classify_six_bands (score : Q) :
  0 <= score -> score <= 1 ->
  (exists category action, classify score = (category, action))
  /\ (forall category action,
        classify score = (category, action) <-> Spec.band score category action)
  /\ (forall other,
        fst (classify score) = fst (classify other)
        <-> snd (classify score) = snd (classify other))
  /\ classify 0.76 = ("Good", "🟢 KEEP: Giữ trong chương trình - ưu tiên cao")%string
  /\ classify 0.4
     = ("Low", "⚠️ SUPPORT: Có thể dùng làm bài tập hỗ trợ/khởi động")%string.
Proof.
  intros H0 H1. split; [|split; [|split; [|split]]].
  - destruct (classify score) as [c a]. now exists c, a.
  - intros c a. split.
    + now apply classify_in_band.
    + apply band_classify.
  - intros other. apply category_action_paired.
  - reflexivity.
  - reflexivity.
Qed.

Lemma classify_six_bands_witness :
  0 <= 0.9 /\ 0.9 <= 1
  /\ Spec.band 0.9 (fst (classify 0.9)) (snd (classify 0.9)).
Proof.
  assert (H0 : 0 <= 0.9) by (unfold Qle; simpl; lia).
  assert (H1 : 0.9 <= 1) by (unfold Qle; simpl; lia).
  split; [exact H0|split; [exact H1|]].
  apply (proj1 (proj2 (classify_six_bands 0.9 H0 H1))). reflexivity.
Defined.

End Classifier.

(** ** Readiness factor *)

Lemma scale_values (n : Z) :
  (1 <= n <= 5)%Z -> n = 1%Z \/ n = 2%Z \/ n = 3%Z \/ n = 4%Z \/ n = 5%Z.
Proof. lia. Qed.

(** C5. For mood, fatigue and effort in 1..5 the readiness factor is 1.0
    plus the three adjustments of the rule table, clamped to [[0.6,1.3]];
    the result lies in that interval and [estimate(5,1,3)] is 1.18. *)
Theorem readiness_factor_rule_table (mood fatigue effort : Z) :
  (1 <= mood <= 5)%Z -> (1 <= fatigue <= 5)%Z -> (1 <= effort <= 5)%Z ->
  V4DataCleaner._calculate_readiness_factor_v4
    (inject_Z mood) (inject_Z fatigue) (inject_Z effort)
  == Spec.estimate mood fatigue effort
  /\ 0.6 <= V4DataCleaner._calculate_readiness_factor_v4
              (inject_Z mood) (inject_Z fatigue) (inject_Z effort) <= 1.3
  /\ V4DataCleaner._calculate_readiness_factor_v4 5 1 3 == 1.18.
Proof.
  intros Hm Hf He.
  apply scale_values in Hm, Hf, He.
  destruct Hm as [->|[->|[->|[->| ->]]]];
    destruct Hf as [->|[->|[->|[->| ->]]]];
    destruct He as [->|[->|[->|[->| ->]]]];
    (split; [vm_compute; reflexivity
           |split; [split; vm_compute; discriminate|vm_compute; reflexivity]]).
Qed.

Lemma readiness_factor_rule_table_witness :
  V4DataCleaner._calculate_readiness_factor_v4 (inject_Z 4) (inject_Z 3) (inject_Z 5)
  == Spec.estimate 4 3 5.
Proof.
  apply (readiness_factor_rule_table 4 3 5); lia.
Defined.

(** ** Workout parsing *)

Section ParserFacts.

Variable float : string -> option Q.

Lemma positive_fields_iff (reps weight sets : Q) :
  positive_fields (reps, weight, sets) = true
  <-> 0 < reps /\ 0 < weight /\ 0 < sets.
Proof.
  unfold positive_fields. rewrite !andb_true_iff.
  py_cases; intuition (try discriminate; try lra).
Qed.

Lemma nonpositive_fields (reps weight sets : Q) :
  Py.leb reps 0 || Py.leb weight 0 || Py.leb sets 0
  = negb (positive_fields (reps, weight, sets)).
Proof.
  unfold positive_fields, Py.gtb, Py.ltb, Py.leb.
  destruct (Qle_bool reps 0), (Qle_bool weight 0), (Qle_bool sets 0); reflexivity.
Qed.

Lemma parse_loop_prefix (segments : list string) (acc : list ExerciseSet) :
  V4DataCleaner.parse_loop float segments acc
  = acc ++ Spec.records_of float (Spec.readable_prefix float segments).
Proof.
  revert acc. induction segments as [|seg more IH]; intros acc; simpl.
  - now rewrite app_nil_r.
  - unfold Spec.record_of.
    destruct (read_segment float seg) as [[e|]|] eqn:E; simpl.
    + unfold Spec.record_of. rewrite E.
      destruct (positive_fields e); rewrite IH; [|reflexivity].
      now rewrite <- app_assoc.
    + unfold Spec.record_of. rewrite E. apply IH.
    + now rewrite app_nil_r.
Qed.

Lemma readable_prefix_all (segments : list string) :
  forallb (Spec.readable float) segments = true ->
  Spec.readable_prefix float segments = segments.
Proof.
  induction segments as [|seg more IH]; simpl; [reflexivity|].
  unfold Spec.readable at 1.
  destruct (read_segment float seg); simpl; [|discriminate].
  intros H. now rewrite IH.
Qed.

Lemma records_of_positive (segments : list string) :
  Forall (fun e => positive_fields e = true) (Spec.records_of float segments).
Proof.
  induction segments as [|seg more IH]; simpl; [constructor|].
  unfold Spec.record_of.
  destruct (read_segment float seg) as [[e|]|]; try exact IH.
  destruct (positive_fields e) eqn:E; [constructor|]; assumption.
Qed.

Lemma records_of_encoded (segments : list string) (records : list ExerciseSet) :
  Forall2 (fun segment e =>
             read_segment float segment = Py.Ok (Some e)
             /\ positive_fields e = true) segments records ->
  Spec.records_of float segments = records
  /\ forallb (Spec.readable float) segments = true.
Proof.
  induction 1 as [|seg e segs rs [Hr Hp] _ [IH1 IH2]]; simpl; [now split|].
  unfold Spec.record_of, Spec.readable at 1. rewrite Hr, Hp, IH1. now split.
Qed.

(** The parser keeps exactly the well-formed segments of a string in
    which every field converts. *)
Lemma parse_all_readable (s : string) :
  forallb (Spec.readable float) (Str.split "|" s) = true ->
  V4DataCleaner._parse_workout_data float s = Spec.parse float s.
Proof.
  intros H. unfold V4DataCleaner._parse_workout_data, Spec.parse.
  now rewrite parse_loop_prefix, readable_prefix_all.
Qed.

End ParserFacts.

(** C1 (amended).  [_parse_workout_data] returns, in order, the records
    of the well-formed segments (two or three leading numeric fields, all
    positive, sets 1 when omitted) that stand in front of the first
    segment with a non-numeric field: a segment with a single part or
    with a field <= 0 is dropped on its own, while a non-numeric field
    ends the parse and drops every later segment.  ["10x50x3|8x60x2"]
    gives [(10,50,3)] and [(8,60,2)]; ["0x50x3|10x-5x2"] gives nothing. *)
Theorem parse_workout_data_prefix (float : string -> option Q) (s : string) :
  V4DataCleaner._parse_workout_data float s
  = Spec.records_of float (Spec.readable_prefix float (Str.split "|" s))
  /\ V4DataCleaner._parse_workout_data Str.float "10x50x3|8x60x2"
     = [(10, 50, 3); (8, 60, 2)]
  /\ V4DataCleaner._parse_workout_data Str.float "0x50x3|10x-5x2" = [].
Proof.
  split; [|split].
  - unfold V4DataCleaner._parse_workout_data. now rewrite parse_loop_prefix.
  - reflexivity.
  - reflexivity.
Qed.

(** C1 as stated fails: the segment ["10x50x3"] is well formed, yet it is
    lost when an earlier segment has a non-numeric field. *)
Lemma parse_drops_later_segments :
  Spec.record_of Str.float "10x50x3" = Some (10, 50, 3)
  /\ Spec.parse Str.float "abcx5|10x50x3" = [(10, 50, 3)]
  /\ V4DataCleaner._parse_workout_data Str.float "abcx5|10x50x3" = []
  /\ V4DataCleaner._parse_workout_data Str.float "abcx5|10x50x3"
     <> Spec.parse Str.float "abcx5|10x50x3".
Proof.
  repeat split; try reflexivity. discriminate.
Qed.

(** ** The calculator of [two_branch_model_v4.py] *)

Section CalculatorFacts.

Import IntensityCoefficientsCalculator.

Variable float : string -> option Q.
Variables user_1rm user_max_pace : Q.

#[local] Abbreviation step := (accumulate user_1rm user_max_pace).

(** The loop either meets a conversion error or folds the well-formed
    segments into the totals. *)
Lemma loop_outcome (segments : list string) (t : Totals) :
  match loop float user_1rm user_max_pace segments t with
  | Py.Ok t' =>
      forallb (Spec.readable float) segments = true
      /\ t' = fold_left step (Spec.records_of float segments) t
  | Py.Raise _ => forallb (Spec.readable float) segments = false
  end.
Proof.
  revert t. induction segments as [|seg more IH]; intros t.
  - now split.
  - cbn [loop forallb Spec.records_of].
    replace (Spec.readable float seg)
      with (match read_segment float seg with
            | Py.Ok _ => true
            | Py.Raise _ => false
            end) by reflexivity.
    unfold Spec.record_of.
    destruct (read_segment float seg) as [[[[reps weight] sets]|]|];
      cbn [Py.bind andb].
    + rewrite nonpositive_fields.
      destruct (positive_fields (reps, weight, sets)); cbn [negb fold_left];
        apply IH.
    + apply IH.
    + reflexivity.
Qed.

Lemma work_time_grows (records : list ExerciseSet) (t : Totals) :
  Forall (fun e => positive_fields e = true) records ->
  total_work_time t <= total_work_time (fold_left step records t)
  /\ (records <> [] ->
      total_work_time t < total_work_time (fold_left step records t)).
Proof.
  intros H. revert t.
  induction H as [|[[reps weight] sets] more Hp _ IH]; intros t;
    cbn [fold_left].
  - split; [lra|congruence].
  - apply positive_fields_iff in Hp. destruct Hp as (Hr & Hw & Hs).
    destruct (IH (step t (reps, weight, sets))) as [IH1 _].
    assert (0 < reps * sets * 4).
    { apply Qmult_lt_0_compat; [apply Qmult_lt_0_compat|]; lra. }
    assert (E : total_work_time (step t (reps, weight, sets))
                = total_work_time t + reps * sets * 4) by reflexivity.
    rewrite E in IH1.
    split; [|intros _]; lra.
Qed.

Lemma process_no_records (workout : option string) :
  Spec.surviving float workout = [] ->
  process_exercise_data float user_1rm user_max_pace workout
  = default_coefficients.
Proof.
  destruct workout as [s|]; [|reflexivity].
  unfold Spec.surviving, V4DataCleaner._parse_workout_data, process_exercise_data.
  rewrite parse_loop_prefix. cbn [app]. intros H.
  destruct (String.eqb s ""); [reflexivity|].
  pose proof (loop_outcome (Str.split "|" s) no_totals) as L.
  destruct (loop float user_1rm user_max_pace (Str.split "|" s) no_totals)
    as [t|]; [|reflexivity].
  destruct L as [Hall ->].
  rewrite (readable_prefix_all float _ Hall) in H. rewrite H. cbn [fold_left].
  now rewrite andb_false_r.
Qed.


End CalculatorFacts.

(** ** Validation of the cleaned frame *)

Section ValidationFacts.

Import V4DataCleaner.

Lemma cell_set_cell_same (col : Column) (v : Q) (r : Row) :
  cell col (set_cell col v r) = v.
Proof. destruct col; reflexivity. Qed.

Lemma cell_set_cell_other (col col' : Column) (v : Q) (r : Row) :
  col <> col' -> cell col (set_cell col' v r) = cell col r.
Proof. destruct col, col'; intros H; try reflexivity; congruence. Qed.

Lemma outliers_filter (col : Column) (lo hi : Q) (data : list Row) :
  List.length
    (filter (fun r => Py.ltb (cell col r) lo || Py.gtb (cell col r) hi) data)
  = Spec.outliers col lo hi data.
Proof. reflexivity. Qed.

Lemma validate_column_eq (data : list Row) (log : list (Column * nat))
  (entry : Column * (Q * Q)) :
  validate_column (data, log) entry
  = (Spec.clip_column data entry, log ++ Spec.report data entry).
Proof.
  destruct entry as [col [lo hi]]. unfold validate_column, Spec.report.
  rewrite outliers_filter. cbn [Spec.clip_column].
  destruct (Spec.outliers col lo hi data); cbn [Nat.ltb Nat.leb].
  - now rewrite app_nil_r.
  - reflexivity.
Qed.

Lemma outliers_clip_other (col : Column) (lo hi : Q) (data : list Row)
  (entry : Column * (Q * Q)) :
  col <> fst entry ->
  Spec.outliers col lo hi (Spec.clip_column data entry) = Spec.outliers col lo hi data.
Proof.
  destruct entry as [col' [lo' hi']]. cbn [fst]. intros H.
  unfold Spec.outliers, Spec.clip_column.
  induction data as [|r more IH]; [reflexivity|].
  cbn [map filter]. rewrite cell_set_cell_other by exact H.
  destruct (negb (Qle_bool lo (cell col r)) || negb (Qle_bool (cell col r) hi));
    cbn [List.length]; now rewrite IH.
Qed.

Lemma report_clip_other (ranges : list (Column * (Q * Q))) (data : list Row)
  (entry : Column * (Q * Q)) :
  ~ In (fst entry) (map fst ranges) ->
  flat_map (Spec.report (Spec.clip_column data entry)) ranges
  = flat_map (Spec.report data) ranges.
Proof.
  induction ranges as [|[col [lo hi]] more IH]; [reflexivity|].
  cbn [map fst In flat_map]. intros H.
  rewrite IH by tauto. f_equal.
  unfold Spec.report. rewrite outliers_clip_other; [reflexivity|].
  cbn [fst]. intros ->. tauto.
Qed.

(** Each column is clamped, and the reported counts are those of the
    frame as it was before any clamping. *)
Lemma validate_fold (ranges : list (Column * (Q * Q))) (data : list Row)
  (log : list (Column * nat)) :
  NoDup (map fst ranges) ->
  fold_left validate_column ranges (data, log)
  = (fold_left Spec.clip_column ranges data,
     log ++ flat_map (Spec.report data) ranges).
Proof.
  revert data log.
  induction ranges as [|entry more IH]; intros data log Hnd.
  - cbn. now rewrite app_nil_r.
  - cbn [map] in Hnd. inversion Hnd as [|? ? Hnotin Hnd']; subst.
    cbn [fold_left flat_map]. rewrite validate_column_eq, IH by exact Hnd'.
    now rewrite report_clip_other, app_assoc.
Qed.

Lemma ranges_distinct : NoDup (map fst INTENSITY_RANGES).
Proof.
  cbn. repeat constructor; cbn; intuition discriminate.
Qed.

Lemma clip_columns_rows (data : list Row) :
  fold_left Spec.clip_column INTENSITY_RANGES data = map Spec.clip_row data.
Proof.
  cbn [fold_left INTENSITY_RANGES Spec.clip_column]. rewrite !map_map.
  apply map_ext. intros r. reflexivity.
Qed.

Lemma validate_eq (data : list Row) :
  _validate_intensity_coefficients data
  = (map Spec.clip_row data, flat_map (Spec.report data) INTENSITY_RANGES).
Proof.
  unfold _validate_intensity_coefficients.
  rewrite validate_fold by apply ranges_distinct.
  now rewrite clip_columns_rows.
Qed.

Lemma clip_row_documented (r : Row) : Spec.documented_row (Spec.clip_row r).
Proof.
  unfold Spec.documented_row, Spec.in_interval. cbn.
  pose proof (clip_bounds (resistance_intensity r) 0.1 2.0).
  pose proof (clip_bounds (cardio_intensity r) 0.0 1.5).
  pose proof (clip_bounds (volume_load r) 0.0 1.0).
  pose proof (clip_bounds (rest_density r) 0.0 1.0).
  pose proof (clip_bounds (tempo_factor r) 0.5 1.5).
  repeat split; lra.
Qed.

End ValidationFacts.

(** ** Special float values in a workout string *)

(** C9 (code defect).  The workout string ["5xnanx3"] holds no valid
    record: its weight is nan, [nan > 0] is false and
    [_parse_workout_data] returns the empty list.
    [process_exercise_data] skips a record on
    [reps <= 0 or weight <= 0 or sets <= 0], which is false of nan as
    well: it accumulates the record and returns nan as resistance, cardio
    and volume load, 6/7 as rest density and 4/3 as tempo factor, not the
    defaults 0, 0, 0, 0.3 and 1. *)
Theorem nan_field_replaces_defaults :
  Formula.surviving PyFloat.float (Some "5xnanx3"%string) = []
  /\ (let c := Ieee.IntensityCoefficientsCalculator.process_exercise_data
                 PyFloat.float (PyFloat.finite 100) (PyFloat.finite 1)
                 (Some "5xnanx3"%string) in
      Ieee.IntensityCoefficientsCalculator.resistance_intensity c = PyFloat.nan
      /\ Ieee.IntensityCoefficientsCalculator.cardio_intensity c = PyFloat.nan
      /\ Ieee.IntensityCoefficientsCalculator.volume_load c = PyFloat.nan
      /\ Ieee.same (Ieee.IntensityCoefficientsCalculator.rest_density c)
                   (PyFloat.finite (6 # 7))
      /\ Ieee.same (Ieee.IntensityCoefficientsCalculator.tempo_factor c)
                   (PyFloat.finite (4 # 3))).
Proof. vm_compute. repeat split; reflexivity. Qed.

(** C8 (code defect).  For the workout string ["5xnanx3"], with 1RM 100
    and pace 1, [process_exercise_data] returns resistance, cardio and
    volume load outside their intervals (they are nan), although the
    parser of the cleaner drops the record.  For a row with the workout
    string ["1x1xinf"] and 1RM 100, [calculate_intensity_coefficients]
    returns the rest density nan, and its validation step reports no
    outlier. *)
Theorem special_values_escape_the_intervals :
  (let c := Ieee.IntensityCoefficientsCalculator.process_exercise_data
              PyFloat.float (PyFloat.finite 100) (PyFloat.finite 1)
              (Some "5xnanx3"%string) in
   Ieee.within 0 2 (Ieee.IntensityCoefficientsCalculator.resistance_intensity c)
   = false
   /\ Ieee.within 0 1.5 (Ieee.IntensityCoefficientsCalculator.cardio_intensity c)
      = false
   /\ Ieee.within 0 1 (Ieee.IntensityCoefficientsCalculator.volume_load c)
      = false)
  /\ Ieee.V4DataCleaner._parse_workout_data PyFloat.float "5xnanx3" = []
  /\ exists row',
       Ieee.V4DataCleaner.calculate_intensity_coefficients
         PyFloat.float (fun _ => 1)
         [Ieee.V4DataCleaner.fresh (Some "1x1xinf"%string)
            (Some (PyFloat.finite 100))]
       = PyX.Done ([row'], [])
       /\ Ieee.V4DataCleaner.rest_density row' = PyFloat.nan
       /\ Ieee.within 0 1 (Ieee.V4DataCleaner.rest_density row') = false.
Proof.
  split; [vm_compute; repeat split; reflexivity|].
  split; [reflexivity|].
  eexists. split; [vm_compute; reflexivity|]. split; reflexivity.
Qed.

(** ** Resistance and cardio coefficients *)

Lemma clamp_Qeq (lo hi x y : Q) : x == y -> Spec.clamp lo hi x == Spec.clamp lo hi y.
Proof.
  intros E. unfold Spec.clamp.
  destruct (Q.max_spec lo (Qmin hi x)) as [[? E1]|[? E1]]; rewrite E1; clear E1;
    destruct (Q.max_spec lo (Qmin hi y)) as [[? E1]|[? E1]]; rewrite E1; clear E1;
    destruct (Q.min_spec hi x) as [[? E1]|[? E1]]; rewrite E1 in *; clear E1;
    destruct (Q.min_spec hi y) as [[? E1]|[? E1]]; rewrite E1 in *; clear E1;
    lra.
Qed.

Lemma clip_Qeq_clamp (lo hi x y : Q) :
  lo <= hi -> x == y -> Py.clip x lo hi == Spec.clamp lo hi y.
Proof.
  intros H E. rewrite clip_clamp by exact H. now apply clamp_Qeq.
Qed.

Lemma min_cases (hi x : Q) :
  (x < hi /\ Py.min hi x = x) \/ (hi <= x /\ Py.min hi x = hi).
Proof. unfold Py.min. destruct (ltb_spec x hi); auto. Qed.

Lemma clip_min_clamp (lo lo' hi hi' cap x y : Q) :
  lo == lo' -> hi == hi' -> cap == hi' -> lo <= hi -> x == y ->
  Py.clip (Py.min cap x) lo hi == Spec.clamp lo' hi' y.
Proof.
  intros El Eh Ec H E. rewrite clip_clamp by exact H.
  unfold Spec.clamp.
  destruct (min_cases cap x) as [[? ->]|[? ->]];
    match goal with
    | |- Qmax _ (Qmin _ ?a) == Qmax _ (Qmin _ ?b) =>
        destruct (Q.max_spec lo (Qmin hi a)) as [[? E1]|[? E1]]; rewrite E1; clear E1;
        destruct (Q.max_spec lo' (Qmin hi' b)) as [[? E1]|[? E1]]; rewrite E1; clear E1;
        destruct (Q.min_spec hi a) as [[? E1]|[? E1]]; rewrite E1 in *; clear E1;
        destruct (Q.min_spec hi' b) as [[? E1]|[? E1]]; rewrite E1 in *; clear E1
    end; lra.
Qed.

Section CalculatorSums.

Import IntensityCoefficientsCalculator.

Variable float : string -> option Q.
Variables user_1rm user_max_pace : Q.

#[local] Abbreviation step := (accumulate user_1rm user_max_pace).

Lemma resistance_positive (reps weight : Q) :
  0 < user_1rm -> 0 < reps -> 0 < weight ->
  calculate_resistance_intensity weight reps user_1rm
  = (weight * reps) / (user_1rm * 10).
Proof.
  intros. unfold calculate_resistance_intensity.
  py_cases; cbn [orb]; try reflexivity; lra.
Qed.

Lemma cardio_positive (reps weight : Q) :
  0 < user_max_pace -> 0 < reps -> 0 < weight ->
  calculate_cardio_intensity weight (reps * 4) user_max_pace
  = weight / (reps * 4 * user_max_pace).
Proof.
  intros. unfold calculate_cardio_intensity.
  py_cases; cbn [orb]; try reflexivity; lra.
Qed.

Lemma total_resistance_sum (records : list ExerciseSet) (t : Totals) :
  0 < user_1rm ->
  Forall (fun e => positive_fields e = true) records ->
  total_resistance (fold_left step records t)
  == total_resistance t
     + Spec.sumQ (fun e => Spec.resistance_i user_1rm e * Spec.sets_of e) records.
Proof.
  intros H1 H. revert t.
  induction H as [|[[reps weight] sets] more Hp _ IH]; intros t;
    cbn [fold_left Spec.sumQ fold_right].
  - lra.
  - apply positive_fields_iff in Hp. destruct Hp as (Hr & Hw & Hs).
    rewrite IH.
    fold (Spec.sumQ (fun e => Spec.resistance_i user_1rm e * Spec.sets_of e)
                    more).
    assert (E : total_resistance (step t (reps, weight, sets))
                = total_resistance t
                  + calculate_resistance_intensity weight reps user_1rm * sets)
      by reflexivity.
    rewrite E, resistance_positive by assumption.
    cbn [Spec.resistance_i Spec.sets_of snd]. lra.
Qed.

Lemma total_cardio_sum (records : list ExerciseSet) (t : Totals) :
  0 < user_max_pace ->
  Forall (fun e => positive_fields e = true) records ->
  total_cardio (fold_left step records t)
  == total_cardio t
     + Spec.sumQ (fun e => Spec.pace_cardio_i user_max_pace e * Spec.sets_of e)
                 records.
Proof.
  intros H1 H. revert t.
  induction H as [|[[reps weight] sets] more Hp _ IH]; intros t;
    cbn [fold_left Spec.sumQ fold_right].
  - lra.
  - apply positive_fields_iff in Hp. destruct Hp as (Hr & Hw & Hs).
    rewrite IH.
    fold (Spec.sumQ (fun e => Spec.pace_cardio_i user_max_pace e * Spec.sets_of e)
                    more).
    assert (E : total_cardio (step t (reps, weight, sets))
                = total_cardio t
                  + calculate_cardio_intensity weight (reps * 4) user_max_pace * sets)
      by reflexivity.
    rewrite E, cardio_positive by assumption.
    cbn [Spec.pace_cardio_i Spec.sets_of snd]. lra.
Qed.

Lemma encodes_nonempty (s : string) (records : list ExerciseSet) :
  Spec.encodes float s records ->
  String.eqb s "" = false
  /\ records <> []
  /\ List.length (Str.split "|" s) = List.length records
  /\ Forall (fun e => positive_fields e = true) records.
Proof.
  intros H. repeat split.
  - destruct s; [|reflexivity]. inversion H as [|? ? ? ? [Hr _]]; subst.
    discriminate Hr.
  - intros ->. inversion H as [E|]. destruct s; cbn in E; try discriminate.
    destruct (Ascii.eqb a "|"); try discriminate.
    destruct (Str.split "|" s); discriminate.
  - eapply Forall2_length, H.
  - unfold Spec.encodes in H. induction H as [|? ? ? ? [_ Hp]]; constructor; auto.
Qed.

Lemma process_encoded (s : string) (records : list ExerciseSet) :
  Spec.encodes float s records ->
  exists t,
    t = fold_left step records no_totals
    /\ resistance_intensity
         (process_exercise_data float user_1rm user_max_pace (Some s))
       = Py.clip (total_resistance t / Spec.count records) 0 2
    /\ cardio_intensity
         (process_exercise_data float user_1rm user_max_pace (Some s))
       = Py.clip (total_cardio t / Spec.count records) 0 1.5.
Proof.
  intros H. destruct (encodes_nonempty s records H) as (Hs & Hne & Hlen & Hpos).
  exists (fold_left step records no_totals). split; [reflexivity|].
  unfold process_exercise_data. rewrite Hs.
  pose proof (loop_outcome float user_1rm user_max_pace (Str.split "|" s)
                no_totals) as L.
  destruct (records_of_encoded float _ _ H) as [Hrec Hall].
  destruct (loop float user_1rm user_max_pace (Str.split "|" s) no_totals) as [t|].
  - destruct L as [_ ->]. rewrite Hrec.
    destruct (work_time_grows user_1rm user_max_pace records no_totals Hpos)
      as [_ Hw].
    specialize (Hw Hne). cbn [total_work_time no_totals] in Hw.
    rewrite Hlen.
    destruct (Nat.eqb (List.length records) 0) eqn:E0.
    { apply Nat.eqb_eq in E0. destruct records; [congruence|discriminate]. }
    cbn [negb andb]. unfold Py.gtb.
    destruct (ltb_spec 0 (total_work_time (fold_left step records no_totals)))
      as [_|Hc].
    + split; reflexivity.
    + exfalso. exact (Qlt_not_le _ _ Hw Hc).
  - congruence.
Qed.

End CalculatorSums.

Section CleanerSums.

Import V4DataCleaner.

Variable float : string -> option Q.

Lemma accumulate_positive (one_rm : option Q) (t : Totals) (reps weight sets : Q) :
  positive_fields (reps, weight, sets) = true ->
  accumulate one_rm t (reps, weight, sets)
  = let user_1rm := match one_rm with Some v => v | None => weight * 1.5 end in
    let user_1rm := if Py.leb user_1rm 0 then weight * 1.5 else user_1rm in
    {| total_volume := total_volume t + weight * reps * sets;
       total_resistance_intensity :=
         total_resistance_intensity t
         + (weight * reps) / (user_1rm * 10) * sets;
       total_cardio_intensity :=
         total_cardio_intensity t + (reps / 30) * (1 / Py.max 1 sets) * sets;
       total_rest_time := total_rest_time t + sets * 120;
       total_exercise_time := total_exercise_time t + reps * sets * 4 |}.
Proof.
  intros H. unfold accumulate. rewrite nonpositive_fields, H. reflexivity.
Qed.

Lemma cleaner_cardio_sum (one_rm : option Q) (records : list ExerciseSet)
  (t : Totals) :
  Forall (fun e => positive_fields e = true) records ->
  total_cardio_intensity (fold_left (accumulate one_rm) records t)
  == total_cardio_intensity t
     + Spec.sumQ (fun e => Spec.cardio_i e * Spec.sets_of e) records.
Proof.
  intros H. revert t.
  induction H as [|[[reps weight] sets] more Hp _ IH]; intros t;
    cbn [fold_left Spec.sumQ fold_right].
  - lra.
  - rewrite IH, accumulate_positive by exact Hp.
    fold (Spec.sumQ (fun e => Spec.cardio_i e * Spec.sets_of e) more).
    cbn [total_cardio_intensity Spec.cardio_i Spec.sets_of snd].
    rewrite max_Qmax. lra.
Qed.

Lemma cleaner_resistance_sum (v : Q) (records : list ExerciseSet) (t : Totals) :
  0 < v ->
  Forall (fun e => positive_fields e = true) records ->
  total_resistance_intensity (fold_left (accumulate (Some v)) records t)
  == total_resistance_intensity t
     + Spec.sumQ (fun e => Spec.resistance_i v e * Spec.sets_of e) records.
Proof.
  intros Hv H. revert t.
  induction H as [|[[reps weight] sets] more Hp _ IH]; intros t;
    cbn [fold_left Spec.sumQ fold_right].
  - lra.
  - rewrite IH, accumulate_positive by exact Hp.
    fold (Spec.sumQ (fun e => Spec.resistance_i v e * Spec.sets_of e) more).
    cbn zeta. destruct (leb_spec v 0); [lra|].
    cbn [total_resistance_intensity Spec.resistance_i Spec.sets_of snd]. lra.
Qed.

Lemma cleaner_volume_grows (one_rm : option Q) (records : list ExerciseSet)
  (t : Totals) :
  Forall (fun e => positive_fields e = true) records ->
  total_volume t <= total_volume (fold_left (accumulate one_rm) records t)
  /\ (records <> [] ->
      total_volume t < total_volume (fold_left (accumulate one_rm) records t)).
Proof.
  intros H. revert t.
  induction H as [|[[reps weight] sets] more Hp _ IH]; intros t;
    cbn [fold_left].
  - split; [lra|congruence].
  - destruct (IH (accumulate one_rm t (reps, weight, sets))) as [IH1 _].
    assert (E : total_volume (accumulate one_rm t (reps, weight, sets))
                = total_volume t + weight * reps * sets).
    { now rewrite accumulate_positive by exact Hp. }
    rewrite E in IH1.
    apply positive_fields_iff in Hp. destruct Hp as (Hr & Hw & Hs).
    assert (0 < weight * reps * sets).
    { apply Qmult_lt_0_compat; [apply Qmult_lt_0_compat|]; lra. }
    split; [|intros _]; lra.
Qed.

Lemma max_one_count (records : list ExerciseSet) :
  records <> [] ->
  Py.max 1 (inject_Z (Z.of_nat (List.length records))) == Spec.count records.
Proof.
  intros H. unfold Spec.count. rewrite max_Qmax.
  assert (1 <= inject_Z (Z.of_nat (List.length records))).
  { destruct records; [congruence|]. cbn [List.length].
    rewrite Nat2Z.inj_succ. unfold Qle. cbn. lia. }
  destruct (Q.max_spec 1 (inject_Z (Z.of_nat (List.length records))))
    as [[? E]|[? E]]; rewrite E; lra.
Qed.

Lemma parse_positive (w : string) :
  Forall (fun e => positive_fields e = true) (_parse_workout_data float w).
Proof.
  unfold _parse_workout_data. rewrite parse_loop_prefix.
  apply records_of_positive.
Qed.

(** The cells that one iteration writes for a row with surviving
    records. *)
Lemma update_row_cells (draw : Q) (row : Row) (w : string) :
  workout_data row = Some w ->
  _parse_workout_data float w <> [] ->
  let records := _parse_workout_data float w in
  let t := fold_left (accumulate (estimated_1rm row)) records no_totals in
  let n := Py.max 1 (inject_Z (Z.of_nat (List.length records))) in
  exists row',
    update_row float draw row = Some row'
    /\ resistance_intensity row' = Py.min 2.0 (total_resistance_intensity t / n)
    /\ cardio_intensity row' = Py.min 1.5 (total_cardio_intensity t / n).
Proof.
  intros Hw Hne. cbv zeta.
  unfold update_row. rewrite Hw.
  destruct (String.eqb w "") eqn:Ew.
  { apply String.eqb_eq in Ew. subst w. exfalso. apply Hne. reflexivity. }
  pose proof (parse_positive w) as Hpos.
  destruct (_parse_workout_data float w) as [|e more] eqn:Er; [congruence|].
  set (records := e :: more) in *.
  set (t := fold_left (accumulate (estimated_1rm row)) records no_totals).
  destruct (cleaner_volume_grows (estimated_1rm row) records no_totals Hpos)
    as [_ Hv].
  specialize (Hv Hne). fold t in Hv. cbn [total_volume no_totals] in Hv.
  assert (Ev : Py.gtb (total_volume t) 0 = true).
  { unfold Py.gtb. destruct (ltb_spec 0 (total_volume t)); [reflexivity|lra]. }
  rewrite Ev.
  destruct (Py.gtb (total_exercise_time t) 0);
    (eexists; split; [reflexivity|split; reflexivity]).
Qed.

Lemma update_rows_nth (draws : nat -> Q) (data : list Row) (k i : nat) (row : Row) :
  nth_error data i = Some row ->
  exists draw,
    nth_error (update_rows float draws k data) i
    = Some (match update_row float draw row with
            | Some row' => row'
            | None => row
            end).
Proof.
  revert k i. induction data as [|r more IH]; intros k i H.
  - destruct i; discriminate.
  - destruct i as [|i]; cbn [nth_error] in H.
    + injection H as ->. exists (draws k). cbn [update_rows].
      destruct (update_row float (draws k) row); reflexivity.
    + cbn [update_rows].
      destruct (update_row float (draws k) r); cbn [nth_error]; now apply IH.
Qed.

(** The cells of a row with surviving records after the whole pass. *)
Lemma cleaned_row_cells (draws : nat -> Q) (data : list Row) (i : nat)
  (row : Row) (w : string) :
  nth_error data i = Some row ->
  workout_data row = Some w ->
  _parse_workout_data float w <> [] ->
  let records := _parse_workout_data float w in
  let t := fold_left (accumulate (estimated_1rm row)) records no_totals in
  let n := Py.max 1 (inject_Z (Z.of_nat (List.length records))) in
  exists row',
    nth_error (fst (calculate_intensity_coefficients float draws data)) i
    = Some row'
    /\ resistance_intensity row'
       = Py.clip (Py.min 2.0 (total_resistance_intensity t / n)) 0.1 2.0
    /\ cardio_intensity row'
       = Py.clip (Py.min 1.5 (total_cardio_intensity t / n)) 0.0 1.5.
Proof.
  intros Hi Hw Hne records t n.
  destruct (update_rows_nth draws data 0 i row Hi) as [draw Hn].
  destruct (update_row_cells draw row w Hw Hne) as (row1 & Hu & Hr & Hc).
  rewrite Hu in Hn.
  unfold calculate_intensity_coefficients. rewrite validate_eq. cbn [fst].
  exists (Spec.clip_row row1). split.
  - now rewrite nth_error_map, Hn.
  - cbn [Spec.clip_row resistance_intensity cardio_intensity].
    now rewrite Hr, Hc.
Qed.

End CleanerSums.

Lemma sum_over_count (total sum : Q) (records : list ExerciseSet) (n : Q) :
  total == 0 + sum -> n == Spec.count records ->
  total / n == sum / Spec.count records.
Proof. intros -> ->. now rewrite Qplus_0_l. Qed.

(** C2 (amended).  In [V4DataCleaner.calculate_intensity_coefficients]
    the cardio value of a record is [(reps/30) * (1/max(1,sets))]; the
    cell of a row with surviving records is the sum of
    [cardio_i * sets_i] over them, divided by their number and clamped to
    [[0,1.5]].  [IntensityCoefficientsCalculator.process_exercise_data]
    uses another per-record value, [weight / (reps * 4 * max_pace)]: for a
    workout string that writes down exactly the records and a positive
    [max_pace] it returns the sum of that value times [sets_i], divided
    by the record count and clamped to [[0,1.5]]. *)
Theorem cardio_coefficient (float : string -> option Q) :
  (forall draws data i row w records,
      nth_error data i = Some row ->
      V4DataCleaner.workout_data row = Some w ->
      V4DataCleaner._parse_workout_data float w = records ->
      records <> [] ->
      exists row',
        nth_error
          (fst (V4DataCleaner.calculate_intensity_coefficients float draws data)) i
        = Some row'
        /\ V4DataCleaner.cardio_intensity row' == Spec.cardio_intensity records)
  /\ (forall user_1rm user_max_pace s records,
         0 < user_max_pace ->
         Spec.encodes float s records ->
         IntensityCoefficientsCalculator.cardio_intensity
           (IntensityCoefficientsCalculator.process_exercise_data
              float user_1rm user_max_pace (Some s))
         == Spec.averaged (Spec.pace_cardio_i user_max_pace) 0 1.5 records).
Proof.
  split.
  - intros draws data i row w records Hi Hw <- Hne.
    destruct (cleaned_row_cells float draws data i row w Hi Hw Hne)
      as (row' & Hn & _ & Hc).
    exists row'. split; [exact Hn|]. rewrite Hc.
    apply clip_min_clamp; try reflexivity; [discriminate|].
    apply sum_over_count.
    + apply cleaner_cardio_sum, parse_positive.
    + now apply max_one_count.
  - intros user_1rm user_max_pace s records Hp H.
    destruct (process_encoded float user_1rm user_max_pace s records H)
      as (t & -> & _ & ->).
    destruct (encodes_nonempty float s records H) as (_ & _ & _ & Hpos).
    apply clip_Qeq_clamp; [discriminate|].
    apply sum_over_count; [|reflexivity].
    now apply total_cardio_sum.
Qed.

Lemma cardio_coefficient_witness :
  (exists row',
      nth_error
        (fst (V4DataCleaner.calculate_intensity_coefficients Str.float (fun _ => 1)
                [V4DataCleaner.fresh (Some "10x50x3"%string) (Some 100)])) 0
      = Some row'
      /\ V4DataCleaner.cardio_intensity row'
         == Spec.cardio_intensity [(10, 50, 3)])
  /\ IntensityCoefficientsCalculator.cardio_intensity
       (IntensityCoefficientsCalculator.process_exercise_data
          Str.float 100 2 (Some "10x50x3"%string))
     == Spec.averaged (Spec.pace_cardio_i 2) 0 1.5 [(10, 50, 3)].
Proof.
  split.
  - apply (proj1 (cardio_coefficient Str.float) (fun _ => 1)
             [V4DataCleaner.fresh (Some "10x50x3"%string) (Some 100)]
             0%nat (V4DataCleaner.fresh (Some "10x50x3"%string) (Some 100))
             "10x50x3"%string [(10, 50, 3)]);
      try reflexivity; discriminate.
  - apply (proj2 (cardio_coefficient Str.float) 100 2 "10x50x3"%string
             [(10, 50, 3)]).
    + reflexivity.
    + repeat constructor.
Defined.

(** C2 as stated fails on [process_exercise_data]: for ["10x50x3"] with
    [max_pace = 1] it returns 1.5, while the stated formula gives 1/3. *)
Lemma cardio_formula_differs :
  IntensityCoefficientsCalculator.cardio_intensity
    (IntensityCoefficientsCalculator.process_exercise_data
       Str.float 100 1 (Some "10x50x3"%string)) == 1.5
  /\ Spec.cardio_intensity (Spec.surviving Str.float (Some "10x50x3"%string))
     == 1 # 3
  /\ ~ IntensityCoefficientsCalculator.cardio_intensity
         (IntensityCoefficientsCalculator.process_exercise_data
            Str.float 100 1 (Some "10x50x3"%string))
       == Spec.cardio_intensity (Spec.surviving Str.float (Some "10x50x3"%string)).
Proof.
  split; [|split]; vm_compute; try reflexivity. discriminate.
Qed.

(** C7 (amended).  The resistance value of a record is
    [(weight*reps)/(estimated_1rm*10)].  For a workout string that writes
    down exactly the records and a positive [user_1rm],
    [process_exercise_data] returns the sum of [resistance_i * sets_i]
    divided by the record count and clamped to [[0,2]]; in the frame
    returned by [calculate_intensity_coefficients] the cell of a row with
    surviving records and a positive [estimated_1rm] is that sum divided
    by the number of surviving records and clamped to [[0.1,2]];
    ["10x50x3"] with [user_1rm = 100] gives 1.5. *)
Theorem resistance_coefficient (float : string -> option Q) :
  (forall user_1rm user_max_pace s records,
      0 < user_1rm ->
      Spec.encodes float s records ->
      IntensityCoefficientsCalculator.resistance_intensity
        (IntensityCoefficientsCalculator.process_exercise_data
           float user_1rm user_max_pace (Some s))
      == Spec.resistance_intensity user_1rm records)
  /\ (forall draws data i row w v records,
         nth_error data i = Some row ->
         V4DataCleaner.workout_data row = Some w ->
         V4DataCleaner.estimated_1rm row = Some v ->
         0 < v ->
         V4DataCleaner._parse_workout_data float w = records ->
         records <> [] ->
         exists row',
           nth_error
             (fst (V4DataCleaner.calculate_intensity_coefficients float draws data)) i
           = Some row'
           /\ V4DataCleaner.resistance_intensity row'
              == Spec.averaged (Spec.resistance_i v) 0.1 2 records)
  /\ IntensityCoefficientsCalculator.resistance_intensity
       (IntensityCoefficientsCalculator.process_exercise_data
          Str.float 100 1 (Some "10x50x3"%string)) == 1.5.
Proof.
  split; [|split].
  - intros user_1rm user_max_pace s records Hp H.
    destruct (process_encoded float user_1rm user_max_pace s records H)
      as (t & -> & -> & _).
    destruct (encodes_nonempty float s records H) as (_ & _ & _ & Hpos).
    apply clip_Qeq_clamp; [discriminate|].
    apply sum_over_count; [|reflexivity].
    now apply total_resistance_sum.
  - intros draws data i row w v records Hi Hw Hv Hpos <- Hne.
    destruct (cleaned_row_cells float draws data i row w Hi Hw Hne)
      as (row' & Hn & Hr & _).
    exists row'. split; [exact Hn|]. rewrite Hr, Hv.
    apply clip_min_clamp; try reflexivity; [discriminate|].
    apply sum_over_count.
    + apply cleaner_resistance_sum; [exact Hpos|apply parse_positive].
    + now apply max_one_count.
  - vm_compute. reflexivity.
Qed.

Lemma resistance_coefficient_witness :
  IntensityCoefficientsCalculator.resistance_intensity
    (IntensityCoefficientsCalculator.process_exercise_data
       Str.float 80 1 (Some "10x50x3|8x60x2"%string))
  == Spec.resistance_intensity 80 [(10, 50, 3); (8, 60, 2)]
  /\ exists row',
      nth_error
        (fst (V4DataCleaner.calculate_intensity_coefficients Str.float (fun _ => 1)
                [V4DataCleaner.fresh (Some "10x50x3"%string) (Some 100)])) 0
      = Some row'
      /\ V4DataCleaner.resistance_intensity row'
         == Spec.averaged (Spec.resistance_i 100) 0.1 2 [(10, 50, 3)].
Proof.
  split.
  - apply (proj1 (resistance_coefficient Str.float) 80 1
             "10x50x3|8x60x2"%string [(10, 50, 3); (8, 60, 2)]).
    + reflexivity.
    + repeat constructor.
  - apply (proj1 (proj2 (resistance_coefficient Str.float)) (fun _ => 1)
             [V4DataCleaner.fresh (Some "10x50x3"%string) (Some 100)]
             0%nat (V4DataCleaner.fresh (Some "10x50x3"%string) (Some 100))
             "10x50x3"%string 100 [(10, 50, 3)]);
      try reflexivity; discriminate.
Defined.

(** C7 as stated fails on the cleaned frame: the record [(1,1,1)] with
    [estimated_1rm = 100] has the value 0.001, and the cell holds 0.1,
    the lower end of [INTENSITY_RANGES['resistance_intensity']]. *)
Lemma resistance_lower_clamp :
  match fst (V4DataCleaner.calculate_intensity_coefficients Str.float (fun _ => 1)
               [V4DataCleaner.fresh (Some "1x1x1"%string) (Some 100)]) with
  | [row'] =>
      V4DataCleaner.resistance_intensity row' == 0.1
      /\ Spec.resistance_intensity 100 (Spec.surviving Str.float (Some "1x1x1"%string))
         == 0.001
      /\ ~ V4DataCleaner.resistance_intensity row'
           == Spec.resistance_intensity 100
                (Spec.surviving Str.float (Some "1x1x1"%string))
  | _ => False
  end.
Proof.
  vm_compute. repeat split; discriminate.
Qed.

(** [process_exercise_data] divides by the number of ['|'] segments,
    dropped ones included: one surviving record out of two segments. *)
Lemma resistance_divided_by_segments :
  Spec.surviving Str.float (Some "10x50x1|0x50x1"%string) = [(10, 50, 1)]
  /\ IntensityCoefficientsCalculator.resistance_intensity
       (IntensityCoefficientsCalculator.process_exercise_data
          Str.float 100 1 (Some "10x50x1|0x50x1"%string)) == 0.25
  /\ Spec.resistance_intensity 100 [(10, 50, 1)] == 0.5.
Proof.
  split; [reflexivity|split; vm_compute; reflexivity].
Qed.

(** ** Subjective scales *)

Section SepaFacts.

Import V4DataCleaner.

Variable float : string -> option PyFloat.t.

Lemma lookup_lower_table (mapping : Mapping) (text : string) :
  lookup_lower mapping text = Spec.table_entry mapping text.
Proof.
  induction mapping as [|[k v] more IH]; [reflexivity|]. cbn. now rewrite IH.
Qed.

Lemma lookup_key (mapping : Mapping) (key : string) (v : Z) :
  lookup mapping key = Some v ->
  In (Str.lower key) (map (fun kv => Str.lower (fst kv)) mapping).
Proof.
  induction mapping as [|[k v'] more IH]; [discriminate|]. cbn.
  destruct (String.eqb_spec k key) as [->|_]; [now left|].
  intros H. right. now apply IH.
Qed.

Lemma lookup_table_entry (mapping : Mapping) (key : string) (v : Z) :
  NoDup (map (fun kv => Str.lower (fst kv)) mapping) ->
  lookup mapping key = Some v -> Spec.table_entry mapping key = Some v.
Proof.
  induction mapping as [|[k v'] more IH]; [discriminate|]. cbn.
  intros Hnd. inversion Hnd as [|? ? Hnotin Hnd']; subst.
  destruct (String.eqb_spec k key) as [->|_].
  - rewrite String.eqb_refl. auto.
  - intros H. destruct (String.eqb_spec (Str.lower k) (Str.lower key)) as [E|_].
    + exfalso. apply Hnotin. rewrite E. eapply lookup_key, H.
    + now apply IH.
Qed.

Lemma map_text (s : string) (mapping : Mapping) (default : Z) :
  NoDup (map (fun kv => Str.lower (fst kv)) mapping) ->
  match lookup mapping (Str.strip s) with
  | Some v => v
  | None => match lookup_lower mapping (Str.strip s) with
            | Some val => val
            | None => default
            end
  end
  = match Spec.table_entry mapping (Str.strip s) with
    | Some v => v
    | None => default
    end.
Proof.
  intros Hnd. rewrite lookup_lower_table.
  destruct (lookup mapping (Str.strip s)) as [v|] eqn:E; [|reflexivity].
  now rewrite (lookup_table_entry _ _ _ Hnd E).
Qed.

End SepaFacts.

(** C3 (amended).  [V4DataCleaner._map_sepa_to_numeric] returns the
    default for a missing value, nan included; for a finite number, or text that
    converts to a finite number, whose integer part lies in 1..5 it
    returns that integer part (the value itself when it is an integer of
    the scale); for text that does not convert, or converts to nan or to
    a finite number elsewhere, it returns the table entry under
    case-insensitive lookup of the stripped text, and the default when
    there is none; any other finite number gives the default.  The
    mapper of [recommendation_v4] has no numeric pass-through: it
    returns the table entry under case-insensitive lookup of its text
    and 3 otherwise.  The tables have no two keys that differ by case
    only.  Infinite values are left out. *)
Theorem subjective_scale_mapping (float : string -> option PyFloat.t)
  (mapping : V4DataCleaner.Mapping) (default : Z) :
  NoDup (map (fun kv => Str.lower (fst kv)) mapping) ->
  (V4DataCleaner._map_sepa_to_numeric float V4DataCleaner.Missing mapping default
   = PyX.Done default
   /\ V4DataCleaner._map_sepa_to_numeric
        float (V4DataCleaner.Num PyFloat.nan) mapping default
      = PyX.Done default)
  /\ (forall n, (1 <= n <= 5)%Z ->
        V4DataCleaner._map_sepa_to_numeric
          float (V4DataCleaner.Num (PyFloat.finite (inject_Z n))) mapping default
        = PyX.Done n)
  /\ (forall q,
        V4DataCleaner._map_sepa_to_numeric
          float (V4DataCleaner.Num (PyFloat.finite q)) mapping default
        = PyX.Done (if Spec.in_scale (Py.int q) then Py.int q else default))
  /\ (forall s q,
        float s = Some (PyFloat.finite q) -> Spec.in_scale (Py.int q) = true ->
        V4DataCleaner._map_sepa_to_numeric float (V4DataCleaner.Text s) mapping default
        = PyX.Done (Py.int q))
  /\ (forall s,
        match float s with
        | Some (PyFloat.finite q) => Spec.in_scale (Py.int q) = false
        | Some PyFloat.nan | None => True
        | Some _ => False
        end ->
        V4DataCleaner._map_sepa_to_numeric float (V4DataCleaner.Text s) mapping default
        = PyX.Done match Spec.table_entry mapping (Str.strip s) with
                   | Some v => v
                   | None => default
                   end)
  /\ (forall value,
        RecommendationV4._map_sepa_to_numeric value
        = match Spec.table_entry RecommendationV4.sepa_mapping value with
          | Some v => v
          | None => 3%Z
          end).
Proof.
  intros Hnd. split; [split; reflexivity|]. split; [|split; [|split; [|split]]].
  - intros n Hn.
    unfold V4DataCleaner._map_sepa_to_numeric, V4DataCleaner.int_float.
    cbn [V4DataCleaner.isna PyFloat.int].
    assert (E : Py.int (inject_Z n) = n).
    { unfold Py.int. cbn. apply Z.quot_1_r. }
    rewrite E.
    destruct (Z.leb_spec 1 n); [|lia]. destruct (Z.leb_spec n 5); [|lia].
    reflexivity.
  - intros q.
    unfold V4DataCleaner._map_sepa_to_numeric, V4DataCleaner.int_float,
      Spec.in_scale.
    cbn [V4DataCleaner.isna PyFloat.int V4DataCleaner.by_text].
    destruct ((1 <=? Py.int q)%Z && (Py.int q <=? 5)%Z); reflexivity.
  - intros s q Hq Hs.
    unfold V4DataCleaner._map_sepa_to_numeric, V4DataCleaner.int_float.
    cbn [V4DataCleaner.isna]. rewrite Hq. cbn [PyFloat.int].
    unfold Spec.in_scale in Hs. now rewrite Hs.
  - intros s Hs.
    unfold V4DataCleaner._map_sepa_to_numeric, V4DataCleaner.int_float.
    cbn [V4DataCleaner.isna V4DataCleaner.by_text].
    destruct (float s) as [[q| | |]|]; cbn [PyFloat.int]; try contradiction.
    + unfold Spec.in_scale in Hs. rewrite Hs. f_equal. now apply map_text.
    + f_equal. now apply map_text.
    + f_equal. now apply map_text.
  - intros value. reflexivity.
Qed.

Lemma mood_keys_distinct :
  NoDup (map (fun kv => Str.lower (fst kv)) V4DataCleaner.SEPA_MAPPINGS_mood).
Proof.
  cbn. repeat constructor; cbn; intuition discriminate.
Qed.

Lemma fatigue_effort_keys_distinct :
  NoDup (map (fun kv => Str.lower (fst kv)) V4DataCleaner.SEPA_MAPPINGS_fatigue)
  /\ NoDup (map (fun kv => Str.lower (fst kv)) V4DataCleaner.SEPA_MAPPINGS_effort).
Proof.
  split; cbn; repeat constructor; cbn; intuition discriminate.
Qed.

Lemma subjective_scale_mapping_witness :
  V4DataCleaner._map_sepa_to_numeric
    PyFloat.float (V4DataCleaner.Text "  very GOOD ")
    V4DataCleaner.SEPA_MAPPINGS_mood 3
  = PyX.Done 5%Z.
Proof.
  rewrite (proj1 (proj2 (proj2 (proj2 (proj2
             (subjective_scale_mapping PyFloat.float
                V4DataCleaner.SEPA_MAPPINGS_mood 3 mood_keys_distinct))))));
    try reflexivity; exact I.
Defined.

(** C3 as stated fails: 5.5 is outside 1..5 and is mapped to 5, not to
    the default; 4.5 is inside and is mapped to 4, not to itself; and the
    serving-layer mapper sends the text ["4"] to the default. *)
Lemma scale_map_truncates :
  V4DataCleaner._map_sepa_to_numeric
    PyFloat.float (V4DataCleaner.Num (PyFloat.finite 5.5))
    V4DataCleaner.SEPA_MAPPINGS_mood 3 = PyX.Done 5%Z
  /\ Spec.scale_map V4DataCleaner.SEPA_MAPPINGS_mood 3
       (V4DataCleaner.Num (PyFloat.finite 5.5)) == 3
  /\ ~ inject_Z 5
       == Spec.scale_map V4DataCleaner.SEPA_MAPPINGS_mood 3
            (V4DataCleaner.Num (PyFloat.finite 5.5))
  /\ V4DataCleaner._map_sepa_to_numeric
       PyFloat.float (V4DataCleaner.Num (PyFloat.finite 4.5))
       V4DataCleaner.SEPA_MAPPINGS_mood 3 = PyX.Done 4%Z
  /\ ~ inject_Z 4
       == Spec.scale_map V4DataCleaner.SEPA_MAPPINGS_mood 3
            (V4DataCleaner.Num (PyFloat.finite 4.5))
  /\ RecommendationV4._map_sepa_to_numeric "4" = 3%Z.
Proof.
  repeat split; vm_compute; try reflexivity; discriminate.
Qed.

(** ** Workout decoding *)

Section DecoderFacts.

Import V4ModelEvaluator.

Variable round : Q -> nat -> Q.

(** The goal and the rule row that the decoder works with. *)
Lemma decoder_lookup (goal : string) :
  let goal' := match dict_get WORKOUT_GOAL_MAPPING_V4 goal with
               | Some _ => goal
               | None => "general_fitness"%string
               end in
  match dict_get WORKOUT_GOAL_MAPPING_V4 goal' with
  | Some rules => rules
  | None => general_fitness_rules
  end = Spec.rules_of goal.
Proof.
  unfold Spec.rules_of.
  destruct (dict_get WORKOUT_GOAL_MAPPING_V4 goal) as [rules|] eqn:E; cbn zeta.
  - now rewrite E.
  - reflexivity.
Qed.

Lemma rules_of_table (goal : string) :
  In (Spec.rules_of goal) (map snd WORKOUT_GOAL_MAPPING_V4).
Proof.
  unfold Spec.rules_of. cbn [dict_get WORKOUT_GOAL_MAPPING_V4 map snd].
  repeat match goal with
         | |- context [String.eqb ?a ?b] => destruct (String.eqb a b)
         end; cbn; tauto.
Qed.

Lemma decode_with_fields (predicted_1rm : Q) (goal : string)
  (readiness_factor : Q) :
  let rules := Spec.rules_of goal in
  let w := decode_intensity_to_workout_with
             round predicted_1rm goal readiness_factor in
  let adjusted := predicted_1rm * readiness_factor in
  adjusted_1rm w = round adjusted 2
  /\ min (training_weight_kg w)
     = round (adjusted * fst (Goal.intensity_percent rules)) 2
  /\ max (training_weight_kg w)
     = round (adjusted * snd (Goal.intensity_percent rules)) 2
  /\ (min (reps w), max (reps w)) = Goal.rep_range rules
  /\ (min (sets w), max (sets w)) = Goal.sets_range rules
  /\ (min (rest_minutes w), max (rest_minutes w)) = Goal.rest_minutes rules
  /\ (recommended (reps w), recommended (sets w), recommended (rest_minutes w))
     = if Py.gtb readiness_factor 1.1 then
         (Py.int (Spec.midpoint (Goal.rep_range rules) * 0.8),
          snd (Goal.sets_range rules), fst (Goal.rest_minutes rules))
       else if Py.ltb readiness_factor 0.9 then
         (Py.int (Spec.midpoint (Goal.rep_range rules) * 1.2),
          fst (Goal.sets_range rules), snd (Goal.rest_minutes rules))
       else
         (((fst (Goal.rep_range rules) + snd (Goal.rep_range rules)) / 2)%Z,
          ((fst (Goal.sets_range rules) + snd (Goal.sets_range rules)) / 2)%Z,
          (fst (Goal.rest_minutes rules) + snd (Goal.rest_minutes rules)) / 2).
Proof.
  cbv zeta. unfold decode_intensity_to_workout_with.
  pose proof (decoder_lookup goal) as L. cbv zeta in L. rewrite L. clear L.
  destruct (Spec.rules_of goal)
    as [[imin imax] [rmin rmax] [smin smax] [restmin restmax] d tr].
  cbn [Goal.intensity_percent Goal.rep_range Goal.sets_range Goal.rest_minutes
       fst snd Spec.midpoint].
  destruct (Py.gtb readiness_factor 1.1); [|destruct (Py.ltb readiness_factor 0.9)];
    cbn; repeat split; reflexivity.
Qed.

End DecoderFacts.

Lemma decode_fields (predicted_1rm : Q) (goal : string) (readiness_factor : Q) :
  let rules := Spec.rules_of goal in
  let w := V4ModelEvaluator.decode_intensity_to_workout
             predicted_1rm goal readiness_factor in
  let adjusted := predicted_1rm * readiness_factor in
  V4ModelEvaluator.adjusted_1rm w = Py.round adjusted 2
  /\ V4ModelEvaluator.min (V4ModelEvaluator.training_weight_kg w)
     = Py.round (adjusted * fst (Goal.intensity_percent rules)) 2
  /\ V4ModelEvaluator.max (V4ModelEvaluator.training_weight_kg w)
     = Py.round (adjusted * snd (Goal.intensity_percent rules)) 2
  /\ (V4ModelEvaluator.min (V4ModelEvaluator.reps w),
      V4ModelEvaluator.max (V4ModelEvaluator.reps w)) = Goal.rep_range rules
  /\ (V4ModelEvaluator.min (V4ModelEvaluator.sets w),
      V4ModelEvaluator.max (V4ModelEvaluator.sets w)) = Goal.sets_range rules
  /\ (V4ModelEvaluator.min (V4ModelEvaluator.rest_minutes w),
      V4ModelEvaluator.max (V4ModelEvaluator.rest_minutes w))
     = Goal.rest_minutes rules
  /\ (V4ModelEvaluator.recommended (V4ModelEvaluator.reps w),
      V4ModelEvaluator.recommended (V4ModelEvaluator.sets w),
      V4ModelEvaluator.recommended (V4ModelEvaluator.rest_minutes w))
     = if Py.gtb readiness_factor 1.1 then
         (Py.int (Spec.midpoint (Goal.rep_range rules) * 0.8),
          snd (Goal.sets_range rules), fst (Goal.rest_minutes rules))
       else if Py.ltb readiness_factor 0.9 then
         (Py.int (Spec.midpoint (Goal.rep_range rules) * 1.2),
          fst (Goal.sets_range rules), snd (Goal.rest_minutes rules))
       else
         (((fst (Goal.rep_range rules) + snd (Goal.rep_range rules)) / 2)%Z,
          ((fst (Goal.sets_range rules) + snd (Goal.sets_range rules)) / 2)%Z,
          (fst (Goal.rest_minutes rules) + snd (Goal.rest_minutes rules)) / 2).
Proof.
  exact (decode_with_fields Py.round predicted_1rm goal readiness_factor).
Qed.

Section Rounding.

Lemma Qfloor_bounds (x : Q) :
  inject_Z (Qfloor x) <= x /\ x < inject_Z (Qfloor x) + 1.
Proof.
  split; [apply Qfloor_le|].
  pose proof (Qlt_floor x) as H. rewrite inject_Z_plus in H. exact H.
Qed.

Lemma round_half_even_near (x : Q) :
  (Py.round_half_even x = Qfloor x
   /\ x - inject_Z (Qfloor x) <= 1 # 2)
  \/ (Py.round_half_even x = (Qfloor x + 1)%Z
      /\ 1 # 2 <= x - inject_Z (Qfloor x)).
Proof.
  unfold Py.round_half_even, Py.gtb.
  destruct (ltb_spec (x - inject_Z (Qfloor x)) (1 # 2)) as [H|H].
  - left. split; [reflexivity|lra].
  - destruct (ltb_spec (1 # 2) (x - inject_Z (Qfloor x))) as [H'|H'].
    + right. split; [reflexivity|lra].
    + destruct (Z.even (Qfloor x)).
      * left. split; [reflexivity|lra].
      * right. split; [reflexivity|lra].
Qed.





End Rounding.

Section DecoderClaim.

Import V4ModelEvaluator.





End DecoderClaim.

(** ** Recommendations *)

Section ServiceFacts.

Import RecommendationV4.

Lemma insert_desc_in (x y : RecommendationItem) (l : list RecommendationItem) :
  In y (insert_desc x l) <-> y = x \/ In y l.
Proof.
  induction l as [|z more IH]; cbn.
  - intuition.
  - destruct (Py.gtb (suitability_score z) (suitability_score x)); cbn.
    + rewrite IH. intuition.
    + intuition.
Qed.

Lemma sort_desc_cons (x : RecommendationItem) (l : list RecommendationItem) :
  sort_desc (x :: l) = insert_desc x (sort_desc l).
Proof. reflexivity. Qed.

Lemma sort_desc_in (y : RecommendationItem) (l : list RecommendationItem) :
  In y (sort_desc l) <-> In y l.
Proof.
  induction l as [|x more IH]; [cbn; tauto|].
  rewrite sort_desc_cons, insert_desc_in, IH. cbn. intuition.
Qed.

Lemma insert_desc_hd (x a : RecommendationItem) (l : list RecommendationItem) :
  Spec.score_ge a x -> HdRel Spec.score_ge a l ->
  HdRel Spec.score_ge a (insert_desc x l).
Proof.
  intros Hax H. destruct l as [|z more]; cbn.
  - now constructor.
  - destruct (Py.gtb (suitability_score z) (suitability_score x)).
    + inversion H; subst. now constructor.
    + now constructor.
Qed.

Lemma insert_desc_sorted (x : RecommendationItem) (l : list RecommendationItem) :
  Sorted Spec.score_ge l -> Sorted Spec.score_ge (insert_desc x l).
Proof.
  induction l as [|z more IH]; intros H; cbn.
  - repeat constructor.
  - inversion H as [|? ? Hs Hh]; subst.
    unfold Py.gtb.
    destruct (ltb_spec (suitability_score x) (suitability_score z)) as [Hlt|Hle].
    + constructor; [now apply IH|].
      apply insert_desc_hd; [|exact Hh]. unfold Spec.score_ge. lra.
    + constructor; [exact H|]. now constructor.
Qed.

Lemma sort_desc_sorted (l : list RecommendationItem) :
  Sorted Spec.score_ge (sort_desc l).
Proof.
  induction l as [|x more IH]; [constructor|].
  rewrite sort_desc_cons. now apply insert_desc_sorted.
Qed.

Lemma collect_items (req : RecommendRequestV4)
  (intensity_vals suitability_vals : list Q) (candidates : list ExerciseCandidate)
  (i : nat) (acc out : list RecommendationItem) :
  collect req intensity_vals suitability_vals i candidates acc = PyX.Done out ->
  forall item, In item out ->
    In item acc
    \/ exists j ex score rpe,
        nth_error candidates j = Some ex
        /\ nth_error suitability_vals (i + j) = Some score
        /\ nth_error intensity_vals (i + j) = Some rpe
        /\ 0.4 < score
        /\ item = {| exercise_id := id ex;
                     exercise_name := name ex;
                     predicted_rpe := Py.round rpe 1;
                     suitability_score := Py.round score 3;
                     reason_percent := Py.int (score * 100);
                     suggested_duration := duration_preference_min req |}.
Proof.
  revert i acc. induction candidates as [|ex more IH]; intros i acc H item Hin.
  - cbn in H. injection H as <-. now left.
  - cbn [collect] in H.
    destruct (nth_error suitability_vals i) as [score|] eqn:Es; [|discriminate].
    destruct (nth_error intensity_vals i) as [rpe|] eqn:Ei; [|discriminate].
    cbn [PyX.and_then] in H. unfold Py.gtb in H.
    destruct (ltb_spec 0.4 score) as [Hs|Hs];
      destruct (IH _ _ H item Hin)
        as [Hacc|(j & ex' & sc & rp & Hj & Hsc & Hrp & Hlt & ->)].
    + apply in_app_or in Hacc. destruct Hacc as [Hacc|[<-|[]]]; [now left|].
      right. exists 0%nat, ex, score, rpe. rewrite Nat.add_0_r. auto.
    + right. exists (S j), ex', sc, rp. rewrite <- plus_n_Sm. auto.
    + now left.
    + right. exists (S j), ex', sc, rp. rewrite <- plus_n_Sm. auto.
Qed.

(** What the body has built when it reaches its [return] statement: the
    items of the candidates whose suitability value is strictly above
    0.4, in non-increasing order of (rounded) suitability score. *)
Lemma sorted_recommendations_filtered (model : Model) (req : RecommendRequestV4)
  (recs : list RecommendationItem) :
  sorted_recommendations model req = PyX.Done recs ->
  exists X,
    input_vectors req (candidates_of req) = PyX.Done X
    /\ (forall item, In item recs ->
          Spec.built_from req (fst (model X)) (snd (model X)) item)
    /\ Sorted Spec.score_ge recs.
Proof.
  unfold sorted_recommendations.
  destruct (input_vectors req (candidates_of req)) as [X|] eqn:Ex;
    [|discriminate].
  cbn [PyX.and_then]. exists X. split; [reflexivity|].
  destruct (model X) as [intensity_vals suitability_vals]. cbn [fst snd].
  destruct (collect req intensity_vals suitability_vals 0 (candidates_of req) [])
    as [out|] eqn:Ec; [|discriminate].
  cbn [PyX.and_then] in H. injection H as <-. split.
  - intros item Hin. apply (proj1 (sort_desc_in _ _)) in Hin.
    destruct (collect_items _ _ _ _ _ _ _ Ec item Hin) as [[]|Hb]. exact Hb.
  - apply sort_desc_sorted.
Qed.

End ServiceFacts.

(** C10 (code defect).  [recommendation_v4.py] imports
    [RecommendRequestV4] and [RecommendationItem] from the schema module
    but never [RecommendResponseV4], which it names in the return
    annotation (line 174) and in the [return] statement (line 238).
    Whatever the artifacts and the request, no call of [recommend_v4]
    returns a list: the outcome is [NameError]. *)
Theorem recommend_v4_raises_name_error
  (MODEL_V4 : option RecommendationV4.Model)
  (req : RecommendationV4.RecommendRequestV4) :
  RecommendationV4.recommend_v4 MODEL_V4 req = PyX.Fail PyX.NameError.
Proof. reflexivity. Qed.

(** * Further properties of the code *)

(** ** The calculator beyond the claims *)

Section CalculatorMore.

Import IntensityCoefficientsCalculator.

Variable float : string -> option Q.
Variables user_1rm user_max_pace : Q.

#[local] Abbreviation step := (accumulate user_1rm user_max_pace).

Lemma formula_cons (reps weight sets : Q) (more : list ExerciseSet) :
  let e : ExerciseSet := (reps, weight, sets) in
  Formula.volume (@cons ExerciseSet e more)
  = weight * reps * sets + Formula.volume more
  /\ Formula.work_time (@cons ExerciseSet e more)
     = reps * sets * 4 + Formula.work_time more
  /\ Formula.rest_time (@cons ExerciseSet e more)
     = sets * 120 + Formula.rest_time more.
Proof. repeat split; reflexivity. Qed.


Lemma times_positive (records : list ExerciseSet) :
  Forall (fun e => positive_fields e = true) records ->
  records <> [] ->
  0 < Formula.work_time records /\ 0 < Formula.rest_time records
  /\ 0 < Formula.volume records.
Proof.
  intros H. induction H as [|[[reps weight] sets] more Hp Hm IH]; [congruence|].
  intros _. apply positive_fields_iff in Hp. destruct Hp as (Hr & Hw & Hs).
  destruct (formula_cons reps weight sets more) as (F1 & F2 & F3).
  cbv zeta in F1, F2, F3. rewrite F1, F2, F3.
  assert (0 < reps * sets * 4).
  { apply Qmult_lt_0_compat; [apply Qmult_lt_0_compat|]; lra. }
  assert (0 < weight * reps * sets).
  { apply Qmult_lt_0_compat; [apply Qmult_lt_0_compat|]; lra. }
  destruct more as [|e more'].
  - unfold Formula.volume, Formula.work_time, Formula.rest_time, Spec.sumQ.
    cbn [fold_right]. repeat split; lra.
  - destruct IH as (I1 & I2 & I3); [discriminate|]. repeat split; lra.
Qed.

(** The dictionary returned for a string without conversion error that
    has a surviving record. *)
Lemma process_readable (s : string) :
  forallb (Spec.readable float) (Str.split "|" s) = true ->
  Formula.accumulated float s <> [] ->
  let t := fold_left step (Formula.accumulated float s) no_totals in
  process_exercise_data float user_1rm user_max_pace (Some s)
  = {| resistance_intensity :=
         Py.clip (total_resistance t / Formula.segments s) 0 2;
       cardio_intensity := Py.clip (total_cardio t / Formula.segments s) 0 1.5;
       volume_load := Py.clip (total_volume t / 10000) 0 1;
       rest_density :=
         Py.clip (total_rest_time t / (total_work_time t + total_rest_time t)) 0 1;
       tempo_factor := calculate_tempo_factor 2 1 0 |}.
Proof.
  intros Hall Hne. cbv zeta. unfold Formula.accumulated in *.
  unfold process_exercise_data.
  destruct (String.eqb_spec s "") as [->|_].
  { exfalso. apply Hne. reflexivity. }
  pose proof (loop_outcome float user_1rm user_max_pace (Str.split "|" s)
                no_totals) as L.
  destruct (loop float user_1rm user_max_pace (Str.split "|" s) no_totals)
    as [t|]; [|congruence].
  destruct L as [_ ->].
  pose proof (records_of_positive float (Str.split "|" s)) as Hpos.
  destruct (work_time_grows user_1rm user_max_pace _ no_totals Hpos) as [_ Hw].
  specialize (Hw Hne). cbn [total_work_time no_totals] in Hw.
  assert (E0 : Nat.eqb (List.length (Str.split "|" s)) 0 = false).
  { destruct (Str.split "|" s); [exfalso; apply Hne; reflexivity|reflexivity]. }
  rewrite E0. cbn [negb andb]. unfold Py.gtb.
  destruct (ltb_spec 0 (total_work_time
                          (fold_left step (Spec.records_of float (Str.split "|" s))
                                     no_totals))) as [_|Hc].
  - reflexivity.
  - exfalso. exact (Qlt_not_le _ _ Hw Hc).
Qed.

End CalculatorMore.

(** X1.  For a workout string without conversion error that has a
    surviving record, [process_exercise_data] averages over the number of
    ['|'] segments, dropped ones included: resistance and cardio are the
    accumulated sums divided by the segment count, clamped to [[0,2]] and
    [[0,1.5]]. *)
Theorem process_divides_by_segment_count (float : string -> option Q)
  (user_1rm user_max_pace : Q) (s : string) :
  0 < user_1rm -> 0 < user_max_pace ->
  forallb (Spec.readable float) (Str.split "|" s) = true ->
  Formula.accumulated float s <> [] ->
  IntensityCoefficientsCalculator.resistance_intensity
    (IntensityCoefficientsCalculator.process_exercise_data
       float user_1rm user_max_pace (Some s))
  == Spec.clamp 0 2
       (Spec.sumQ (fun e => Spec.resistance_i user_1rm e * Spec.sets_of e)
                  (Formula.accumulated float s) / Formula.segments s)
  /\ IntensityCoefficientsCalculator.cardio_intensity
       (IntensityCoefficientsCalculator.process_exercise_data
          float user_1rm user_max_pace (Some s))
     == Spec.clamp 0 1.5
          (Spec.sumQ (fun e => Spec.pace_cardio_i user_max_pace e * Spec.sets_of e)
                     (Formula.accumulated float s) / Formula.segments s).
Proof.
  intros H1 Hp Hall Hne.
  rewrite (process_readable float user_1rm user_max_pace s Hall Hne).
  cbn [IntensityCoefficientsCalculator.resistance_intensity
       IntensityCoefficientsCalculator.cardio_intensity].
  pose proof (records_of_positive float (Str.split "|" s)) as Hpos.
  fold (Formula.accumulated float s) in Hpos.
  split; (apply clip_Qeq_clamp; [discriminate|]).
  - rewrite (total_resistance_sum user_1rm user_max_pace _ _ H1 Hpos).
    cbn [IntensityCoefficientsCalculator.total_resistance
         IntensityCoefficientsCalculator.no_totals].
    now rewrite Qplus_0_l.
  - rewrite (total_cardio_sum user_1rm user_max_pace _ _ Hp Hpos).
    cbn [IntensityCoefficientsCalculator.total_cardio
         IntensityCoefficientsCalculator.no_totals].
    now rewrite Qplus_0_l.
Qed.

Lemma process_divides_by_segment_count_witness :
  IntensityCoefficientsCalculator.resistance_intensity
    (IntensityCoefficientsCalculator.process_exercise_data
       Str.float 100 1 (Some "10x50x1|0x50x1|7"%string))
  == 1 # 6.
Proof.
  rewrite (proj1 (process_divides_by_segment_count
                    Str.float 100 1 "10x50x1|0x50x1|7"%string
                    eq_refl eq_refl eq_refl ltac:(discriminate))).
  reflexivity.
Defined.

(** X2.  A conversion error anywhere in the string makes
    [process_exercise_data] return its default dictionary, whatever the
    other segments hold. *)
Theorem process_conversion_error_gives_defaults (float : string -> option Q)
  (user_1rm user_max_pace : Q) (s : string) :
  forallb (Spec.readable float) (Str.split "|" s) = false ->
  IntensityCoefficientsCalculator.process_exercise_data
    float user_1rm user_max_pace (Some s)
  = IntensityCoefficientsCalculator.default_coefficients.
Proof.
  intros H. unfold IntensityCoefficientsCalculator.process_exercise_data.
  destruct (String.eqb s ""); [reflexivity|].
  pose proof (loop_outcome float user_1rm user_max_pace (Str.split "|" s)
                IntensityCoefficientsCalculator.no_totals) as L.
  destruct (IntensityCoefficientsCalculator.loop
              float user_1rm user_max_pace (Str.split "|" s)
              IntensityCoefficientsCalculator.no_totals) as [t|]; [|reflexivity].
  destruct L as [L _]. congruence.
Qed.

Lemma process_conversion_error_gives_defaults_witness :
  V4DataCleaner._parse_workout_data Str.float "10x50x3|abcx1"
  = [(10, 50, 3)]
  /\ IntensityCoefficientsCalculator.process_exercise_data
       Str.float 100 1 (Some "10x50x3|abcx1"%string)
     = IntensityCoefficientsCalculator.default_coefficients.
Proof.
  split; [reflexivity|].
  apply (process_conversion_error_gives_defaults
           Str.float 100 1 "10x50x3|abcx1"%string).
  reflexivity.
Defined.



(** ** Finite fields: the two models of the calculator agree *)

Section FiniteFields.

Variable floatF : string -> option PyFloat.t.

#[local] Abbreviation float := (Formula.finite_part floatF).

Lemma to_float_finite (field : string) :
  Formula.finite_field floatF field = true ->
  Ieee.to_float floatF field
  = match to_float float field with
    | Py.Ok q => PyX.Done (PyFloat.finite q)
    | Py.Raise _ => PyX.Fail PyX.ValueError
    end.
Proof.
  unfold Formula.finite_field, Ieee.to_float, to_float, Formula.finite_part.
  destruct (floatF field) as [[q| | |]|]; intros H;
    try discriminate; reflexivity.
Qed.

Lemma read_segment_finite (exercise : string) :
  forallb (Formula.finite_field floatF)
          (Str.split "x" (Str.strip exercise)) = true ->
  Ieee.read_segment floatF exercise
  = match read_segment float exercise with
    | Py.Ok (Some e) => PyX.Done (Some (Formula.of_record e))
    | Py.Ok None => PyX.Done None
    | Py.Raise _ => PyX.Fail PyX.ValueError
    end.
Proof.
  unfold Ieee.read_segment, read_segment.
  destruct (Str.split "x" (Str.strip exercise)) as [|p0 [|p1 rest]];
    [reflexivity|reflexivity|].
  cbn [forallb]. rewrite !andb_true_iff. intros (H0 & H1 & Hrest).
  rewrite (to_float_finite p0 H0), (to_float_finite p1 H1).
  destruct (to_float float p0) as [reps|]; [|reflexivity].
  destruct (to_float float p1) as [weight|]; [|reflexivity].
  cbn [PyX.and_then Py.bind].
  destruct rest as [|p2 rest']; [reflexivity|].
  cbn [forallb] in Hrest. apply andb_true_iff in Hrest. destruct Hrest as [H2 _].
  rewrite (to_float_finite p2 H2).
  destruct (to_float float p2) as [sets|]; reflexivity.
Qed.

Lemma positive_fields_finite (e : ExerciseSet) :
  Ieee.V4DataCleaner.positive_fields (Formula.of_record e) = positive_fields e.
Proof. destruct e as [[reps weight] sets]. reflexivity. Qed.

Lemma parse_loop_finite (exercise_sets : list string)
  (exercises : list ExerciseSet) :
  forallb (Formula.finite_field floatF)
          (flat_map (fun exercise => Str.split "x" (Str.strip exercise))
                    exercise_sets) = true ->
  Ieee.V4DataCleaner.parse_loop floatF exercise_sets
    (map Formula.of_record exercises)
  = map Formula.of_record
        (V4DataCleaner.parse_loop float exercise_sets exercises).
Proof.
  revert exercises.
  induction exercise_sets as [|exercise more IH]; intros exercises H.
  - reflexivity.
  - cbn [flat_map] in H. rewrite forallb_app in H.
    apply andb_true_iff in H. destruct H as [H1 H2].
    cbn [Ieee.V4DataCleaner.parse_loop V4DataCleaner.parse_loop].
    rewrite (read_segment_finite exercise H1).
    destruct (read_segment float exercise) as [[e|]|].
    + rewrite positive_fields_finite.
      destruct (positive_fields e); [|now apply IH].
      rewrite <- (IH (exercises ++ [e])%list H2). now rewrite map_app.
    + now apply IH.
    + reflexivity.
Qed.

Lemma parse_finite (w : string) :
  Formula.finite_fields floatF (Some w) = true ->
  Ieee.V4DataCleaner._parse_workout_data floatF w
  = map Formula.of_record (V4DataCleaner._parse_workout_data float w).
Proof.
  intros H. unfold Ieee.V4DataCleaner._parse_workout_data,
    V4DataCleaner._parse_workout_data.
  now rewrite <- parse_loop_finite.
Qed.

Lemma nonzero_eq_bool (x : Q) : ~ x == 0 -> Qeq_bool x 0 = false.
Proof.
  intros H. destruct (Qeq_bool x 0) eqn:E; [|reflexivity].
  apply Qeq_bool_iff in E. contradiction.
Qed.

Lemma div_finite (a b : Q) :
  ~ b == 0 ->
  PyFloat.div (PyFloat.finite a) (PyFloat.finite b)
  = PyX.Done (PyFloat.finite (a / b)).
Proof. intros H. unfold PyFloat.div. now rewrite nonzero_eq_bool. Qed.

Lemma clip_finite (x lo hi : Q) :
  PyFloat.clip (PyFloat.finite x) lo hi = PyFloat.finite (Py.clip x lo hi).
Proof.
  unfold PyFloat.clip, Py.clip, PyFloat.gtb, Py.gtb. cbn [PyFloat.ltb].
  destruct (Py.ltb x lo); cbn [PyFloat.ltb]; now destruct (Py.ltb hi _).
Qed.

Lemma resistance_finite (weight reps user_1rm : Q) :
  Ieee.IntensityCoefficientsCalculator.calculate_resistance_intensity
    (PyFloat.finite weight) (PyFloat.finite reps) (PyFloat.finite user_1rm)
  = PyX.Done
      (PyFloat.finite
         (IntensityCoefficientsCalculator.calculate_resistance_intensity
            weight reps user_1rm)).
Proof.
  unfold Ieee.IntensityCoefficientsCalculator.calculate_resistance_intensity,
    IntensityCoefficientsCalculator.calculate_resistance_intensity, Ieee.le0.
  cbn [PyFloat.leb PyFloat.mul].
  destruct (leb_spec user_1rm 0) as [|Hu]; [reflexivity|]. cbn [orb].
  destruct (Py.leb weight 0 || Py.leb reps 0); [reflexivity|].
  apply div_finite. lra.
Qed.

Lemma cardio_finite (distance time user_max_pace : Q) :
  Ieee.IntensityCoefficientsCalculator.calculate_cardio_intensity
    (PyFloat.finite distance) (PyFloat.finite time) (PyFloat.finite user_max_pace)
  = PyX.Done
      (PyFloat.finite
         (IntensityCoefficientsCalculator.calculate_cardio_intensity
            distance time user_max_pace)).
Proof.
  unfold Ieee.IntensityCoefficientsCalculator.calculate_cardio_intensity,
    IntensityCoefficientsCalculator.calculate_cardio_intensity, Ieee.le0.
  cbn [PyFloat.leb PyFloat.mul].
  destruct (leb_spec user_max_pace 0) as [|Hp]; [reflexivity|].
  destruct (leb_spec time 0) as [|Ht]; [reflexivity|]. cbn [orb].
  destruct (Py.leb distance 0); [reflexivity|].
  apply div_finite.
  assert (0 < time * user_max_pace) by (apply Qmult_lt_0_compat; assumption).
  lra.
Qed.

Lemma volume_finite (weight reps sets : Q) :
  Ieee.IntensityCoefficientsCalculator.calculate_volume_load
    (PyFloat.finite weight) (PyFloat.finite reps) (PyFloat.finite sets)
    (PyFloat.finite 10000)
  = PyX.Done
      (PyFloat.finite
         (IntensityCoefficientsCalculator.calculate_volume_load
            weight reps sets 10000)).
Proof. reflexivity. Qed.


Lemma tempo_finite (eccentric concentric isometric : Q) :
  Ieee.IntensityCoefficientsCalculator.calculate_tempo_factor
    (PyFloat.finite eccentric) (PyFloat.finite concentric)
    (PyFloat.finite isometric)
  = PyX.Done
      (PyFloat.finite
         (IntensityCoefficientsCalculator.calculate_tempo_factor
            eccentric concentric isometric)).
Proof.
  unfold Ieee.IntensityCoefficientsCalculator.calculate_tempo_factor,
    IntensityCoefficientsCalculator.calculate_tempo_factor, Ieee.le0.
  cbn [PyFloat.add PyFloat.leb]. cbv zeta.
  destruct (leb_spec (eccentric + concentric + isometric) 0) as [|Ht];
    [reflexivity|].
  rewrite div_finite by lra. cbn [PyX.and_then]. now rewrite clip_finite.
Qed.

Variables user_1rm user_max_pace : Q.

Lemma accumulate_finite (t : IntensityCoefficientsCalculator.Totals)
  (e : ExerciseSet) :
  Ieee.IntensityCoefficientsCalculator.accumulate
    (PyFloat.finite user_1rm) (PyFloat.finite user_max_pace)
    (Formula.of_totals t) (Formula.of_record e)
  = PyX.Done
      (Formula.of_totals
         (IntensityCoefficientsCalculator.accumulate
            user_1rm user_max_pace t e)).
Proof.
  destruct e as [[reps weight] sets].
  unfold Ieee.IntensityCoefficientsCalculator.accumulate, Formula.of_record.
  rewrite resistance_finite. cbn [PyX.and_then PyFloat.mul].
  rewrite cardio_finite. cbn [PyX.and_then].
  rewrite volume_finite. reflexivity.
Qed.

Lemma loop_finite (exercises : list string)
  (t : IntensityCoefficientsCalculator.Totals) :
  forallb (Formula.finite_field floatF)
          (flat_map (fun exercise => Str.split "x" (Str.strip exercise))
                    exercises) = true ->
  Ieee.IntensityCoefficientsCalculator.loop
    floatF (PyFloat.finite user_1rm) (PyFloat.finite user_max_pace)
    exercises (Formula.of_totals t)
  = match IntensityCoefficientsCalculator.loop
            float user_1rm user_max_pace exercises t with
    | Py.Ok t' => PyX.Done (Formula.of_totals t')
    | Py.Raise _ => PyX.Fail PyX.ValueError
    end.
Proof.
  revert t. induction exercises as [|exercise more IH]; intros t H.
  - reflexivity.
  - cbn [flat_map] in H. rewrite forallb_app in H.
    apply andb_true_iff in H. destruct H as [H1 H2].
    cbn [Ieee.IntensityCoefficientsCalculator.loop
         IntensityCoefficientsCalculator.loop].
    rewrite (read_segment_finite exercise H1).
    destruct (read_segment float exercise) as [[[[reps weight] sets]|]|];
      cbn [PyX.and_then Py.bind Formula.of_record].
    + unfold Ieee.le0. cbn [PyFloat.leb].
      destruct (Py.leb reps 0 || Py.leb weight 0 || Py.leb sets 0);
        [now apply IH|].
      change (PyFloat.finite reps, PyFloat.finite weight, PyFloat.finite sets)
        with (Formula.of_record (reps, weight, sets)).
      rewrite accumulate_finite. cbn [PyX.and_then]. now apply IH.
    + now apply IH.
    + reflexivity.
Qed.

Lemma rest_time_grows (records : list ExerciseSet)
  (t : IntensityCoefficientsCalculator.Totals) :
  Forall (fun e => positive_fields e = true) records ->
  IntensityCoefficientsCalculator.total_rest_time t
  <= IntensityCoefficientsCalculator.total_rest_time
       (fold_left (IntensityCoefficientsCalculator.accumulate
                     user_1rm user_max_pace) records t).
Proof.
  intros H. revert t.
  induction H as [|[[reps weight] sets] more Hp _ IH]; intros t;
    cbn [fold_left]; [lra|].
  apply positive_fields_iff in Hp. destruct Hp as (Hr & Hw & Hs).
  specialize (IH (IntensityCoefficientsCalculator.accumulate
                    user_1rm user_max_pace t (reps, weight, sets))).
  assert (E : IntensityCoefficientsCalculator.total_rest_time
                 (IntensityCoefficientsCalculator.accumulate
                    user_1rm user_max_pace t (reps, weight, sets))
               = IntensityCoefficientsCalculator.total_rest_time t + sets * 120)
    by reflexivity.
  rewrite E in IH. lra.
Qed.

(** On a workout string whose fields are finite, and for a finite
    [user_1rm] and [user_max_pace], the calculator on floats with
    special values returns what the calculator on finite floats
    returns. *)
Lemma process_finite (workout : option string) :
  Formula.finite_fields floatF workout = true ->
  Ieee.IntensityCoefficientsCalculator.process_exercise_data
    floatF (PyFloat.finite user_1rm) (PyFloat.finite user_max_pace) workout
  = Formula.of_coefficients
      (IntensityCoefficientsCalculator.process_exercise_data
         float user_1rm user_max_pace workout).
Proof.
  destruct workout as [s|]; [|reflexivity].
  unfold Formula.finite_fields, Formula.fields. intros H.
  unfold Ieee.IntensityCoefficientsCalculator.process_exercise_data,
    IntensityCoefficientsCalculator.process_exercise_data.
  destruct (String.eqb s ""); [reflexivity|].
  change Ieee.IntensityCoefficientsCalculator.no_totals
    with (Formula.of_totals IntensityCoefficientsCalculator.no_totals).
  rewrite (loop_finite _ _ H).
  pose proof (loop_outcome float user_1rm user_max_pace (Str.split "|" s)
                IntensityCoefficientsCalculator.no_totals) as L.
  destruct (IntensityCoefficientsCalculator.loop
              float user_1rm user_max_pace (Str.split "|" s)
              IntensityCoefficientsCalculator.no_totals) as [t|];
    [|reflexivity].
  destruct L as [_ Et].
  destruct (Nat.eqb (List.length (Str.split "|" s)) 0) eqn:E0;
    cbn [negb andb]; [reflexivity|].
  unfold Ieee.gt0, PyFloat.gtb.
  cbn [Formula.of_totals Ieee.IntensityCoefficientsCalculator.total_work_time
       PyFloat.ltb].
  unfold Py.gtb.
  destruct (ltb_spec 0 (IntensityCoefficientsCalculator.total_work_time t))
    as [Hw|_]; [|reflexivity].
  assert (Hr : 0 <= IntensityCoefficientsCalculator.total_rest_time t).
  { rewrite Et.
    apply (rest_time_grows _ IntensityCoefficientsCalculator.no_totals
             (records_of_positive float (Str.split "|" s))). }
  assert (Hn : 0 < inject_Z (Z.of_nat (List.length (Str.split "|" s)))).
  { replace 0 with (inject_Z 0) by reflexivity. rewrite <- Zlt_Qlt.
    apply Nat.eqb_neq in E0. lia. }
  unfold Ieee.IntensityCoefficientsCalculator.assign.
  cbn [Formula.of_totals Ieee.IntensityCoefficientsCalculator.total_resistance
       Ieee.IntensityCoefficientsCalculator.total_cardio
       Ieee.IntensityCoefficientsCalculator.total_volume
       Ieee.IntensityCoefficientsCalculator.total_work_time
       Ieee.IntensityCoefficientsCalculator.total_rest_time PyFloat.add].
  rewrite !div_finite by lra.
  rewrite tempo_finite, !clip_finite. reflexivity.
Qed.

End FiniteFields.







(** X29.  For a workout string whose fields are finite and of which the
    parser keeps no record (a missing or empty string included), and a
    finite [user_1rm] and [user_max_pace], [process_exercise_data]
    returns its defaults: resistance, cardio and volume load 0, rest
    density 0.3 and tempo factor 1. *)
Theorem finite_fields_without_record (float : string -> option PyFloat.t)
  (user_1rm user_max_pace : Q) (workout : option string) :
  Formula.finite_fields float workout = true ->
  Formula.surviving float workout = [] ->
  Ieee.IntensityCoefficientsCalculator.process_exercise_data
    float (PyFloat.finite user_1rm) (PyFloat.finite user_max_pace) workout
  = {| Ieee.IntensityCoefficientsCalculator.resistance_intensity :=
         PyFloat.finite 0;
       Ieee.IntensityCoefficientsCalculator.cardio_intensity := PyFloat.finite 0;
       Ieee.IntensityCoefficientsCalculator.volume_load := PyFloat.finite 0;
       Ieee.IntensityCoefficientsCalculator.rest_density := PyFloat.finite 0.3;
       Ieee.IntensityCoefficientsCalculator.tempo_factor := PyFloat.finite 1 |}.
Proof.
  intros H Hs. rewrite (process_finite float user_1rm user_max_pace workout H).
  rewrite process_no_records; [reflexivity|].
  destruct workout as [s|]; [|reflexivity].
  cbn [Formula.surviving Spec.surviving] in *.
  rewrite (parse_finite float s H) in Hs.
  now destruct (V4DataCleaner._parse_workout_data (Formula.finite_part float) s).
Qed.

Lemma finite_fields_without_record_witness :
  Ieee.IntensityCoefficientsCalculator.rest_density
    (Ieee.IntensityCoefficientsCalculator.process_exercise_data
       PyFloat.float (PyFloat.finite (-1)) (PyFloat.finite 0)
       (Some "0x50x3|abc"%string))
  = PyFloat.finite 0.3.
Proof.
  rewrite (finite_fields_without_record
             PyFloat.float (-1) 0 (Some "0x50x3|abc"%string));
    reflexivity.
Defined.

(** ** The parser beyond the claims *)

Section ParserMore.

Variable float : string -> option Q.

Lemma records_of_length (segments : list string) :
  (List.length (Spec.records_of float segments) <= List.length segments)%nat.
Proof.
  induction segments as [|seg more IH]; cbn [Spec.records_of List.length]; [lia|].
  destruct (Spec.record_of float seg); cbn [List.length]; lia.
Qed.

Lemma readable_prefix_length (segments : list string) :
  (List.length (Spec.readable_prefix float segments) <= List.length segments)%nat.
Proof.
  induction segments as [|seg more IH]; cbn [Spec.readable_prefix List.length];
    [lia|].
  destruct (read_segment float seg); cbn [List.length]; lia.
Qed.

Lemma split_nonempty (sep : ascii) (s : string) : Str.split sep s <> [].
Proof.
  destruct s as [|c rest]; cbn; [discriminate|].
  destruct (Ascii.eqb c sep); [discriminate|].
  destruct (Str.split sep rest); discriminate.
Qed.

Lemma split_append (sep : ascii) (s1 s2 : string) :
  Str.split sep (s1 ++ String sep s2)
  = (Str.split sep s1 ++ Str.split sep s2)%list.
Proof.
  induction s1 as [|c rest IH]; cbn [append Str.split].
  - now rewrite Ascii.eqb_refl.
  - destruct (Ascii.eqb c sep); [now rewrite IH|].
    rewrite IH. pose proof (split_nonempty sep rest) as Hne.
    destruct (Str.split sep rest); [congruence|reflexivity].
Qed.

Lemma records_of_app (a b : list string) :
  Spec.records_of float (a ++ b)
  = (Spec.records_of float a ++ Spec.records_of float b)%list.
Proof.
  induction a as [|seg more IH]; [reflexivity|].
  cbn [app Spec.records_of]. rewrite IH.
  destruct (Spec.record_of float seg); reflexivity.
Qed.

Lemma readable_prefix_app (a b : list string) :
  Spec.readable_prefix float (a ++ b)
  = if forallb (Spec.readable float) a
    then (a ++ Spec.readable_prefix float b)%list
    else Spec.readable_prefix float a.
Proof.
  induction a as [|seg more IH]; [reflexivity|].
  cbn [app Spec.readable_prefix forallb].
  replace (Spec.readable float seg)
    with (match read_segment float seg with
          | Py.Ok _ => true
          | Py.Raise _ => false
          end) by reflexivity.
  destruct (read_segment float seg); cbn [andb]; [|reflexivity].
  rewrite IH. destruct (forallb (Spec.readable float) more); reflexivity.
Qed.

End ParserMore.

(** X5.  Every record returned by [_parse_workout_data] has three
    positive fields, and there are at most as many records as ['|']
    segments. *)
Theorem parsed_records_positive (float : string -> option Q) (s : string) :
  Forall (fun e : ExerciseSet =>
            let '(reps, weight, sets) := e in
            0 < reps /\ 0 < weight /\ 0 < sets)
         (V4DataCleaner._parse_workout_data float s)
  /\ (List.length (V4DataCleaner._parse_workout_data float s)
      <= List.length (Str.split "|" s))%nat.
Proof.
  split.
  - pose proof (parse_positive float s) as H.
    induction H as [|[[reps weight] sets] more Hp _ IH]; constructor; [|exact IH].
    now apply positive_fields_iff.
  - unfold V4DataCleaner._parse_workout_data. rewrite parse_loop_prefix.
    cbn [app].
    pose proof (records_of_length float
                  (Spec.readable_prefix float (Str.split "|" s))).
    pose proof (readable_prefix_length float (Str.split "|" s)). lia.
Qed.

(** X6.  Parsing two workout strings joined by ['|'] gives the records
    of the first followed by those of the second when no field of the
    first fails to convert, and the records of the first alone
    otherwise. *)
Theorem parse_joined_strings (float : string -> option Q) (s1 s2 : string) :
  V4DataCleaner._parse_workout_data float (s1 ++ String "|" s2)
  = if forallb (Spec.readable float) (Str.split "|" s1)
    then (V4DataCleaner._parse_workout_data float s1
          ++ V4DataCleaner._parse_workout_data float s2)%list
    else V4DataCleaner._parse_workout_data float s1.
Proof.
  unfold V4DataCleaner._parse_workout_data.
  rewrite !parse_loop_prefix. cbn [app].
  rewrite split_append, readable_prefix_app.
  destruct (forallb (Spec.readable float) (Str.split "|" s1)) eqn:E.
  - now rewrite records_of_app, (readable_prefix_all float _ E).
  - reflexivity.
Qed.

(** ** Exercise encoders *)

Section EncoderFacts.

Import V4Dataset.

Lemma indicator_unit (b : bool) : Formula.unit_interval (PyX.indicator b).
Proof. destruct b; split; discriminate. Qed.

Lemma difficulty_unit (name : string) : Formula.unit_interval (_encode_difficulty name).
Proof.
  unfold _encode_difficulty.
  repeat match goal with
         | |- context [if ?c then _ else _] => destruct c
         end; split; discriminate.
Qed.

Lemma equipment_unit (name : string) : Formula.unit_interval (_encode_equipment name).
Proof.
  unfold _encode_equipment.
  repeat match goal with
         | |- context [if ?c then _ else _] => destruct c
         end; split; discriminate.
Qed.

Lemma skill_level_bounds (name : string) (x : PyFloat.t) :
  x <> PyFloat.nan ->
  exists skill,
    _estimate_skill_level name (Number x) = PyX.Done skill
    /\ Ieee.within 0.1 1 skill = true.
Proof.
  intros Hx. unfold _estimate_skill_level. eexists. split; [reflexivity|].
  destruct x as [q| | |]; [| | |congruence].
  - cbn [PyFloat.mul PyFloat.sub PyFloat.opp PyFloat.add].
    rewrite clip_finite.
    pose proof (clip_bounds (_encode_difficulty name + - (q * 0.1)) 0.1 1.0).
    unfold Ieee.within. cbn [PyFloat.leb]. unfold Py.leb.
    apply andb_true_iff. split; apply Qle_bool_iff; lra.
  - reflexivity.
  - reflexivity.
Qed.

End EncoderFacts.

(** X7.  [_extract_exercise_info] raises [TypeError] when the
    experience cell is not a number.  Otherwise it returns twelve
    features (four muscle groups, two movement types, difficulty, three
    flags, equipment and skill level); the first eleven are numbers of
    [[0,1]], exactly one movement type is set, and the cardio movement
    type agrees with the cardio flag; the skill level is nan when the
    experience cell is nan, and a number of [[0.1,1]] for every other
    cell, an absent one included. *)
Theorem exercise_info_vector (exercise_name : option string)
  (experience_level : option V4Dataset.Experience) :
  match V4Dataset._extract_exercise_info exercise_name experience_level with
  | PyX.Fail e =>
      e = PyX.TypeError /\ experience_level = Some V4Dataset.NotNumber
  | PyX.Done v =>
      experience_level <> Some V4Dataset.NotNumber
      /\ List.length v = 12%nat
      /\ (exists front : list Q,
             firstn 11 v = map PyFloat.finite front
             /\ Forall Formula.unit_interval front
             /\ nth 4 front 0 + nth 5 front 0 == 1
             /\ nth 5 front 0 = nth 8 front 0)
      /\ (experience_level = Some (V4Dataset.Number PyFloat.nan)
          /\ nth 11 v (PyFloat.finite 0) = PyFloat.nan
          \/ experience_level <> Some (V4Dataset.Number PyFloat.nan)
             /\ Ieee.within 0.1 1 (nth 11 v (PyFloat.finite 0)) = true)
  end.
Proof.
  unfold V4Dataset._extract_exercise_info.
  set (name := Str.lower _).
  set (experience := match experience_level with
                     | Some e => e
                     | None => V4Dataset.Number (PyFloat.finite 1)
                     end).
  assert (Hfront :
            forall skill,
              let v := (map PyFloat.finite
                          (V4Dataset._encode_muscle_group name
                           ++ V4Dataset._encode_movement_type name
                           ++ [V4Dataset._encode_difficulty name;
                               PyX.indicator
                                 (PyX.any_in ["squat"; "deadlift"; "bench"; "press"]%string name);
                               PyX.indicator
                                 (PyX.any_in ["run"; "cycle"; "swim"; "row"]%string name);
                               PyX.indicator
                                 (PyX.any_in ["push"; "pull"; "plank"; "burpee"]%string name);
                               V4Dataset._encode_equipment name])
                        ++ [skill])%list in
              List.length v = 12%nat
              /\ (exists front : list Q,
                     firstn 11 v = map PyFloat.finite front
                     /\ Forall Formula.unit_interval front
                     /\ nth 4 front 0 + nth 5 front 0 == 1
                     /\ nth 5 front 0 = nth 8 front 0)
              /\ nth 11 v (PyFloat.finite 0) = skill).
  { intros skill. cbv zeta.
    unfold V4Dataset._encode_muscle_group, V4Dataset._encode_movement_type.
    destruct (PyX.any_in ["run"; "cycle"; "swim"; "row"]%string name);
      cbn [app map List.length nth firstn PyX.indicator];
      (split; [reflexivity|split; [|reflexivity]]);
      eexists (_ :: _ :: _ :: _ :: _ :: _ :: _ :: _ :: _ :: _ :: _ :: nil);
      (split; [reflexivity|]);
      cbn [nth];
      (split; [|split; reflexivity]);
      repeat (constructor;
              [first [apply indicator_unit | apply difficulty_unit
                     | apply equipment_unit | (split; lra)
                     | (split; discriminate)]|]);
      constructor. }
  destruct experience as [x|] eqn:Ee.
  - cbn [V4Dataset._estimate_skill_level PyX.and_then].
    destruct (Hfront (PyFloat.clip
                        (PyFloat.sub (PyFloat.finite (V4Dataset._encode_difficulty name))
                                     (PyFloat.mul x (PyFloat.finite 0.1)))
                        0.1 1.0)) as (Hlen & Hf & Hskill).
    split.
    { intros ->. unfold experience in Ee. discriminate. }
    split; [exact Hlen|]. split; [exact Hf|].
    rewrite Hskill.
    destruct x as [q| | |].
    + right. split.
      * intros ->. unfold experience in Ee. discriminate.
      * destruct (skill_level_bounds name (PyFloat.finite q) ltac:(discriminate))
          as (skill & [= <-] & Hs). exact Hs.
    + right. split.
      * intros ->. unfold experience in Ee. discriminate.
      * reflexivity.
    + right. split.
      * intros ->. unfold experience in Ee. discriminate.
      * reflexivity.
    + left. split; [|reflexivity].
      unfold experience in Ee. destruct experience_level as [e|]; [|discriminate].
      now rewrite Ee.
  - cbn [V4Dataset._estimate_skill_level PyX.and_then].
    split; [reflexivity|].
    unfold experience in Ee. destruct experience_level as [e|]; [|discriminate].
    now rewrite Ee.
Qed.

(** X8.  [_encode_fitness_goal] is a one-hot code of length four: every
    entry is 0 or 1, the entries add up to 1 for the goals [strength],
    [hypertrophy], [endurance] and [general], and are all 0 for any other
    text, [general_fitness] included. *)
Theorem fitness_goal_one_hot (fitness_goal : string) :
  let v := V4Dataset._encode_fitness_goal fitness_goal in
  List.length v = 4%nat
  /\ Forall (fun x => x = 0 \/ x = 1) v
  /\ Spec.sumQ (fun x => x) v
     == PyX.indicator
          (existsb (String.eqb fitness_goal)
                   ["strength"; "hypertrophy"; "endurance"; "general"]%string)
  /\ V4Dataset._encode_fitness_goal "general_fitness" = [0; 0; 0; 0].
Proof.
  cbv zeta. split; [reflexivity|]. split; [|split; [|reflexivity]].
  - unfold V4Dataset._encode_fitness_goal. cbn [map].
    repeat (constructor; [destruct (String.eqb fitness_goal _); cbn; auto|]).
    constructor.
  - unfold V4Dataset._encode_fitness_goal. cbn [map existsb].
    destruct (String.eqb_spec fitness_goal "strength") as [->|_];
      [reflexivity|].
    destruct (String.eqb_spec fitness_goal "hypertrophy") as [->|_];
      [reflexivity|].
    destruct (String.eqb_spec fitness_goal "endurance") as [->|_];
      [reflexivity|].
    destruct (String.eqb_spec fitness_goal "general") as [->|_]; reflexivity.
Qed.

(** ** SePA scales and readiness beyond the claims *)

Section SepaMore.

Import V4DataCleaner.

Variable float : string -> option PyFloat.t.

Lemma lookup_in_values (mapping : Mapping) (key : string) (v : Z) :
  lookup mapping key = Some v -> In v (map snd mapping).
Proof.
  induction mapping as [|[k v'] more IH]; [discriminate|]. cbn.
  destruct (String.eqb k key); [intros [= ->]; now left|].
  intros H. right. now apply IH.
Qed.

Lemma lookup_lower_in_values (mapping : Mapping) (text : string) (v : Z) :
  lookup_lower mapping text = Some v -> In v (map snd mapping).
Proof.
  induction mapping as [|[k v'] more IH]; [discriminate|]. cbn.
  destruct (String.eqb (Str.lower k) (Str.lower text)); [intros [= ->]; now left|].
  intros H. right. now apply IH.
Qed.

Lemma by_text_cases (value : Value) (mapping : Mapping) (default : Z) :
  by_text value mapping default = default
  \/ In (by_text value mapping default) (map snd mapping).
Proof.
  destruct value as [|x|s]; [now left|now left|]. cbn [by_text].
  destruct (lookup mapping (Str.strip s)) as [v|] eqn:L.
  { right. eapply lookup_in_values, L. }
  destruct (lookup_lower mapping (Str.strip s)) as [v|] eqn:L2.
  { right. eapply lookup_lower_in_values, L2. }
  now left.
Qed.

(** The mapper raises on overflow only; otherwise it returns the
    default, an integer part that passed the scale test, or a value of
    the table. *)
Lemma map_sepa_cases (value : Value) (mapping : Mapping) (default : Z) :
  match _map_sepa_to_numeric float value mapping default with
  | PyX.Done r => ~ Formula.overflows float value
                  /\ (r = default \/ (1 <= r <= 5)%Z \/ In r (map snd mapping))
  | PyX.Fail e => e = PyX.OverflowError /\ Formula.overflows float value
  end.
Proof.
  unfold _map_sepa_to_numeric, int_float, Formula.overflows.
  pose proof (by_text_cases value mapping default) as B.
  destruct value as [|[q| | |]|s]; cbn [isna PyFloat.int].
  - split; [tauto|now left].
  - destruct ((1 <=? Py.int q)%Z && (Py.int q <=? 5)%Z) eqn:E.
    + split; [intuition discriminate|]. right. left.
      apply andb_true_iff in E. lia.
    + split; [intuition discriminate|]. tauto.
  - split; [reflexivity|now left].
  - split; [reflexivity|now right].
  - split; [intuition discriminate|now left].
  - destruct (float s) as [[q| | |]|]; cbn [PyFloat.int].
    + destruct ((1 <=? Py.int q)%Z && (Py.int q <=? 5)%Z) eqn:E.
      * split; [intuition discriminate|]. right. left.
        apply andb_true_iff in E. lia.
      * split; [intuition discriminate|]. tauto.
    + split; [reflexivity|now left].
    + split; [reflexivity|now right].
    + split; [intuition discriminate|]. tauto.
    + split; [intuition discriminate|]. tauto.
Qed.

Lemma sepa_tables_on_scale :
  Forall (fun v => (1 <= v <= 5)%Z) (map snd SEPA_MAPPINGS_mood)
  /\ Forall (fun v => (1 <= v <= 5)%Z) (map snd SEPA_MAPPINGS_fatigue)
  /\ Forall (fun v => (1 <= v <= 5)%Z) (map snd SEPA_MAPPINGS_effort).
Proof. repeat split; cbn; repeat constructor; lia. Qed.

Lemma map_sepa_on_scale (value : Value) (mapping : Mapping) :
  Forall (fun v => (1 <= v <= 5)%Z) (map snd mapping) ->
  match _map_sepa_to_numeric float value mapping 3 with
  | PyX.Done r => ~ Formula.overflows float value /\ (1 <= r <= 5)%Z
  | PyX.Fail e => e = PyX.OverflowError /\ Formula.overflows float value
  end.
Proof.
  intros H. pose proof (map_sepa_cases value mapping 3) as C.
  destruct (_map_sepa_to_numeric float value mapping 3) as [r|e]; [|exact C].
  destruct C as [Hno [->|[Hr|Hin]]]; split; try exact Hno; try lia.
  rewrite Forall_forall in H. now apply H.
Qed.

End SepaMore.

(** X9.  With any of the three SePA tables and the default 3,
    [_map_sepa_to_numeric] raises [OverflowError] when the cell is an
    infinite number or text that converts to one, and on no other cell;
    for every other cell, missing, numeric or text, it returns an
    integer of the scale 1..5. *)
Theorem sepa_mapping_on_scale (float : string -> option PyFloat.t)
  (value : V4DataCleaner.Value) (mapping : V4DataCleaner.Mapping) :
  In mapping [V4DataCleaner.SEPA_MAPPINGS_mood;
              V4DataCleaner.SEPA_MAPPINGS_fatigue;
              V4DataCleaner.SEPA_MAPPINGS_effort] ->
  match V4DataCleaner._map_sepa_to_numeric float value mapping 3 with
  | PyX.Done r => ~ Formula.overflows float value /\ (1 <= r <= 5)%Z
  | PyX.Fail e => e = PyX.OverflowError /\ Formula.overflows float value
  end.
Proof.
  destruct sepa_tables_on_scale as (Hm & Hf & He).
  intros [<-|[<-|[<-|[]]]]; now apply map_sepa_on_scale.
Qed.

Lemma sepa_mapping_on_scale_witness :
  V4DataCleaner._map_sepa_to_numeric
    PyFloat.float (V4DataCleaner.Text "inf") V4DataCleaner.SEPA_MAPPINGS_mood 3
  = PyX.Fail PyX.OverflowError.
Proof.
  pose proof (sepa_mapping_on_scale PyFloat.float (V4DataCleaner.Text "inf")
                V4DataCleaner.SEPA_MAPPINGS_mood (or_introl eq_refl)) as H.
  destruct (V4DataCleaner._map_sepa_to_numeric _ _ _ _) as [r|e].
  - destruct H as [H _]. exfalso. apply H. left. reflexivity.
  - destruct H as [-> _]. reflexivity.
Defined.

Section ReadinessMore.

Import V4DataCleaner.

Lemma clip_monotone (x y lo hi : Q) :
  x <= y -> Py.clip x lo hi <= Py.clip y lo hi.
Proof.
  intros H.
  destruct (clip_cases x lo hi) as [(?&?&->)|[(?&?&->)|[(?&?&->)|(?&?&->)]]];
    destruct (clip_cases y lo hi) as [(?&?&->)|[(?&?&->)|[(?&?&->)|(?&?&->)]]];
    lra.
Qed.

End ReadinessMore.

(** X10.  The readiness factor is monotone for all numeric inputs: it
    does not decrease when mood rises, fatigue falls or effort falls. *)
Theorem readiness_factor_monotone (mood mood' fatigue fatigue' effort effort' : Q) :
  mood <= mood' -> fatigue' <= fatigue -> effort' <= effort ->
  V4DataCleaner._calculate_readiness_factor_v4 mood fatigue effort
  <= V4DataCleaner._calculate_readiness_factor_v4 mood' fatigue' effort'.
Proof.
  intros Hm Hf He. unfold V4DataCleaner._calculate_readiness_factor_v4.
  cbv zeta. apply clip_monotone.
  assert (A : (if Py.geb mood 5 then 0.1
               else if Py.leb mood 2 then - 0.1 else (mood - 3) * 0.05)
              <= (if Py.geb mood' 5 then 0.1
                  else if Py.leb mood' 2 then - 0.1 else (mood' - 3) * 0.05)).
  { unfold Py.geb.
    destruct (leb_spec 5 mood), (leb_spec mood 2), (leb_spec 5 mood'),
      (leb_spec mood' 2); lra. }
  assert (B : (if Py.geb fatigue 4 then - 0.12
               else if Py.leb fatigue 2 then 0.08 else (3 - fatigue) * 0.04)
              <= (if Py.geb fatigue' 4 then - 0.12
                  else if Py.leb fatigue' 2 then 0.08
                       else (3 - fatigue') * 0.04)).
  { unfold Py.geb.
    destruct (leb_spec 4 fatigue), (leb_spec fatigue 2), (leb_spec 4 fatigue'),
      (leb_spec fatigue' 2); lra. }
  assert (C : (if Py.geb effort 5 then - 0.03
               else if Py.leb effort 2 then 0.05 else 0)
              <= (if Py.geb effort' 5 then - 0.03
                  else if Py.leb effort' 2 then 0.05 else 0)).
  { unfold Py.geb.
    destruct (leb_spec 5 effort), (leb_spec effort 2), (leb_spec 5 effort'),
      (leb_spec effort' 2); lra. }
  lra.
Qed.

Lemma readiness_factor_monotone_witness :
  V4DataCleaner._calculate_readiness_factor_v4 2 4 5
  <= V4DataCleaner._calculate_readiness_factor_v4 3.5 2.5 1.
Proof.
  apply readiness_factor_monotone; discriminate.
Defined.

Section StandardizeFacts.

Variable float : string -> option PyFloat.t.

Lemma numeric_column_raw (mapping : V4DataCleaner.Mapping)
  (cell : V4DataCleaner.Value) (old : option Q) :
  Forall (fun v => (1 <= v <= 5)%Z) (map snd mapping) ->
  match SepaFeatures.numeric_column float mapping (Some cell) old with
  | PyX.Done c =>
      ~ Formula.overflows float cell
      /\ exists n, (1 <= n <= 5)%Z /\ c = Some (inject_Z n)
  | PyX.Fail e => e = PyX.OverflowError /\ Formula.overflows float cell
  end.
Proof.
  intros H. pose proof (map_sepa_on_scale float cell mapping H) as C.
  unfold SepaFeatures.numeric_column, SepaFeatures.numeric_cell.
  destruct (V4DataCleaner._map_sepa_to_numeric float cell mapping 3) as [r|e];
    cbn [PyX.and_then]; [|exact C].
  destruct C as [Hno Hr]. split; [exact Hno|].
  assert (E : ((r <? 1)%Z || (5 <? r)%Z) = false).
  { apply orb_false_iff. split; apply Z.ltb_ge; lia. }
  rewrite E. now exists r.
Qed.

Lemma numeric_column_raises (mapping : V4DataCleaner.Mapping)
  (raw : option V4DataCleaner.Value) (old : option Q) :
  match SepaFeatures.numeric_column float mapping raw old with
  | PyX.Done _ => True
  | PyX.Fail e => e = PyX.OverflowError
  end.
Proof.
  destruct raw as [cell|]; [|exact I].
  pose proof (map_sepa_cases float cell mapping 3) as C.
  unfold SepaFeatures.numeric_column, SepaFeatures.numeric_cell.
  destruct (V4DataCleaner._map_sepa_to_numeric float cell mapping 3) as [r|e];
    cbn [PyX.and_then]; [exact I|apply C].
Qed.

End StandardizeFacts.

(** X11.  [standardize_sepa_features] on a frame that has the three raw
    columns raises [OverflowError] when a cell is an infinite number or
    text that converts to one, and on no other frame; otherwise the
    numeric values are integers of 1..5, the readiness factor lies in
    [[0.75,1.23]] (the clamp to [[0.6,1.3]] never acts) and the SePA
    composite in [[1/3,5/3]].  On a frame with neither the raw nor the
    numeric mood column it raises: [KeyError] at the composite, or
    [OverflowError] from a cell of another column. *)
Theorem standardized_sepa_ranges (float : string -> option PyFloat.t)
  (mood fatigue effort : V4DataCleaner.Value)
  (old_mood old_fatigue old_effort : option Q) :
  match SepaFeatures.standardize_sepa_features
          float (Some mood) (Some fatigue) (Some effort)
          old_mood old_fatigue old_effort with
  | PyX.Fail e =>
      e = PyX.OverflowError
      /\ (Formula.overflows float mood \/ Formula.overflows float fatigue
          \/ Formula.overflows float effort)
  | PyX.Done r =>
      ~ Formula.overflows float mood
      /\ ~ Formula.overflows float fatigue
      /\ ~ Formula.overflows float effort
      /\ (exists m f e : Z,
             (1 <= m <= 5)%Z /\ (1 <= f <= 5)%Z /\ (1 <= e <= 5)%Z
             /\ SepaFeatures.mood_numeric r = inject_Z m
             /\ SepaFeatures.fatigue_numeric r = inject_Z f
             /\ SepaFeatures.effort_numeric r = inject_Z e)
      /\ 0.75 <= SepaFeatures.readiness_factor_v4 r <= 1.23
      /\ 1 # 3 <= SepaFeatures.sepa_composite r <= 5 # 3
  end
  /\ (forall raw_fatigue raw_effort,
         exists e,
           SepaFeatures.standardize_sepa_features
             float None raw_fatigue raw_effort None old_fatigue old_effort
           = PyX.Fail e
           /\ (e = PyX.KeyError \/ e = PyX.OverflowError)).
Proof.
  split.
  - destruct sepa_tables_on_scale as (Tm & Tf & Te).
    pose proof (numeric_column_raw float _ mood old_mood Tm) as Hm.
    pose proof (numeric_column_raw float _ fatigue old_fatigue Tf) as Hf.
    pose proof (numeric_column_raw float _ effort old_effort Te) as He.
    unfold SepaFeatures.standardize_sepa_features.
    destruct (SepaFeatures.numeric_column float V4DataCleaner.SEPA_MAPPINGS_mood
                (Some mood) old_mood) as [cm|em]; cbn [PyX.and_then];
      [|split; [apply Hm|left; apply Hm]].
    destruct (SepaFeatures.numeric_column float V4DataCleaner.SEPA_MAPPINGS_fatigue
                (Some fatigue) old_fatigue) as [cf|ef]; cbn [PyX.and_then];
      [|split; [apply Hf|right; left; apply Hf]].
    destruct (SepaFeatures.numeric_column float V4DataCleaner.SEPA_MAPPINGS_effort
                (Some effort) old_effort) as [ce|ee]; cbn [PyX.and_then];
      [|split; [apply He|right; right; apply He]].
    destruct Hm as [Nm (m & Hm & ->)], Hf as [Nf (f & Hf & ->)],
      He as [Ne (e & He & ->)].
    cbn [SepaFeatures.column PyX.and_then
         SepaFeatures.mood_numeric SepaFeatures.fatigue_numeric
         SepaFeatures.effort_numeric SepaFeatures.readiness_factor_v4
         SepaFeatures.sepa_composite].
    split; [exact Nm|]. split; [exact Nf|]. split; [exact Ne|].
    split; [exists m, f, e; repeat split; lia|].
    apply scale_values in Hm, Hf, He.
    destruct Hm as [->|[->|[->|[->| ->]]]];
      destruct Hf as [->|[->|[->|[->| ->]]]];
      destruct He as [->|[->|[->|[->| ->]]]];
      (split; split; vm_compute; discriminate).
  - intros raw_fatigue raw_effort.
    pose proof (numeric_column_raises float V4DataCleaner.SEPA_MAPPINGS_fatigue
                  raw_fatigue old_fatigue) as Hf.
    pose proof (numeric_column_raises float V4DataCleaner.SEPA_MAPPINGS_effort
                  raw_effort old_effort) as He.
    unfold SepaFeatures.standardize_sepa_features.
    cbn [SepaFeatures.numeric_column PyX.and_then].
    destruct (SepaFeatures.numeric_column float V4DataCleaner.SEPA_MAPPINGS_fatigue
                raw_fatigue old_fatigue) as [cf|ef]; cbn [PyX.and_then];
      [|exists ef; split; [reflexivity|now right]].
    destruct (SepaFeatures.numeric_column float V4DataCleaner.SEPA_MAPPINGS_effort
                raw_effort old_effort) as [ce|ee]; cbn [PyX.and_then];
      [|exists ee; split; [reflexivity|now right]].
    exists PyX.KeyError. split; [reflexivity|now left].
Qed.

(** ** The cleaned frame beyond the claims *)

Section CleanerMore.

Import V4DataCleaner.

Variable float : string -> option Q.

Lemma update_rows_nth_draw (draws : nat -> Q) (data : list Row) (k i : nat)
  (row : Row) :
  nth_error data i = Some row ->
  exists j,
    nth_error (update_rows float draws k data) i
    = Some (match update_row float (draws j) row with
            | Some row' => row'
            | None => row
            end).
Proof.
  revert k i. induction data as [|r more IH]; intros k i H.
  - destruct i; discriminate.
  - destruct i as [|i]; cbn [nth_error] in H.
    + injection H as ->. exists k. cbn [update_rows].
      destruct (update_row float (draws k) row); reflexivity.
    + cbn [update_rows].
      destruct (update_row float (draws k) r); cbn [nth_error]; now apply IH.
Qed.

Lemma update_row_skips (draw : Q) (row : Row) :
  Spec.surviving float (workout_data row) = [] ->
  update_row float draw row = None.
Proof.
  unfold update_row, Spec.surviving.
  destruct (workout_data row) as [w|]; [|reflexivity].
  intros H. destruct (String.eqb w ""); [reflexivity|]. now rewrite H.
Qed.

Lemma cleaner_times (one_rm : option Q) (records : list ExerciseSet) (t : Totals) :
  Forall (fun e => positive_fields e = true) records ->
  total_volume (fold_left (accumulate one_rm) records t)
  == total_volume t + Formula.volume records
  /\ total_exercise_time (fold_left (accumulate one_rm) records t)
     == total_exercise_time t + Formula.work_time records
  /\ total_rest_time (fold_left (accumulate one_rm) records t)
     == total_rest_time t + Formula.rest_time records
  /\ (0 <= total_cardio_intensity t ->
      0 <= total_cardio_intensity (fold_left (accumulate one_rm) records t))
  /\ (0 <= total_resistance_intensity t ->
      0 <= total_resistance_intensity (fold_left (accumulate one_rm) records t)).
Proof.
  intros H. revert t.
  induction H as [|[[reps weight] sets] more Hp _ IH]; intros t.
  - unfold Formula.volume, Formula.work_time, Formula.rest_time, Spec.sumQ.
    cbn [fold_left fold_right]. repeat split; try lra; auto.
  - cbn [fold_left].
    destruct (IH (accumulate one_rm t (reps, weight, sets)))
      as (E1 & E2 & E3 & E4 & E5).
    destruct (formula_cons reps weight sets more) as (F1 & F2 & F3).
    cbv zeta in F1, F2, F3.
    rewrite E1, E2, E3, F1, F2, F3.
    rewrite accumulate_positive in * by exact Hp.
    cbn [total_volume total_exercise_time total_rest_time] in *.
    apply positive_fields_iff in Hp. destruct Hp as (Hr & Hw & Hs).
    repeat split; try lra.
    + intros H0. apply E4. cbn [total_cardio_intensity].
      assert (0 < Py.max 1 sets).
      { unfold Py.max, Py.gtb. destruct (ltb_spec 1 sets); lra. }
      assert (0 <= reps / 30 * (1 / Py.max 1 sets) * sets).
      { apply Qmult_le_0_compat; [apply Qmult_le_0_compat|]; try lra.
        * apply Qle_shift_div_l; lra.
        * apply Qle_shift_div_l; lra. }
      lra.
    + intros H0. apply E5. cbn [total_resistance_intensity].
      set (u := if Py.leb _ 0 then weight * 1.5 else _).
      assert (0 < u).
      { unfold u. destruct (leb_spec (match one_rm with
                                      | Some v => v
                                      | None => weight * 1.5
                                      end) 0); lra. }
      assert (0 <= weight * reps / (u * 10) * sets).
      { apply Qmult_le_0_compat; [|lra].
        apply Qle_shift_div_l; [lra|]. rewrite Qmult_0_l.
        apply Qmult_le_0_compat; lra. }
      lra.
Qed.

(** Every cell that one iteration writes for a row with surviving
    records. *)
Lemma update_row_all_cells (draw : Q) (row : Row) (w : string) :
  workout_data row = Some w ->
  _parse_workout_data float w <> [] ->
  let records := _parse_workout_data float w in
  let t := fold_left (accumulate (estimated_1rm row)) records no_totals in
  let n := Py.max 1 (inject_Z (Z.of_nat (List.length records))) in
  exists row',
    update_row float draw row = Some row'
    /\ resistance_intensity row' = Py.min 2.0 (total_resistance_intensity t / n)
    /\ cardio_intensity row' = Py.min 1.5 (total_cardio_intensity t / n)
    /\ volume_load row' = Py.min 1.0 (total_volume t / 10000)
    /\ rest_density row'
       = total_rest_time t / (total_exercise_time t + total_rest_time t)
    /\ tempo_factor row' = Py.clip draw 0.5 1.5
    /\ metabolic_stress row'
       = Py.min 2.0 (total_resistance_intensity t / n) * 0.6
         + Py.min 1.5 (total_cardio_intensity t / n) * 0.4.
Proof.
  intros Hw Hne. cbv zeta.
  unfold update_row. rewrite Hw.
  destruct (String.eqb w "") eqn:Ew.
  { apply String.eqb_eq in Ew. subst w. exfalso. apply Hne. reflexivity. }
  pose proof (parse_positive float w) as Hpos.
  destruct (_parse_workout_data float w) as [|e more] eqn:Er; [congruence|].
  set (records := e :: more) in *.
  set (t := fold_left (accumulate (estimated_1rm row)) records no_totals).
  destruct (cleaner_times (estimated_1rm row) records no_totals Hpos)
    as (E1 & E2 & _ & _ & _).
  fold t in E1, E2. cbn [total_volume total_exercise_time no_totals] in E1, E2.
  destruct (times_positive records Hpos Hne) as (Hwk & _ & Hv).
  assert (Ev : Py.gtb (total_volume t) 0 = true).
  { unfold Py.gtb. destruct (ltb_spec 0 (total_volume t)); [reflexivity|lra]. }
  assert (Ex : Py.gtb (total_exercise_time t) 0 = true).
  { unfold Py.gtb. destruct (ltb_spec 0 (total_exercise_time t));
      [reflexivity|lra]. }
  rewrite Ev, Ex.
  eexists. repeat split; reflexivity.
Qed.

End CleanerMore.

(** X12.  A fresh row without surviving records (missing, empty or
    unusable workout string) comes out of
    [calculate_intensity_coefficients] with resistance 0.1 and tempo
    factor 0.5, the lower ends of their ranges, and with cardio, volume
    load, rest density and metabolic stress 0. *)
Theorem row_without_records (float : string -> option Q) (draws : nat -> Q)
  (data : list V4DataCleaner.Row) (i : nat) (workout : option string)
  (one_rm : option Q) :
  nth_error data i = Some (V4DataCleaner.fresh workout one_rm) ->
  Spec.surviving float workout = [] ->
  exists row',
    nth_error
      (fst (V4DataCleaner.calculate_intensity_coefficients float draws data)) i
    = Some row'
    /\ V4DataCleaner.resistance_intensity row' == 0.1
    /\ V4DataCleaner.cardio_intensity row' == 0
    /\ V4DataCleaner.volume_load row' == 0
    /\ V4DataCleaner.rest_density row' == 0
    /\ V4DataCleaner.tempo_factor row' == 0.5
    /\ V4DataCleaner.metabolic_stress row' == 0.
Proof.
  intros Hi Hs.
  destruct (update_rows_nth float draws data 0 i _ Hi) as [draw Hn].
  rewrite update_row_skips in Hn by exact Hs.
  unfold V4DataCleaner.calculate_intensity_coefficients.
  rewrite validate_eq. cbn [fst].
  exists (Spec.clip_row (V4DataCleaner.fresh workout one_rm)). split.
  - now rewrite nth_error_map, Hn.
  - repeat split; reflexivity.
Qed.

Lemma row_without_records_witness :
  exists row',
    nth_error
      (fst (V4DataCleaner.calculate_intensity_coefficients Str.float (fun _ => 1)
              [V4DataCleaner.fresh (Some "0x50x3"%string) None])) 0
    = Some row'
    /\ V4DataCleaner.resistance_intensity row' == 0.1.
Proof.
  destruct (row_without_records Str.float (fun _ => 1)
              [V4DataCleaner.fresh (Some "0x50x3"%string) None] 0%nat
              (Some "0x50x3"%string) None eq_refl eq_refl)
    as (row' & Hn & Hr & _).
  exists row'. split; assumption.
Defined.


(** ** Finite fields: the two models of the cleaner agree *)

Section FiniteFrame.

Variable floatF : string -> option PyFloat.t.

#[local] Abbreviation float := (Formula.finite_part floatF).













End FiniteFrame.







(** X14.  The metabolic stress of a row with surviving records is
    computed before the validation step: it is at least 0, at most
    [0.6 * resistance + 0.4 * cardio] of the returned row, and equal to it
    whenever the returned resistance is above 0.1. *)
Theorem metabolic_stress_before_validation (float : string -> option Q)
  (draws : nat -> Q) (data : list V4DataCleaner.Row) (i : nat)
  (row : V4DataCleaner.Row) (w : string) :
  nth_error data i = Some row ->
  V4DataCleaner.workout_data row = Some w ->
  V4DataCleaner._parse_workout_data float w <> [] ->
  exists row',
    nth_error
      (fst (V4DataCleaner.calculate_intensity_coefficients float draws data)) i
    = Some row'
    /\ 0 <= V4DataCleaner.cardio_intensity row' * 0.4
            <= V4DataCleaner.metabolic_stress row'
    /\ V4DataCleaner.metabolic_stress row'
       <= V4DataCleaner.resistance_intensity row' * 0.6
          + V4DataCleaner.cardio_intensity row' * 0.4
    /\ (0.1 < V4DataCleaner.resistance_intensity row' ->
        V4DataCleaner.metabolic_stress row'
        == V4DataCleaner.resistance_intensity row' * 0.6
           + V4DataCleaner.cardio_intensity row' * 0.4).
Proof.
  intros Hi Hw Hne.
  destruct (update_rows_nth_draw float draws data 0 i _ Hi) as [j Hn].
  destruct (update_row_all_cells float (draws j) row w Hw Hne)
    as (row1 & Hu & Hr & Hc & _ & _ & _ & Hm).
  rewrite Hu in Hn.
  pose proof (parse_positive float w) as Hpos.
  destruct (cleaner_times (V4DataCleaner.estimated_1rm row) _
              V4DataCleaner.no_totals Hpos) as (_ & _ & _ & Hcard & Hres).
  specialize (Hcard ltac:(cbn; lra)). specialize (Hres ltac:(cbn; lra)).
  unfold V4DataCleaner.calculate_intensity_coefficients.
  rewrite validate_eq. cbn [fst].
  exists (Spec.clip_row row1). split; [now rewrite nth_error_map, Hn|].
  cbn [Spec.clip_row V4DataCleaner.resistance_intensity
       V4DataCleaner.cardio_intensity V4DataCleaner.metabolic_stress].
  rewrite Hm, Hr, Hc. clear Hm Hr Hc Hu Hn.
  set (n := Py.max 1 (inject_Z (Z.of_nat (List.length
                (V4DataCleaner._parse_workout_data float w))))) in *.
  assert (Hn1 : 0 < n).
  { unfold n, Py.max, Py.gtb.
    destruct (ltb_spec 1 (inject_Z (Z.of_nat (List.length
                (V4DataCleaner._parse_workout_data float w))))); lra. }
  match goal with
  | |- context [Py.min 2.0 (?r / n)] =>
      assert (HR : 0 <= r / n) by (apply Qle_shift_div_l; [exact Hn1|lra]);
      set (R := r / n) in *
  end.
  match goal with
  | |- context [Py.min 1.5 (?c / n)] =>
      assert (HC : 0 <= c / n) by (apply Qle_shift_div_l; [exact Hn1|lra]);
      set (C := c / n) in *
  end.
  clearbody R C.
  destruct (min_cases 2.0 R) as [[? ->]|[? ->]];
    destruct (min_cases 1.5 C) as [[? ->]|[? ->]];
    match goal with
    | |- context [Py.clip ?a 0.1 2.0] =>
        destruct (clip_cases a 0.1 2.0)
          as [(?&?&->)|[(?&?&->)|[(?&?&->)|(?&?&->)]]]
    end;
    match goal with
    | |- context [Py.clip ?a 0.0 1.5] =>
        destruct (clip_cases a 0.0 1.5)
          as [(?&?&->)|[(?&?&->)|[(?&?&->)|(?&?&->)]]]
    end; repeat split; intros; lra.
Qed.

Lemma metabolic_stress_before_validation_witness :
  exists row',
    nth_error
      (fst (V4DataCleaner.calculate_intensity_coefficients Str.float (fun _ => 1)
              [V4DataCleaner.fresh (Some "1x1x1"%string) (Some 100)])) 0
    = Some row'
    /\ V4DataCleaner.metabolic_stress row'
       <= V4DataCleaner.resistance_intensity row' * 0.6
          + V4DataCleaner.cardio_intensity row' * 0.4.
Proof.
  destruct (metabolic_stress_before_validation Str.float (fun _ => 1)
              [V4DataCleaner.fresh (Some "1x1x1"%string) (Some 100)] 0%nat
              (V4DataCleaner.fresh (Some "1x1x1"%string) (Some 100))
              "1x1x1"%string eq_refl eq_refl ltac:(discriminate))
    as (row' & Hn & _ & Hle & _).
  exists row'. split; assumption.
Defined.

(** ** More on the workout decoder *)

Section DecoderMore.

Import V4ModelEvaluator.

Lemma round_half_even_monotone (x y : Q) :
  x <= y -> (Py.round_half_even x <= Py.round_half_even y)%Z.
Proof.
  intros Hxy.
  pose proof (Qfloor_resp_le _ _ Hxy) as Hf.
  destruct (Qfloor_bounds x) as [Hx1 Hx2], (Qfloor_bounds y) as [Hy1 Hy2].
  destruct (Z.eq_dec (Qfloor x) (Qfloor y)) as [E|NE].
  - unfold Py.round_half_even, Py.gtb. rewrite <- E.
    destruct (ltb_spec (x - inject_Z (Qfloor x)) (1 # 2));
      destruct (ltb_spec (y - inject_Z (Qfloor x)) (1 # 2));
      destruct (ltb_spec (1 # 2) (x - inject_Z (Qfloor x)));
      destruct (ltb_spec (1 # 2) (y - inject_Z (Qfloor x)));
      destruct (Z.even (Qfloor x)); try lia; lra.
  - destruct (round_half_even_near x) as [[-> _]|[-> _]];
      destruct (round_half_even_near y) as [[-> _]|[-> _]]; lia.
Qed.

Lemma round_monotone (x y : Q) (ndigits : nat) :
  x <= y -> Py.round x ndigits <= Py.round y ndigits.
Proof.
  intros Hxy. unfold Py.round.
  set (scale := inject_Z (10 ^ Z.of_nat ndigits)).
  assert (Hs : 0 < scale).
  { unfold scale. replace 0 with (inject_Z 0) by reflexivity.
    rewrite <- Zlt_Qlt. apply Z.pow_pos_nonneg; lia. }
  assert (Hm : x * scale <= y * scale) by (apply Qmult_le_compat_r; lra).
  apply round_half_even_monotone in Hm. rewrite Zle_Qle in Hm.
  apply Qle_shift_div_l; [exact Hs|].
  unfold Qdiv. rewrite <- Qmult_assoc, (Qmult_comm (/ scale)).
  rewrite Qmult_inv_r by lra. lra.
Qed.

Lemma midpoint_between (x y : Q) : x <= y -> x <= (x + y) / 2 <= y.
Proof.
  intros H. assert (E : (x + y) / 2 == (x + y) * (1 # 2)) by field.
  rewrite E. lra.
Qed.

End DecoderMore.

(** X15.  Whatever the goal text and the readiness factor, the
    repetitions, sets and rest that [decode_intensity_to_workout]
    recommends lie inside the ranges it reports next to them, and
    inside 3..30 repetitions, 1..5 sets and 0.5..5 minutes of rest. *)
Theorem decoded_recommendations_within_ranges (predicted_1rm : Q)
  (goal : string) (readiness_factor : Q) :
  let w := V4ModelEvaluator.decode_intensity_to_workout
             predicted_1rm goal readiness_factor in
  let reps := V4ModelEvaluator.reps w in
  let sets := V4ModelEvaluator.sets w in
  let rest := V4ModelEvaluator.rest_minutes w in
  (V4ModelEvaluator.min reps <= V4ModelEvaluator.recommended reps
   <= V4ModelEvaluator.max reps)%Z
  /\ (V4ModelEvaluator.min sets <= V4ModelEvaluator.recommended sets
      <= V4ModelEvaluator.max sets)%Z
  /\ V4ModelEvaluator.min rest <= V4ModelEvaluator.recommended rest
     <= V4ModelEvaluator.max rest
  /\ (3 <= V4ModelEvaluator.recommended reps <= 30)%Z
  /\ (1 <= V4ModelEvaluator.recommended sets <= 5)%Z
  /\ 0.5 <= V4ModelEvaluator.recommended rest <= 5.
Proof.
  cbv zeta. unfold V4ModelEvaluator.decode_intensity_to_workout,
    V4ModelEvaluator.decode_intensity_to_workout_with.
  pose proof (decoder_lookup goal) as L. cbv zeta in L. rewrite L. clear L.
  pose proof (rules_of_table goal) as T.
  cbn [map snd WORKOUT_GOAL_MAPPING_V4 In] in T.
  destruct T as [<-|[<-|[<-|[<-|[]]]]];
    cbn [Goal.intensity_percent Goal.rep_range Goal.sets_range
         Goal.rest_minutes general_fitness_rules];
    (destruct (Py.gtb readiness_factor 1.1);
     [|destruct (Py.ltb readiness_factor 0.9)]);
    cbn [V4ModelEvaluator.reps V4ModelEvaluator.sets
         V4ModelEvaluator.rest_minutes V4ModelEvaluator.min
         V4ModelEvaluator.max V4ModelEvaluator.recommended];
    vm_compute; intuition discriminate.
Qed.

(** X16.  For a non-negative adjusted 1RM the three training weights
    are ordered: minimum, then the recommended weight, then the
    maximum; rounding to two decimals keeps the order. *)
Theorem decoded_weights_ordered (predicted_1rm : Q) (goal : string)
  (readiness_factor : Q) :
  0 <= predicted_1rm * readiness_factor ->
  let weight :=
    V4ModelEvaluator.training_weight_kg
      (V4ModelEvaluator.decode_intensity_to_workout
         predicted_1rm goal readiness_factor) in
  0 <= V4ModelEvaluator.min weight
  /\ V4ModelEvaluator.min weight <= V4ModelEvaluator.recommended weight
  /\ V4ModelEvaluator.recommended weight <= V4ModelEvaluator.max weight.
Proof.
  intros Ha. cbv zeta.
  unfold V4ModelEvaluator.decode_intensity_to_workout,
    V4ModelEvaluator.decode_intensity_to_workout_with.
  pose proof (decoder_lookup goal) as L. cbv zeta in L. rewrite L. clear L.
  pose proof (rules_of_table goal) as T.
  cbn [map snd WORKOUT_GOAL_MAPPING_V4 In] in T.
  set (a := predicted_1rm * readiness_factor) in *. clearbody a.
  assert (R0 : Py.round 0 2 == 0) by (vm_compute; reflexivity).
  destruct T as [<-|[<-|[<-|[<-|[]]]]];
    cbn [Goal.intensity_percent Goal.rep_range Goal.sets_range
         Goal.rest_minutes general_fitness_rules];
    (destruct (Py.gtb readiness_factor 1.1);
     [|destruct (Py.ltb readiness_factor 0.9)]);
    cbn [V4ModelEvaluator.training_weight_kg V4ModelEvaluator.min
         V4ModelEvaluator.max V4ModelEvaluator.recommended];
    (split; [rewrite <- R0; apply round_monotone; clear R0; lra
            |split; apply round_monotone; apply midpoint_between;
             clear R0; lra]).
Qed.

Lemma decoded_weights_ordered_witness :
  V4ModelEvaluator.min
    (V4ModelEvaluator.training_weight_kg
       (V4ModelEvaluator.decode_intensity_to_workout 100 "strength" 1.2))
  <= V4ModelEvaluator.recommended
       (V4ModelEvaluator.training_weight_kg
          (V4ModelEvaluator.decode_intensity_to_workout 100 "strength" 1.2)).
Proof.
  refine (proj1 (proj2 (decoded_weights_ordered 100 "strength" 1.2 _))).
  vm_compute. discriminate.
Defined.

(** ** Workout quality and score distribution *)

Section QualityFacts.

Import Evaluation.

Lemma div_nonzero (x y : Q) : ~ y == 0 -> PyX.div x y = PyX.Done (x / y).
Proof.
  intros H. unfold PyX.div.
  destruct (Qeq_bool y 0) eqn:E; [|reflexivity].
  apply Qeq_bool_iff in E. contradiction.
Qed.

Lemma indicator_cases (b : bool) :
  (b = true /\ PyX.indicator b = 1) \/ (b = false /\ PyX.indicator b = 0).
Proof. destruct b; auto. Qed.

Lemma max_zero_bounds (x : Q) : x <= 1 -> 0 <= Py.max 0 x <= 1.
Proof.
  intros H. unfold Py.max, Py.gtb. destruct (ltb_spec 0 x); lra.
Qed.

Lemma same_goal_names (goal : string) :
  dict_get WORKOUT_GOAL_MAPPING_V4 goal = None ->
  dict_get expected_intensity goal = None.
Proof.
  cbn [dict_get WORKOUT_GOAL_MAPPING_V4 expected_intensity].
  repeat match goal with
         | |- context [String.eqb ?a ?b] => destruct (String.eqb a b)
         end; intros; try discriminate; reflexivity.
Qed.

(** The result of the evaluation when no step raises. *)
Lemma quality_outcome (w : V4ModelEvaluator.Workout) (goal : string)
  (suitability_score readiness_factor expected : Q) :
  dict_get expected_intensity goal = Some expected ->
  ~ V4ModelEvaluator.predicted_1rm w == 0 ->
  ~ V4ModelEvaluator.adjusted_1rm w == 0 ->
  exists q alignment ready consistent,
    _evaluate_workout_quality w goal suitability_score readiness_factor
    = PyX.Done q
    /\ suitability_alignment_score q = PyX.indicator alignment
    /\ readiness_appropriateness_score q = PyX.indicator ready
    /\ goal_consistency_score q = Py.max 0 consistent
    /\ consistent <= 1
    /\ parameter_reasonableness_score q
       = ((3 <=? V4ModelEvaluator.recommended (V4ModelEvaluator.reps w))%Z
          && (V4ModelEvaluator.recommended (V4ModelEvaluator.reps w) <=? 30)%Z
          && ((1 <=? V4ModelEvaluator.recommended (V4ModelEvaluator.sets w))%Z
              && (V4ModelEvaluator.recommended (V4ModelEvaluator.sets w) <=? 6)%Z)
          && (Py.leb 0.5 (V4ModelEvaluator.recommended
                            (V4ModelEvaluator.rest_minutes w))
              && Py.leb (V4ModelEvaluator.recommended
                           (V4ModelEvaluator.rest_minutes w)) 5))
    /\ overall_score q
       = 0 + PyX.indicator alignment * 0.3 + PyX.indicator ready * 0.25
         + Py.max 0 consistent * 0.25
         + PyX.indicator (parameter_reasonableness_score q) * 0.2
    /\ is_appropriate q = Py.geb (overall_score q) 0.7.
Proof.
  intros Hg Hp Ha. unfold _evaluate_workout_quality, item.
  rewrite Hg. rewrite !(div_nonzero _ _ Hp), (div_nonzero _ _ Ha).
  set (ratio := V4ModelEvaluator.recommended
                  (V4ModelEvaluator.training_weight_kg w)
                / V4ModelEvaluator.predicted_1rm w).
  set (actual := V4ModelEvaluator.recommended
                   (V4ModelEvaluator.training_weight_kg w)
                 / V4ModelEvaluator.adjusted_1rm w).
  assert (Hc : 1 - Qabs (actual - expected) <= 1).
  { pose proof (Qabs_nonneg (actual - expected)). lra. }
  destruct (Py.gtb readiness_factor 1.1);
    [|destruct (Py.ltb readiness_factor 0.9)];
    cbn [PyX.and_then]; eexists; eexists; eexists; eexists;
    (split; [reflexivity|]);
    cbn [suitability_alignment_score readiness_appropriateness_score
         goal_consistency_score parameter_reasonableness_score overall_score
         is_appropriate];
    repeat split; try reflexivity; try exact Hc.
Qed.

Lemma decode_predicted (predicted_1rm : Q) (goal : string)
  (readiness_factor : Q) :
  V4ModelEvaluator.predicted_1rm
    (V4ModelEvaluator.decode_intensity_to_workout
       predicted_1rm goal readiness_factor)
  = Py.round predicted_1rm 2.
Proof.
  unfold V4ModelEvaluator.decode_intensity_to_workout,
    V4ModelEvaluator.decode_intensity_to_workout_with.
  pose proof (decoder_lookup goal) as L. cbv zeta in L. rewrite L. clear L.
  destruct (Spec.rules_of goal)
    as [[imin imax] [rmin rmax] [smin smax] [restmin restmax] d tr].
  cbn [Goal.intensity_percent Goal.rep_range Goal.sets_range Goal.rest_minutes].
  destruct (Py.gtb readiness_factor 1.1);
    [|destruct (Py.ltb readiness_factor 0.9)]; reflexivity.
Qed.

End QualityFacts.

(** X17.  When the goal is one of the four names of the evaluator's
    table and neither 1RM of the workout is zero,
    [_evaluate_workout_quality] returns: the suitability and readiness
    scores are 0 or 1, the goal consistency lies in [[0,1]], the overall
    score is [0.3, 0.25, 0.25, 0.2] times the four scores, lies in
    [[0,1]], and the workout is marked appropriate exactly when the
    overall score is at least 0.7. *)
Theorem workout_quality_scores (w : V4ModelEvaluator.Workout) (goal : string)
  (suitability_score readiness_factor : Q) :
  dict_get Evaluation.expected_intensity goal <> None ->
  ~ V4ModelEvaluator.predicted_1rm w == 0 ->
  ~ V4ModelEvaluator.adjusted_1rm w == 0 ->
  exists q,
    Evaluation._evaluate_workout_quality w goal suitability_score
                                         readiness_factor = PyX.Done q
    /\ (Evaluation.suitability_alignment_score q = 0
        \/ Evaluation.suitability_alignment_score q = 1)
    /\ (Evaluation.readiness_appropriateness_score q = 0
        \/ Evaluation.readiness_appropriateness_score q = 1)
    /\ Formula.unit_interval (Evaluation.goal_consistency_score q)
    /\ Evaluation.overall_score q
       == Evaluation.suitability_alignment_score q * 0.3
          + Evaluation.readiness_appropriateness_score q * 0.25
          + Evaluation.goal_consistency_score q * 0.25
          + PyX.indicator (Evaluation.parameter_reasonableness_score q) * 0.2
    /\ Formula.unit_interval (Evaluation.overall_score q)
    /\ (Evaluation.is_appropriate q = true
        <-> 0.7 <= Evaluation.overall_score q).
Proof.
  intros Hg Hp Ha.
  destruct (dict_get Evaluation.expected_intensity goal) as [expected|] eqn:E;
    [clear Hg|contradiction].
  destruct (quality_outcome w goal suitability_score readiness_factor expected
              E Hp Ha)
    as (q & a & b & c & -> & Ea & Eb & Ec & Hc & _ & Eo & Ei).
  exists q. split; [reflexivity|].
  rewrite Ei, Eo, Ea, Eb, Ec.
  pose proof (max_zero_bounds c Hc) as Hm.
  unfold Formula.unit_interval.
  assert (Hgeb : forall x, Py.geb x 0.7 = true <-> 0.7 <= x).
  { intros x. unfold Py.geb. destruct (leb_spec 0.7 x); split; intros;
      try reflexivity; try assumption; try discriminate; lra. }
  rewrite Hgeb.
  destruct (indicator_cases a) as [[_ ->]|[_ ->]];
    destruct (indicator_cases b) as [[_ ->]|[_ ->]];
    destruct (indicator_cases (Evaluation.parameter_reasonableness_score q))
      as [[_ ->]|[_ ->]];
    repeat split; auto; try lra; intros; lra.
Qed.

Lemma workout_quality_scores_witness :
  exists q,
    Evaluation._evaluate_workout_quality
      (V4ModelEvaluator.decode_intensity_to_workout 100 "strength" 1.2)
      "strength" 0.8 1.2 = PyX.Done q
    /\ Formula.unit_interval (Evaluation.overall_score q).
Proof.
  destruct (workout_quality_scores
              (V4ModelEvaluator.decode_intensity_to_workout 100 "strength" 1.2)
              "strength" 0.8 1.2)
    as (q & Hq & _ & _ & _ & _ & Hu & _).
  - vm_compute. discriminate.
  - vm_compute. discriminate.
  - vm_compute. discriminate.
  - exists q. split; assumption.
Defined.

(** X18.  A workout produced by [decode_intensity_to_workout] always
    passes the parameter check of [_evaluate_workout_quality], so its
    overall quality is at least 0.2; this holds for each of the four
    goals whenever the rounded 1RM values are not zero. *)
Theorem decoded_workout_passes_parameter_check (predicted_1rm : Q)
  (goal : string) (suitability_score readiness_factor : Q) :
  dict_get Evaluation.expected_intensity goal <> None ->
  ~ Py.round predicted_1rm 2 == 0 ->
  ~ Py.round (predicted_1rm * readiness_factor) 2 == 0 ->
  exists q,
    Evaluation._evaluate_workout_quality
      (V4ModelEvaluator.decode_intensity_to_workout
         predicted_1rm goal readiness_factor)
      goal suitability_score readiness_factor = PyX.Done q
    /\ Evaluation.parameter_reasonableness_score q = true
    /\ 0.2 <= Evaluation.overall_score q.
Proof.
  intros Hg Hp Ha.
  destruct (dict_get Evaluation.expected_intensity goal) as [expected|] eqn:E;
    [clear Hg|contradiction].
  set (w := V4ModelEvaluator.decode_intensity_to_workout
              predicted_1rm goal readiness_factor).
  assert (Hp' : ~ V4ModelEvaluator.predicted_1rm w == 0).
  { unfold w. rewrite decode_predicted. exact Hp. }
  assert (Ha' : ~ V4ModelEvaluator.adjusted_1rm w == 0).
  { destruct (decode_fields predicted_1rm goal readiness_factor) as (Ew & _).
    fold w in Ew. rewrite Ew. exact Ha. }
  destruct (quality_outcome w goal suitability_score readiness_factor expected
              E Hp' Ha')
    as (q & a & b & c & Hq & _ & _ & _ & Hc & Er & Eo & _).
  exists q. split; [exact Hq|].
  assert (Hr : Evaluation.parameter_reasonableness_score q = true).
  { rewrite Er. unfold w, V4ModelEvaluator.decode_intensity_to_workout,
      V4ModelEvaluator.decode_intensity_to_workout_with.
    pose proof (decoder_lookup goal) as L. cbv zeta in L. rewrite L. clear L.
    pose proof (rules_of_table goal) as T.
    cbn [map snd WORKOUT_GOAL_MAPPING_V4 In] in T.
    destruct T as [<-|[<-|[<-|[<-|[]]]]];
      cbn [Goal.intensity_percent Goal.rep_range Goal.sets_range
           Goal.rest_minutes general_fitness_rules];
      (destruct (Py.gtb readiness_factor 1.1);
       [|destruct (Py.ltb readiness_factor 0.9)]);
      cbn [V4ModelEvaluator.reps V4ModelEvaluator.sets
           V4ModelEvaluator.rest_minutes V4ModelEvaluator.recommended];
      vm_compute; reflexivity. }
  split; [exact Hr|].
  rewrite Eo, Hr. pose proof (max_zero_bounds c Hc).
  destruct (indicator_cases a) as [[_ ->]|[_ ->]];
    destruct (indicator_cases b) as [[_ ->]|[_ ->]];
    cbn [PyX.indicator]; lra.
Qed.

Lemma decoded_workout_passes_parameter_check_witness :
  exists q,
    Evaluation._evaluate_workout_quality
      (V4ModelEvaluator.decode_intensity_to_workout 100 "endurance" (4 # 5))
      "endurance" 0.5 (4 # 5) = PyX.Done q
    /\ Evaluation.parameter_reasonableness_score q = true
    /\ 0.2 <= Evaluation.overall_score q.
Proof.
  apply (decoded_workout_passes_parameter_check 100 "endurance" 0.5 (4 # 5)).
  - vm_compute. discriminate.
  - vm_compute. discriminate.
  - vm_compute. discriminate.
Defined.

(** X19.  A goal text outside the four names is accepted by the
    decoder, which falls back to the general-fitness rules, but the
    quality evaluation of that workout under the same goal text never
    returns: it raises. *)
Theorem unknown_goal_decodes_but_is_not_evaluated (predicted_1rm : Q)
  (goal : string) (suitability_score readiness_factor : Q) :
  dict_get WORKOUT_GOAL_MAPPING_V4 goal = None ->
  let w := V4ModelEvaluator.decode_intensity_to_workout
             predicted_1rm goal readiness_factor in
  V4ModelEvaluator.goal w = "general_fitness"%string
  /\ V4ModelEvaluator.description w
     = Goal.description general_fitness_rules
  /\ exists e,
      Evaluation._evaluate_workout_quality w goal suitability_score
                                           readiness_factor = PyX.Fail e
      /\ (e = PyX.KeyError \/ e = PyX.ZeroDivisionError).
Proof.
  intros Hg. cbv zeta.
  pose proof (same_goal_names goal Hg) as He.
  split; [|split].
  - unfold V4ModelEvaluator.decode_intensity_to_workout,
    V4ModelEvaluator.decode_intensity_to_workout_with. rewrite Hg.
    cbn. destruct (Py.gtb readiness_factor 1.1);
      [|destruct (Py.ltb readiness_factor 0.9)]; reflexivity.
  - unfold V4ModelEvaluator.decode_intensity_to_workout,
    V4ModelEvaluator.decode_intensity_to_workout_with. rewrite Hg.
    cbn. destruct (Py.gtb readiness_factor 1.1);
      [|destruct (Py.ltb readiness_factor 0.9)]; reflexivity.
  - unfold Evaluation._evaluate_workout_quality, Evaluation.item.
    rewrite He. unfold PyX.div.
    set (w := V4ModelEvaluator.decode_intensity_to_workout _ _ _).
    destruct (Py.gtb readiness_factor 1.1);
      [|destruct (Py.ltb readiness_factor 0.9)];
      destruct (Qeq_bool (V4ModelEvaluator.predicted_1rm w) 0);
      destruct (Qeq_bool (V4ModelEvaluator.adjusted_1rm w) 0);
      cbn [PyX.and_then]; eauto.
Qed.

Lemma unknown_goal_decodes_but_is_not_evaluated_witness :
  exists e,
    Evaluation._evaluate_workout_quality
      (V4ModelEvaluator.decode_intensity_to_workout 100 "cardio" 1)
      "cardio" 0.8 1 = PyX.Fail e
    /\ (e = PyX.KeyError \/ e = PyX.ZeroDivisionError).
Proof.
  apply (unknown_goal_decodes_but_is_not_evaluated 100 "cardio" 0.8 1).
  reflexivity.
Defined.

(** ** Score distribution *)

Section DistributionFacts.

Import Evaluation.

Lemma increment_map (cats : list string) (f : string -> Q) (c : string) :
  NoDup cats ->
  increment (map (fun k => (k, f k)) cats) c
  = map (fun k => (k, if String.eqb k c then f k + 1 else f k)) cats.
Proof.
  induction 1 as [|k cats Hk _ IH]; [reflexivity|].
  cbn [map increment]. destruct (String.eqb k c) eqn:E.
  - apply String.eqb_eq in E. subst c. f_equal.
    apply map_ext_in. intros k' Hin.
    destruct (String.eqb k' k) eqn:E'; [|reflexivity].
    apply String.eqb_eq in E'. subst k'. contradiction.
  - now rewrite IH.
Qed.

Lemma counting_loop (cats : list string) (scores : list Q) (f : string -> Q) :
  NoDup cats ->
  fold_left
    (fun distribution score =>
       increment distribution
                 (fst (fst (SuitabilityClassifier.get_score_range score))))
    scores (map (fun k => (k, f k)) cats)
  = map (fun k => (k, Formula.tally k scores (f k))) cats.
Proof.
  intros Hn. revert f. induction scores as [|s scores IH]; intros f.
  - reflexivity.
  - cbn [fold_left]. rewrite increment_map by exact Hn.
    exact (IH (fun k => if String.eqb k (Formula.category s)
                        then f k + 1 else f k)).
Qed.

Lemma count_cons {A : Type} (x : A) (l : list A) :
  Spec.count (x :: l) == Spec.count l + 1.
Proof.
  unfold Spec.count. cbn [List.length]. rewrite Nat2Z.inj_succ.
  unfold Z.succ. rewrite inject_Z_plus. reflexivity.
Qed.

Lemma tally_count (k : string) (scores : list Q) (init : Q) :
  Formula.tally k scores init
  == init + Spec.count
              (filter (fun score => String.eqb k (Formula.category score))
                      scores).
Proof.
  unfold Formula.tally. revert init. induction scores as [|s scores IH]; intros init.
  - change (init == init + 0). lra.
  - cbn [fold_left filter].
    destruct (String.eqb k (Formula.category s)); rewrite IH.
    + rewrite count_cons. lra.
    + reflexivity.
Qed.

Lemma to_percent_map (cats : list string) (g : string -> Q) (total : Z) :
  total <> 0%Z ->
  to_percent (map (fun k => (k, g k)) cats) total
  = PyX.Done (map (fun k => (k, g k / inject_Z total * 100)) cats).
Proof.
  intros Ht. induction cats as [|k cats IH]; [reflexivity|].
  cbn [map to_percent]. unfold PyX.div.
  destruct (Qeq_bool (inject_Z total) 0) eqn:E.
  - apply Qeq_bool_iff in E. unfold Qeq in E. cbn in E. lia.
  - cbn [PyX.and_then]. rewrite IH. reflexivity.
Qed.

Lemma categories_distinct : NoDup categories.
Proof.
  unfold categories.
  repeat (constructor; [cbn; intuition discriminate|]). constructor.
Qed.

(** Every score is counted in exactly one category. *)
Lemma categories_partition (scores : list Q) :
  Spec.sumQ
    (fun k => Spec.count
                (filter (fun score => String.eqb k (Formula.category score))
                        scores))
    categories
  == Spec.count scores.
Proof.
  induction scores as [|s scores IH].
  - vm_compute. reflexivity.
  - rewrite count_cons, <- IH. clear IH.
    unfold Spec.sumQ, categories. cbn [fold_right filter].
    unfold Formula.category, SuitabilityClassifier.get_score_range.
    py_cases; cbn [fst String.eqb Ascii.eqb Bool.eqb andb];
      rewrite ?count_cons; lra.
Qed.

End DistributionFacts.

(** X20.  [calculate_score_distribution] raises [ZeroDivisionError] on
    an empty array of scores.  Otherwise it returns the six categories
    in the order Perfect Fit .. Ineffective, each with the percentage of
    the scores that [get_score_range] puts in it, and the six
    percentages add up to 100. *)
Theorem score_distribution_percentages (scores : list Q) :
  match scores with
  | [] => Evaluation.calculate_score_distribution scores
          = PyX.Fail PyX.ZeroDivisionError
  | _ :: _ =>
      exists distribution,
        Evaluation.calculate_score_distribution scores = PyX.Done distribution
        /\ Forall2 (fun cat entry =>
                      fst entry = cat
                      /\ snd entry == Formula.share cat scores)
                   Evaluation.categories distribution
        /\ Spec.sumQ snd distribution == 100
  end.
Proof.
  destruct scores as [|s more]; [reflexivity|].
  set (scores := s :: more).
  assert (Hn : Z.of_nat (List.length scores) <> 0%Z) by (cbn; lia).
  assert (Hq : ~ Spec.count scores == 0).
  { unfold Spec.count, Qeq. cbn. lia. }
  unfold Evaluation.calculate_score_distribution, Evaluation.count_categories.
  rewrite (counting_loop Evaluation.categories scores (fun _ => 0)
             categories_distinct).
  rewrite (to_percent_map Evaluation.categories _ _ Hn).
  eexists. split; [reflexivity|]. split.
  - unfold Evaluation.categories. cbn [map].
    repeat (constructor;
            [split; [reflexivity|];
             cbn [snd]; unfold Formula.share; rewrite tally_count;
             fold (Spec.count scores); field; exact Hq|]).
    constructor.
  - pose proof (categories_partition scores) as P.
    unfold Evaluation.categories in *. cbn [map].
    unfold Spec.sumQ in *. cbn [fold_right snd] in *.
    rewrite !tally_count. fold (Spec.count scores).
    set (n := Spec.count scores) in *.
    repeat match goal with
           | H : context [Spec.count (filter ?f scores)] |- _ =>
               let c := fresh "c" in
               set (c := Spec.count (filter f scores)) in *; clearbody c
           end.
    clearbody n.
    assert (E : (c + (c0 + (c1 + (c2 + (c3 + (c4 + 0)))))) / n * 100 == 100).
    { rewrite P. field. exact Hq. }
    etransitivity; [|exact E]. field. exact Hq.
Qed.

(** ** The feature vector of the recommendation service *)

Section FeatureFacts.

Import RecommendationV4.

Lemma square_zero (h : Q) : Qeq_bool (h / 100 * (h / 100)) 0 = true <-> h == 0.
Proof.
  rewrite Qeq_bool_iff. split; intros H.
  - assert (E : h / 100 * (h / 100) == h * h * (1 # 10000)) by field.
    rewrite E in H.
    destruct (Q_dec h 0) as [[Hlt|Hgt]|Heq]; [| |exact Heq].
    + assert (0 < (- h) * (- h)) by (apply Qmult_lt_0_compat; lra).
      assert (E' : (- h) * (- h) == h * h) by ring. lra.
    + assert (0 < h * h) by (apply Qmult_lt_0_compat; lra). lra.
  - rewrite H. reflexivity.
Qed.

Lemma reserve_share (rhr max_hr : Q) :
  (if Py.gtb (max_hr - rhr) 0
   then (rhr + (max_hr - rhr) * 0.6 - rhr) / (max_hr - rhr) else 0)
  == if Py.ltb rhr max_hr then 0.6 else 0.
Proof.
  unfold Py.gtb.
  destruct (ltb_spec 0 (max_hr - rhr)), (ltb_spec rhr max_hr); try lra.
  field. lra.
Qed.

(** The vector lists the values of [features] in their own order: every
    name of [FEATURE_COLUMNS] is a key, at the same position. *)
Lemma vector_of_features (req : RecommendRequestV4)
  (exercise : ExerciseCandidate) :
  _prepare_input_vector req exercise
  = PyX.and_then (features req exercise)
                 (fun features => PyX.Done (map snd features)).
Proof.
  unfold _prepare_input_vector, features, PyX.div.
  destruct (bmi _) as [v|]; [destruct (Qeq_bool v 0)|];
    destruct (met_value exercise) as [met|];
    repeat match goal with
           | |- context [Qeq_bool ?a ?b] => destruct (Qeq_bool a b)
           end; reflexivity.
Qed.

End FeatureFacts.

(** X21.  On a request and a candidate whose numbers are finite,
    [_prepare_input_vector] raises in three cases, met in this order:
    [ZeroDivisionError] when the request gives no BMI and a height of 0,
    [TypeError] when the candidate's [met_value] is [None],
    [ZeroDivisionError] when the duration is -60 minutes.  Otherwise the
    vector has 28 entries in the order of [FEATURE_COLUMNS]; the entries
    [effort], [pace] and [rest_period] are the constants 3, 0 and 60;
    [hr_reserve] is 0.6 whenever the resting heart rate is below
    [208 - 0.7 * age] and 0 otherwise; and for a positive duration
    [calorie_efficiency] is [met * 3.5 * weight / 200], whatever the
    duration. *)
Theorem input_vector_layout (req : RecommendationV4.RecommendRequestV4)
  (exercise : RecommendationV4.ExerciseCandidate) :
  let metrics := RecommendationV4.health_metrics req in
  let age := inject_Z (RecommendationV4.age metrics) in
  let rhr :=
    inject_Z (RecommendationV4.or_else_int
                (RecommendationV4.resting_heart_rate metrics) 70) in
  let duration :=
    inject_Z (RecommendationV4.or_else_int
                (RecommendationV4.duration_preference_min req) 45) in
  let no_bmi :=
    match RecommendationV4.bmi metrics with
    | Some v => Qeq_bool v 0
    | None => true
    end in
  let bmi_division :=
    no_bmi = true /\ RecommendationV4.height_cm metrics == 0 in
  match RecommendationV4._prepare_input_vector req exercise with
  | PyX.Fail e =>
      (bmi_division /\ e = PyX.ZeroDivisionError)
      \/ (~ bmi_division /\ RecommendationV4.met_value exercise = None
          /\ e = PyX.TypeError)
      \/ (~ bmi_division /\ RecommendationV4.met_value exercise <> None
          /\ duration == - (60) /\ e = PyX.ZeroDivisionError)
  | PyX.Done v =>
      ~ bmi_division /\ ~ duration == - (60)
      /\ List.length v = List.length RecommendationV4.FEATURE_COLUMNS
      /\ List.length v = 28%nat
      /\ nth 0 v 0 == duration
      /\ nth 5 v 0 == 3
      /\ nth 18 v 0 == 0
      /\ nth 20 v 0 == 60
      /\ nth 26 v 0 == (if Py.ltb rhr (208 - 0.7 * age) then 0.6 else 0)
      /\ exists met,
          RecommendationV4.met_value exercise = Some met
          /\ (0 < duration ->
              nth 27 v 0
              == met * 3.5 * RecommendationV4.weight_kg metrics / 200)
  end.
Proof.
  cbv zeta. rewrite vector_of_features.
  unfold RecommendationV4.features, PyX.div.
  set (metrics := RecommendationV4.health_metrics req).
  set (age := inject_Z (RecommendationV4.age metrics)).
  set (rhr := inject_Z (RecommendationV4.or_else_int _ 70)).
  set (duration := inject_Z (RecommendationV4.or_else_int _ 45)).
  set (h := RecommendationV4.height_cm metrics).
  pose proof (square_zero h) as Hh.
  assert (Hd : Qeq_bool (60 + duration) 0 = true <-> duration == - (60)).
  { rewrite Qeq_bool_iff. split; intros; lra. }
  assert (Hn : forall b, b = false -> ~ b = true) by (intros [] ?; congruence).
  destruct (RecommendationV4.bmi metrics) as [v|];
    [destruct (Qeq_bool v 0) eqn:Ev|];
    try (destruct (Qeq_bool (h / 100 * (h / 100)) 0) eqn:E1);
    cbn [PyX.and_then];
    try (left; split; [intuition congruence|reflexivity]);
    (destruct (RecommendationV4.met_value exercise) as [met|] eqn:Em;
     cbn [PyX.and_then];
     [|right; left; split; [intuition congruence|split; reflexivity]]);
    (destruct (Qeq_bool (60 + duration) 0) eqn:E2;
     cbn [PyX.and_then map snd List.length nth];
     [right; right; split; [intuition congruence|];
      split; [discriminate|]; split; [intuition congruence|reflexivity]|]).
  all: split; [intuition congruence|].
  all: split; [intuition congruence|].
  all: do 6 (split; [reflexivity|]).
  all: split; [apply reserve_share|].
  all: exists met; split; [reflexivity|].
  all: intros Hpos; unfold Py.gtb; destruct (ltb_spec 0 duration); [|lra].
  all: field; lra.
Qed.

Lemma input_vector_layout_witness :
  match RecommendationV4._prepare_input_vector (Sample.request 30) Sample.squat
  with
  | PyX.Fail _ => False
  | PyX.Done v => nth 27 v 0 == 6 * 3.5 * 80 / 200 /\ nth 26 v 0 == 0.6
  end.
Proof.
  pose proof (input_vector_layout (Sample.request 30) Sample.squat) as H.
  cbv zeta in H.
  destruct (RecommendationV4._prepare_input_vector (Sample.request 30)
              Sample.squat) as [v|e].
  - destruct H as (_ & _ & _ & _ & _ & _ & _ & _ & H26 & met & Hm & H27).
    injection Hm as <-.
    split; [apply H27; vm_compute; reflexivity|exact H26].
  - destruct H as [[[_ H] _]|[(_ & H & _)|(_ & _ & H & _)]];
      vm_compute in H; discriminate H.
Defined.

(** ** Column standardisation and basic cleaning of the trainer *)

Section ColumnFacts.

Import V4ModelTrainer.

Variable Column : Type.
Variables zeros unknowns neutrals : Column.

#[local] Abbreviation Frame := (Frame Column).
#[local] Abbreviation default :=
  (Formula.default_column zeros unknowns neutrals).

Lemma mem_In (x : string) (xs : list string) : mem x xs = true <-> In x xs.
Proof.
  unfold mem. rewrite existsb_exists. split.
  - intros (y & Hy & E). apply String.eqb_eq in E. now subst.
  - intros H. exists x. split; [exact H|apply String.eqb_refl].
Qed.

Lemma mem_false (x : string) (xs : list string) :
  mem x xs = false <-> ~ In x xs.
Proof.
  rewrite <- mem_In. destruct (mem x xs); split; congruence.
Qed.

Lemma mem_app (x : string) (xs ys : list string) :
  mem x (xs ++ ys) = mem x xs || mem x ys.
Proof. unfold mem. apply existsb_app. Qed.

Lemma dict_get_mem (data : Frame) (c : string) :
  dict_get data c = None <-> mem c (columns _ data) = false.
Proof.
  induction data as [|[k v] more IH]; cbn; [tauto|].
  rewrite (String.eqb_sym c k). destruct (String.eqb k c); cbn; [|exact IH].
  split; discriminate.
Qed.

Lemma dict_get_app (a b : Frame) (c : string) :
  dict_get (a ++ b) c
  = match dict_get a c with
    | Some v => Some v
    | None => dict_get b c
    end.
Proof.
  induction a as [|[k v] more IH]; cbn; [reflexivity|].
  destruct (String.eqb k c); [reflexivity|exact IH].
Qed.

Lemma dict_get_map (f : string -> Column) (l : list string) (c : string) :
  dict_get (map (fun k => (k, f k)) l) c
  = if mem c l then Some (f c) else None.
Proof.
  induction l as [|k more IH]; cbn; [reflexivity|].
  rewrite (String.eqb_sym c k). destruct (String.eqb k c) eqn:E; cbn.
  - apply String.eqb_eq in E. now subst.
  - exact IH.
Qed.

Lemma defaultable_default (c : string) :
  Formula.defaultable c = true <-> default c <> None.
Proof.
  unfold Formula.defaultable, Formula.default_column.
  destruct (mem c numeric_columns), (mem c categorical_columns),
    (mem c sepa_columns); cbn; split; congruence.
Qed.

Lemma defaultable_expected (c : string) :
  Formula.defaultable c = true -> mem c expected_columns = true.
Proof.
  intros H.
  assert (Hin : In c (numeric_columns ++ categorical_columns ++ sepa_columns)).
  { apply mem_In. rewrite !mem_app.
    unfold Formula.defaultable in H.
    destruct (mem c numeric_columns), (mem c categorical_columns),
      (mem c sepa_columns); cbn in *; congruence. }
  assert (Hall : forallb (fun c => mem c expected_columns)
                   (numeric_columns ++ categorical_columns ++ sepa_columns)
                 = true) by (vm_compute; reflexivity).
  rewrite forallb_forall in Hall. now apply Hall.
Qed.

Lemma expected_distinct : NoDup expected_columns.
Proof.
  unfold expected_columns.
  repeat (constructor; [cbn; intuition discriminate|]). constructor.
Qed.

Lemma add_missing_eq (data : Frame) (c : string) :
  add_missing _ zeros unknowns neutrals data c
  = if negb (mem c (columns _ data))
    then (data ++ Formula.created zeros unknowns neutrals [c])%list else data.
Proof.
  unfold add_missing, Formula.created, Formula.default_column. cbn [flat_map].
  destruct (mem c (columns _ data)), (mem c numeric_columns),
    (mem c categorical_columns), (mem c sepa_columns);
    cbn [negb app]; rewrite ?app_nil_r; reflexivity.
Qed.

Lemma created_columns (names : list string) :
  columns _ (Formula.created zeros unknowns neutrals names)
  = filter Formula.defaultable names.
Proof.
  induction names as [|c names IH]; [reflexivity|].
  unfold Formula.created in *. cbn [flat_map filter].
  unfold columns in *. rewrite map_app, IH.
  unfold Formula.defaultable, Formula.default_column.
  destruct (mem c numeric_columns), (mem c categorical_columns),
    (mem c sepa_columns); reflexivity.
Qed.

Lemma created_get (names : list string) (c : string) :
  dict_get (Formula.created zeros unknowns neutrals names) c
  = if mem c names then default c else None.
Proof.
  induction names as [|k names IH]; [reflexivity|].
  unfold Formula.created in *. cbn [flat_map]. rewrite dict_get_app, IH.
  unfold mem. cbn [existsb]. fold (mem c names).
  destruct (String.eqb c k) eqn:E.
  - apply String.eqb_eq in E. subst k. cbn [orb].
    destruct (default c) as [content|]; cbn [dict_get].
    + now rewrite String.eqb_refl.
    + now destruct (mem c names).
  - cbn [orb]. destruct (default k) as [content|]; cbn [dict_get];
      [rewrite String.eqb_sym, E|]; reflexivity.
Qed.

Lemma add_missing_loop (expected : list string) (data : Frame) :
  NoDup expected ->
  fold_left (add_missing _ zeros unknowns neutrals) expected data
  = (data ++ Formula.created zeros unknowns neutrals
               (filter (fun c => negb (mem c (columns _ data))) expected))%list.
Proof.
  intros Hn. revert data. induction Hn as [|c rest Hc _ IH]; intros data.
  - cbn. now rewrite app_nil_r.
  - cbn [fold_left]. rewrite IH, add_missing_eq. cbn [filter].
    assert (Hsame : forall extra,
               (forall c', In c' (columns _ extra) -> c' = c) ->
               filter (fun c' => negb (mem c' (columns _ (data ++ extra)))) rest
               = filter (fun c' => negb (mem c' (columns _ data))) rest).
    { intros extra Hx. apply filter_ext_in. intros c' Hin. f_equal.
      unfold columns. rewrite map_app, mem_app.
      destruct (mem c' (map fst extra)) eqn:E'; [|now rewrite orb_false_r].
      apply mem_In in E'. apply Hx in E'. subst c'. contradiction. }
    destruct (mem c (columns _ data)); cbn [negb]; [reflexivity|].
    rewrite Hsame.
    + rewrite <- app_assoc. f_equal.
      unfold Formula.created. cbn [flat_map]. now rewrite app_nil_r.
    + intros c'. rewrite created_columns. cbn [filter].
      destruct (Formula.defaultable c); cbn; intuition.
Qed.

Lemma add_remaining_in (cols final : list string) (c : string) :
  In c (fold_left add_remaining cols final) <-> In c final \/ In c cols.
Proof.
  revert final. induction cols as [|k cols IH]; intros final; cbn [fold_left].
  - cbn. tauto.
  - rewrite IH. unfold add_remaining.
    destruct (mem k final) eqn:E; cbn [negb In].
    + apply mem_In in E. intuition (subst; auto).
    + rewrite in_app_iff. cbn. intuition.
Qed.

Lemma add_remaining_loop (cols final : list string) :
  NoDup cols ->
  fold_left add_remaining cols final
  = (final ++ filter (fun c => negb (mem c final)) cols)%list.
Proof.
  intros Hn. revert final. induction Hn as [|k cols Hk _ IH]; intros final.
  - cbn. now rewrite app_nil_r.
  - cbn [fold_left filter]. rewrite IH. unfold add_remaining.
    destruct (mem k final) eqn:E; cbn [negb]; [reflexivity|].
    rewrite <- app_assoc. cbn [app]. do 2 f_equal.
    apply filter_ext_in. intros c Hin. rewrite mem_app. cbn.
    rewrite orb_false_r.
    destruct (String.eqb c k) eqn:E'; [|now rewrite orb_false_r].
    apply String.eqb_eq in E'. subst c. contradiction.
Qed.

Lemma select_get (data : Frame) (final : list string) (c : string) :
  dict_get (select _ data final) c
  = if mem c final then dict_get data c else None.
Proof.
  induction final as [|k final IH]; [reflexivity|].
  cbn [select]. unfold mem. cbn [existsb]. fold (mem c final).
  destruct (String.eqb c k) eqn:E.
  - apply String.eqb_eq in E. subst k. cbn [orb].
    destruct (dict_get data c) as [content|] eqn:G.
    + cbn [dict_get]. now rewrite String.eqb_refl.
    + rewrite IH. now destruct (mem c final).
  - cbn [orb]. destruct (dict_get data k) as [content|]; [|exact IH].
    cbn [dict_get]. rewrite String.eqb_sym, E. exact IH.
Qed.

Lemma select_columns (data : Frame) (final : list string) :
  (forall c, In c final -> mem c (columns _ data) = true) ->
  columns _ (select _ data final) = final.
Proof.
  induction final as [|k final IH]; intros H; [reflexivity|].
  cbn [select]. destruct (dict_get data k) as [content|] eqn:G.
  - cbn. f_equal. apply IH. intros c Hc. apply H. now right.
  - apply dict_get_mem in G. rewrite H in G by now left. discriminate.
Qed.

Lemma never_created (c : string) :
  In c ["suitability_x"; "fat_percentage"]%string -> default c = None.
Proof.
  cbn [In]. intros [<-|[<-|[]]]; reflexivity.
Qed.

Lemma filter_none {A : Type} (f : A -> bool) (l : list A) :
  (forall x, In x l -> f x = false) -> filter f l = [].
Proof.
  induction l as [|x l IH]; intros H; [reflexivity|].
  cbn [filter]. rewrite (H x) by now left.
  apply IH. intros y Hy. apply H. now right.
Qed.

End ColumnFacts.

(** X24.  For a frame with distinct column names,
    [_standardize_columns] first lists the expected names that the frame
    has or that get a default, in the expected order, then the other
    columns of the frame in their old order.  A column of the frame
    keeps its content; a missing numeric, categorical or SePA name gets
    its default column; a name outside the three lists is never
    created, so a frame without ['suitability_x'] or ['fat_percentage']
    is returned without them although both are expected. *)
Theorem standardize_columns_layout (Column : Type)
  (zeros unknowns neutrals : Column) (data : V4ModelTrainer.Frame Column) :
  NoDup (V4ModelTrainer.columns Column data) ->
  let result :=
    V4ModelTrainer._standardize_columns Column zeros unknowns neutrals data in
  V4ModelTrainer.columns Column result
  = (filter (fun c => V4ModelTrainer.mem c (V4ModelTrainer.columns Column data)
                      || Formula.defaultable c)
            V4ModelTrainer.expected_columns
     ++ filter (fun c => negb (V4ModelTrainer.mem c
                                 V4ModelTrainer.expected_columns))
               (V4ModelTrainer.columns Column data))%list
  /\ (forall c,
        dict_get result c
        = match dict_get data c with
          | Some content => Some content
          | None => Formula.default_column zeros unknowns neutrals c
          end)
  /\ (forall c,
        In c ["suitability_x"; "fat_percentage"]%string ->
        dict_get data c = None -> dict_get result c = None).
Proof.
  intros Hd. cbv zeta.
  unfold V4ModelTrainer._standardize_columns.
  rewrite (add_missing_loop Column zeros unknowns neutrals _ data
             expected_distinct).
  remember (V4ModelTrainer.columns Column data) as cols eqn:Ecols.
  remember (filter (fun c => negb (V4ModelTrainer.mem c cols))
                   V4ModelTrainer.expected_columns) as missing eqn:Emissing.
  remember (data ++ Formula.created zeros unknowns neutrals missing)%list
    as data1 eqn:Edata1.
  assert (Hcols1 : V4ModelTrainer.columns Column data1
                   = (cols ++ filter Formula.defaultable missing)%list).
  { rewrite Edata1, Ecols.
    rewrite <- (created_columns Column zeros unknowns neutrals missing).
    apply map_app. }
  assert (Hmem1 : forall c,
             V4ModelTrainer.mem c (V4ModelTrainer.columns Column data1)
             = V4ModelTrainer.mem c cols || Formula.defaultable c).
  { intros c. rewrite Hcols1, mem_app.
    destruct (V4ModelTrainer.mem c cols) eqn:Ec; [reflexivity|]. cbn [orb].
    destruct (Formula.defaultable c) eqn:Edef.
    - apply mem_In, filter_In. split; [|exact Edef].
      rewrite Emissing. apply filter_In. split; [|now rewrite Ec].
      apply mem_In. now apply defaultable_expected.
    - apply mem_false. intros Hin. apply filter_In in Hin. destruct Hin.
      congruence. }
  rewrite (filter_ext _ _ Hmem1).
  remember (filter (fun c => V4ModelTrainer.mem c cols || Formula.defaultable c)
                   V4ModelTrainer.expected_columns) as final0 eqn:Efinal0.
  assert (Hnd : NoDup (V4ModelTrainer.columns Column data1)).
  { rewrite Hcols1. apply NoDup_app; [exact Hd| |].
    - rewrite Emissing. apply NoDup_filter, NoDup_filter, expected_distinct.
    - intros c Hin Hin'. apply filter_In in Hin'. destruct Hin' as [Hm _].
      rewrite Emissing in Hm. apply filter_In in Hm. destruct Hm as [_ Hm].
      apply mem_In in Hin. now rewrite Hin in Hm. }
  rewrite (add_remaining_loop _ final0 Hnd).
  assert (Hrest : filter (fun c => negb (V4ModelTrainer.mem c final0))
                         (V4ModelTrainer.columns Column data1)
                  = filter (fun c => negb (V4ModelTrainer.mem c
                                             V4ModelTrainer.expected_columns))
                           cols).
  { rewrite Hcols1, filter_app.
    rewrite (filter_none (fun c => negb (V4ModelTrainer.mem c final0))
               (filter Formula.defaultable missing)).
    - rewrite app_nil_r. apply filter_ext_in. intros c Hin. f_equal.
      apply mem_In in Hin. rewrite Efinal0.
      destruct (V4ModelTrainer.mem c V4ModelTrainer.expected_columns) eqn:E.
      + apply mem_In, filter_In. split; [now apply mem_In|now rewrite Hin].
      + apply mem_false. intros H. apply filter_In in H. destruct H as [H _].
        apply mem_In in H. congruence.
    - intros c Hin.
      apply filter_In in Hin. destruct Hin as [Hin Hdef].
      rewrite Emissing in Hin. apply filter_In in Hin. destruct Hin as [Hexp _].
      apply negb_false_iff, mem_In. rewrite Efinal0. apply filter_In.
      split; [exact Hexp|]. rewrite Hdef. apply orb_true_r. }
  rewrite Hrest.
  remember (filter (fun c => negb (V4ModelTrainer.mem c
                                     V4ModelTrainer.expected_columns)) cols)
    as others eqn:Eothers.
  assert (Hget : forall c,
             dict_get (V4ModelTrainer.select Column data1 (final0 ++ others)) c
             = match dict_get data c with
               | Some content => Some content
               | None => Formula.default_column zeros unknowns neutrals c
               end).
  { intros c. rewrite select_get, mem_app.
    rewrite Edata1 at 1. rewrite dict_get_app, created_get.
    destruct (dict_get data c) as [content|] eqn:G.
    - assert (Hc : V4ModelTrainer.mem c cols = true).
      { destruct (V4ModelTrainer.mem c cols) eqn:E; [reflexivity|].
        rewrite Ecols in E. apply dict_get_mem in E. congruence. }
      destruct (V4ModelTrainer.mem c V4ModelTrainer.expected_columns) eqn:E.
      + assert (Hin : V4ModelTrainer.mem c final0 = true).
        { rewrite Efinal0. apply mem_In, filter_In.
          split; [now apply mem_In|now rewrite Hc]. }
        now rewrite Hin.
      + assert (Hin : V4ModelTrainer.mem c others = true).
        { rewrite Eothers. apply mem_In, filter_In.
          split; [now apply mem_In|now rewrite E]. }
        now rewrite Hin, orb_true_r.
    - apply dict_get_mem in G. rewrite <- Ecols in G.
      destruct (Formula.default_column zeros unknowns neutrals c)
        as [content|] eqn:Edef.
      + assert (Hdef : Formula.defaultable c = true).
        { apply (proj2 (defaultable_default Column zeros unknowns neutrals c)).
          congruence. }
        pose proof (defaultable_expected c Hdef) as Hexp.
        assert (Hin : V4ModelTrainer.mem c final0 = true).
        { rewrite Efinal0. apply mem_In, filter_In.
          split; [now apply mem_In|]. rewrite Hdef. apply orb_true_r. }
        assert (Hmiss : V4ModelTrainer.mem c missing = true).
        { rewrite Emissing. apply mem_In, filter_In.
          split; [now apply mem_In|now rewrite G]. }
        now rewrite Hin, Hmiss.
      + now destruct (V4ModelTrainer.mem c final0 || V4ModelTrainer.mem c others),
          (V4ModelTrainer.mem c missing). }
  split; [|split].
  - apply select_columns. intros c Hin. rewrite Hmem1.
    apply in_app_or in Hin. destruct Hin as [Hin|Hin].
    + rewrite Efinal0 in Hin. apply filter_In in Hin. now destruct Hin.
    + rewrite Eothers in Hin. apply filter_In in Hin. destruct Hin as [Hin _].
      apply mem_In in Hin. now rewrite Hin.
  - exact Hget.
  - intros c Hc Hnone. rewrite Hget, Hnone. now apply never_created.
Qed.

Lemma standardize_columns_layout_witness :
  dict_get
    (V4ModelTrainer._standardize_columns nat 0%nat 1%nat 3%nat
       [("note", 7%nat); ("mood", 4%nat)]%string) "age"%string
  = match dict_get [("note", 7%nat); ("mood", 4%nat)]%string "age"%string with
    | Some content => Some content
    | None => Formula.default_column 0%nat 1%nat 3%nat "age"%string
    end.
Proof.
  refine (proj1 (proj2 (standardize_columns_layout nat 0%nat 1%nat 3%nat
                          [("note", 7%nat); ("mood", 4%nat)]%string _))
            "age"%string).
  repeat (constructor; [cbn; intuition discriminate|]). constructor.
Defined.

(** X25.  [_basic_cleaning] raises [ZeroDivisionError] on a frame
    without rows, because its report divides by the initial row count.
    On any other frame it returns, in their old order, exactly the rows
    with age in [[16,80]], weight in [[35,200]], height in [[1.2,2.4]]
    and a positive estimated 1RM. *)
Theorem basic_cleaning_rows (Row : Type)
  (age weight_kg height_m estimated_1rm : Row -> Q) (data : list Row) :
  match data with
  | [] =>
      V4ModelTrainer._basic_cleaning Row age weight_kg height_m estimated_1rm
                                     data
      = PyX.Fail PyX.ZeroDivisionError
  | _ :: _ =>
      exists keep cleaned,
        V4ModelTrainer._basic_cleaning Row age weight_kg height_m
                                       estimated_1rm data
        = PyX.Done cleaned
        /\ cleaned = filter keep data
        /\ forall r,
             keep r = true
             <-> 16 <= age r <= 80 /\ 35 <= weight_kg r <= 200
                 /\ 1.2 <= height_m r <= 2.4 /\ 0 < estimated_1rm r
  end.
Proof.
  destruct data as [|r0 more]; [reflexivity|].
  set (data := r0 :: more).
  exists (fun r => (Py.geb (age r) 16 && Py.leb (age r) 80)
                   && (Py.geb (weight_kg r) 35 && Py.leb (weight_kg r) 200)
                   && (Py.geb (height_m r) 1.2 && Py.leb (height_m r) 2.4)
                   && Py.gtb (estimated_1rm r) 0).
  eexists. split; [|split].
  - unfold V4ModelTrainer._basic_cleaning, PyX.div.
    destruct (Qeq_bool (inject_Z (Z.of_nat (List.length data))) 0) eqn:E.
    + apply Qeq_bool_iff in E. unfold Qeq in E. cbn in E. lia.
    + cbn [PyX.and_then]. reflexivity.
  - induction data as [|r rest IH]; [reflexivity|].
    cbn [filter].
    destruct (Py.geb (age r) 16 && Py.leb (age r) 80); cbn [andb filter];
      [|exact IH].
    destruct (Py.geb (weight_kg r) 35 && Py.leb (weight_kg r) 200);
      cbn [andb filter]; [|exact IH].
    destruct (Py.geb (height_m r) 1.2 && Py.leb (height_m r) 2.4);
      cbn [andb filter]; [|exact IH].
    destruct (Py.gtb (estimated_1rm r) 0); cbn [andb filter];
      [now rewrite IH|exact IH].
  - intros r. unfold Py.geb, Py.gtb.
    destruct (leb_spec 16 (age r)), (leb_spec (age r) 80),
      (leb_spec 35 (weight_kg r)), (leb_spec (weight_kg r) 200),
      (leb_spec 1.2 (height_m r)), (leb_spec (height_m r) 2.4),
      (ltb_spec 0 (estimated_1rm r));
      cbn [andb]; split; intros Hk; try discriminate; try reflexivity;
      try (repeat split; assumption); lra.
Qed.

(** ** Suitability targets of the cleaned data *)

(** X26.  With the three SePA values on the 1..5 scale,
    [_calculate_enhanced_suitability] gives a score between 0.15 and 1:
    the lower clamp at 0 never acts.  A row with both intensities in
    their favoured ranges, a readiness factor above 1 and a resistance
    intensity matching the experience level gets exactly 1, whatever
    its SePA values. *)
Theorem enhanced_suitability_bounds (row : SepaFeatures.Features) :
  1 <= SepaFeatures.mood row <= 5 ->
  1 <= SepaFeatures.fatigue row <= 5 ->
  1 <= SepaFeatures.effort row <= 5 ->
  0.15 <= SepaFeatures._calculate_enhanced_suitability row <= 1
  /\ (0.1 < SepaFeatures.resistance_intensity row < 1.5 ->
      0.1 < SepaFeatures.cardio_intensity row < 1 ->
      1 < SepaFeatures.readiness row ->
      (2 <= SepaFeatures.experience_level row
       /\ 0.7 < SepaFeatures.resistance_intensity row)
      \/ (SepaFeatures.experience_level row < 2
          /\ SepaFeatures.resistance_intensity row < 0.9) ->
      SepaFeatures._calculate_enhanced_suitability row == 1).
Proof.
  intros Hm Hf He. unfold SepaFeatures._calculate_enhanced_suitability.
  set (s := (SepaFeatures.mood row + (6 - SepaFeatures.fatigue row)
             + SepaFeatures.effort row) / 3).
  assert (Hs : 1 <= s <= 5).
  { assert (E : s == (SepaFeatures.mood row + (6 - SepaFeatures.fatigue row)
                      + SepaFeatures.effort row) * (1 # 3))
      by (unfold s; field).
    rewrite E. lra. }
  clearbody s.
  set (r := SepaFeatures.resistance_intensity row).
  set (c := SepaFeatures.cardio_intensity row).
  set (f := SepaFeatures.readiness row).
  set (x := SepaFeatures.experience_level row).
  clearbody r c f x. split.
  - destruct (Py.gtb r 0.1 && Py.ltb r 1.5), (Py.gtb c 0.1 && Py.ltb c 1.0),
      (Py.gtb f 1.0), (Py.gtb f 0.9), (Py.ltb f 0.8), (Py.geb x 2),
      (Py.gtb r 0.7), (Py.ltb r 0.9);
      match goal with
      | |- context [Py.clip ?a 0.0 1.0] =>
          destruct (clip_cases a 0.0 1.0)
            as [(?&?&->)|[(?&?&->)|[(?&?&->)|(?&?&->)]]]
      end; lra.
  - clear Hm Hf He. intros Hr Hc Hf Hx. unfold Py.gtb, Py.geb.
    destruct (ltb_spec 0.1 r); [|lra]. destruct (ltb_spec r 1.5); [|lra].
    destruct (ltb_spec 0.1 c); [|lra]. destruct (ltb_spec c 1.0); [|lra].
    destruct (ltb_spec 1.0 f); [|lra]. cbn [andb].
    destruct (leb_spec 2 x), (ltb_spec 0.7 r), (ltb_spec r 0.9);
      match goal with
      | |- context [Py.clip ?a 0.0 1.0] =>
          destruct (clip_cases a 0.0 1.0)
            as [(?&?&->)|[(?&?&->)|[(?&?&->)|(?&?&->)]]]
      end; lra.
Qed.

Lemma enhanced_suitability_bounds_witness :
  0.15 <= SepaFeatures._calculate_enhanced_suitability
            {| SepaFeatures.resistance_intensity := 0.8;
               SepaFeatures.cardio_intensity := 0.5;
               SepaFeatures.readiness := 1.05;
               SepaFeatures.experience_level := 2;
               SepaFeatures.mood := 4;
               SepaFeatures.fatigue := 2;
               SepaFeatures.effort := 3 |} <= 1.
Proof.
  apply (enhanced_suitability_bounds
           {| SepaFeatures.resistance_intensity := 0.8;
              SepaFeatures.cardio_intensity := 0.5;
              SepaFeatures.readiness := 1.05;
              SepaFeatures.experience_level := 2;
              SepaFeatures.mood := 4;
              SepaFeatures.fatigue := 2;
              SepaFeatures.effort := 3 |});
    cbn; lra.
Defined.

(** ** Title normalisation of the merge script *)

Section NormalizeFacts.

Import MergeExerciseDataset.

Lemma letter_facts (c : ascii) :
  Formula.letter c = true ->
  Str.isspace c = false /\ Str.lower_char c = c
  /\ Ascii.eqb c " "%char = false /\ kept c = true.
Proof.
  destruct c as [[] [] [] [] [] [] [] []]; vm_compute; intros H;
    try discriminate H; repeat split; reflexivity.
Qed.

Lemma kept_cases (c : ascii) :
  kept c = true ->
  (Str.isspace c = true /\ Formula.letter c = false)
  \/ (Str.isspace c = false /\ Formula.letter c = true
      /\ Ascii.eqb c " "%char = false).
Proof.
  destruct c as [[] [] [] [] [] [] [] []]; vm_compute; intros H;
    try discriminate H; auto.
Qed.

Lemma keep_letters_kept (s : string) :
  forall c, In c (list_ascii_of_string (keep_letters s)) -> kept c = true.
Proof.
  induction s as [|a s IH]; cbn; [tauto|].
  destruct (kept a) eqn:E; [|exact IH].
  cbn. intros c [<-|H]; [exact E|now apply IH].
Qed.

Lemma collapse_spaced (s : string) (in_run : bool) :
  (forall c, In c (list_ascii_of_string s) -> kept c = true) ->
  Formula.spaced_from (collapse s in_run) in_run = true.
Proof.
  revert in_run. induction s as [|a s IH]; intros in_run H; [reflexivity|].
  assert (Ha : kept a = true) by (apply H; now left).
  assert (Hs : forall c, In c (list_ascii_of_string s) -> kept c = true)
    by (intros c Hc; apply H; now right).
  cbn [collapse].
  destruct (kept_cases a Ha) as [[-> _]|(-> & Hl & Hsp)].
  - destruct in_run; [now apply IH|].
    cbn [Formula.spaced_from]. rewrite Ascii.eqb_refl. cbn. now apply IH.
  - cbn [Formula.spaced_from]. rewrite Hsp, Hl. cbn. now apply IH.
Qed.

Lemma lstrip_spaced (s : string) (b : bool) :
  Formula.spaced_from s b = true ->
  Formula.spaced_from (Str.lstrip s) true = true.
Proof.
  destruct s as [|a s]; [reflexivity|]. cbn [Formula.spaced_from Str.lstrip].
  destruct (Ascii.eqb a " "%char) eqn:E.
  - apply Ascii.eqb_eq in E. subst a.
    rewrite andb_true_iff. intros [_ H].
    change (Str.isspace " "%char) with true. cbn iota.
    destruct s as [|a' s']; [reflexivity|].
    cbn [Formula.spaced_from Str.lstrip] in *.
    destruct (Ascii.eqb a' " "%char) eqn:E'; [discriminate H|].
    apply andb_true_iff in H. destruct H as [Hl Hr].
    destruct (letter_facts a' Hl) as (-> & _).
    cbn [Formula.spaced_from]. now rewrite E', Hl, Hr.
  - rewrite andb_true_iff. intros [Hl Hr].
    destruct (letter_facts a Hl) as (-> & _).
    cbn [Formula.spaced_from]. now rewrite E, Hl, Hr.
Qed.

Lemma rstrip_spaced (s : string) (b : bool) :
  Formula.spaced_from s b = true ->
  Str.rstrip s = EmptyString
  \/ Formula.normal_from (Str.rstrip s) b = true.
Proof.
  revert b. induction s as [|a s IH]; intros b; [now left|].
  cbn [Formula.spaced_from Str.rstrip].
  destruct (Ascii.eqb a " "%char) eqn:E.
  - apply Ascii.eqb_eq in E. subst a.
    rewrite andb_true_iff. intros [Hb H]. apply negb_true_iff in Hb. subst b.
    destruct (IH true H) as [->|Hn]; [now left|].
    destruct (Str.rstrip s) as [|a' r] eqn:Er; [discriminate Hn|].
    right. cbn [Formula.normal_from]. rewrite Ascii.eqb_refl. exact Hn.
  - rewrite andb_true_iff. intros [Hl H].
    destruct (letter_facts a Hl) as (Hsp & _).
    right. destruct (IH false H) as [->|Hn].
    + rewrite Hsp. cbn [Formula.normal_from]. now rewrite E, Hl.
    + destruct (Str.rstrip s) as [|a' r] eqn:Er.
      * rewrite Hsp. cbn [Formula.normal_from]. now rewrite E, Hl.
      * cbn [Formula.normal_from] in *. now rewrite E, Hl, Hn.
Qed.

Lemma normal_lower (s : string) (b : bool) :
  Formula.normal_from s b = true -> Str.lower s = s.
Proof.
  revert b. induction s as [|a s IH]; intros b; [reflexivity|].
  cbn [Formula.normal_from Str.lower].
  destruct (Ascii.eqb a " "%char) eqn:E; rewrite andb_true_iff; intros [H1 H2].
  - apply Ascii.eqb_eq in E. subst a.
    change (Str.lower_char " "%char) with " "%char. f_equal. now apply (IH true).
  - destruct (letter_facts a H1) as (_ & -> & _). f_equal. now apply (IH false).
Qed.

Lemma normal_keep (s : string) (b : bool) :
  Formula.normal_from s b = true -> keep_letters s = s.
Proof.
  revert b. induction s as [|a s IH]; intros b; [reflexivity|].
  cbn [Formula.normal_from keep_letters].
  destruct (Ascii.eqb a " "%char) eqn:E; rewrite andb_true_iff; intros [H1 H2].
  - apply Ascii.eqb_eq in E. subst a.
    change (kept " "%char) with true. cbn iota. f_equal. now apply (IH true).
  - destruct (letter_facts a H1) as (_ & _ & _ & ->). f_equal.
    now apply (IH false).
Qed.

Lemma normal_collapse (s : string) (b in_run : bool) :
  Formula.normal_from s b = true -> b = true \/ in_run = false ->
  collapse s in_run = s.
Proof.
  revert b in_run. induction s as [|a s IH]; intros b in_run; [reflexivity|].
  cbn [Formula.normal_from collapse].
  destruct (Ascii.eqb a " "%char) eqn:E; rewrite andb_true_iff;
    intros [H1 H2] Hb.
  - apply Ascii.eqb_eq in E. subst a. apply negb_true_iff in H1. subst b.
    destruct Hb as [Hb| ->]; [discriminate Hb|].
    change (Str.isspace " "%char) with true. cbn iota. f_equal.
    apply (IH true true H2). now left.
  - destruct (letter_facts a H1) as (-> & _). f_equal.
    apply (IH false false H2). now right.
Qed.

Lemma normal_rstrip (s : string) (b : bool) :
  Formula.normal_from s b = true -> Str.rstrip s = s.
Proof.
  revert b. induction s as [|a s IH]; intros b; [reflexivity|].
  cbn [Formula.normal_from Str.rstrip].
  destruct (Ascii.eqb a " "%char) eqn:E; rewrite andb_true_iff; intros [H1 H2].
  - rewrite (IH true H2). destruct s; [discriminate H2|reflexivity].
  - rewrite (IH false H2). destruct (letter_facts a H1) as (-> & _).
    now destruct s.
Qed.

Lemma normal_lstrip (s : string) :
  Formula.normal_from s true = true -> Str.lstrip s = s.
Proof.
  destruct s as [|a s]; [reflexivity|]. cbn [Formula.normal_from Str.lstrip].
  destruct (Ascii.eqb a " "%char); [discriminate|].
  rewrite andb_true_iff. intros [H1 _].
  now destruct (letter_facts a H1) as (-> & _).
Qed.

Lemma normalize_normal (text : option string) :
  Formula.normal (normalize text) = true.
Proof.
  destruct text as [text|]; [|reflexivity]. unfold normalize, Str.strip.
  pose proof (collapse_spaced (keep_letters (Str.lower text)) false
                (keep_letters_kept _)) as H.
  apply lstrip_spaced in H. apply rstrip_spaced in H.
  destruct H as [->|H]; [reflexivity|].
  unfold Formula.normal. now destruct (Str.rstrip _).
Qed.

Lemma normal_fixed (u : string) :
  Formula.normal u = true -> normalize (Some u) = u.
Proof.
  destruct u as [|a u]; [reflexivity|]. unfold Formula.normal.
  set (s := String a u). intros H. unfold normalize, Str.strip.
  rewrite (normal_lower s true H), (normal_keep s true H).
  rewrite (normal_collapse s true false H) by now left.
  rewrite (normal_lstrip s H). apply (normal_rstrip s true H).
Qed.

End NormalizeFacts.

(** X27.  [normalize] returns a text in normal form: lower-case ASCII
    letters in words separated by single spaces, without a space at
    either end.  Every text in normal form is returned unchanged, so
    normalising twice gives the same result as normalising once. *)
Theorem normalize_idempotent (text : option string) :
  Formula.normal (MergeExerciseDataset.normalize text) = true
  /\ (forall u, Formula.normal u = true ->
                MergeExerciseDataset.normalize (Some u) = u)
  /\ MergeExerciseDataset.normalize
       (Some (MergeExerciseDataset.normalize text))
     = MergeExerciseDataset.normalize text.
Proof.
  split; [apply normalize_normal|]. split; [apply normal_fixed|].
  apply normal_fixed, normalize_normal.
Qed.

Lemma normalize_idempotent_witness :
  MergeExerciseDataset.normalize (Some "bench press"%string)
  = "bench press"%string.
Proof.
  apply (proj1 (proj2 (normalize_idempotent None))). reflexivity.
Defined.
